(** * scuffed-uno: the room state machine, its deck and its state projection

    A shallow embedding of the server side of the card game: [Deck]
    (generation, Fisher-Yates shuffle, picking), the [Room] operations
    (seating, dealing, drawing, playing, turn advance, discard recycling,
    win detection, per-viewer projection) and the handlers of the socket
    gateway.

    Modelling conventions.
    - Objects.  [Player] objects are shared by reference between the room's
      seating list, its [turn] and [host] fields and the gateway registry, and
      are only ever compared through their [id].  A reference is therefore a
      [PlayerId], and the objects live in a heap [PlayerId -> Player.t].
    - Numbers.  Indices and amounts that the source compares with [-1] or lets
      go negative are [Z]; lengths and card numbers are [nat].
    - Cards.  [Deck.pickCard] returns the array that [splice] returns and the
      room stores it as it is, so a slot of a hand or of the pile holds a
      [Card] or such an array ([Card.t]); a field an array lacks reads as
      [undefined] ([None]).
    - Exceptions.  Reading a property of [undefined] throws a [TypeError];
      operations run in a state-and-error monad and [None] is the throw.
    - Loops.  The voluntary draw of [drawCards] goes on until a drawn card
      can be played, which nothing in the source bounds: the model allows a
      number of passes, a parameter, and has no result ([None]) beyond.
    - Randomness.  Every [Math.random()] reads the next entry of a tape held
      in the state; [Math.floor(Math.random() * n)] is that entry modulo [n].
    - Time.  [await sleep(..)] only paces the animation: an operation is
      modelled run to completion, as the single-threaded event loop runs it
      when no other intent arrives in between.  Statistics counters and the
      inactivity interval handle are not part of the state. *)

From Stdlib Require Import ZArith Lia Bool.
From stdpp Require Import base list strings gmap.

Local Open Scope Z_scope.
Local Open Scope nat_scope.

(** ** Cards *)

Module Card.

(** Modelled from the spec: the [CardColor] enumeration of Card.ts, in the
    order [Red, Yellow, Green, Blue, None] (the deck's [colors] table is
    [0, 1, 2, 3]). *)
Inductive CardColor := Red | Yellow | Green | Blue | NoColor.

(** Modelled from the spec: the [CardType] enumeration of Card.ts, in the
    order [None, Plus2, Reverse, Skip, Wildcard, Plus4]. *)
Inductive CardType := NoType | Plus2 | Reverse | Skip | Wildcard | Plus4.

#[global] Instance CardColor_eq_dec : EqDecision CardColor.
Proof. solve_decision. Defined.
#[global] Instance CardType_eq_dec : EqDecision CardType.
Proof. solve_decision. Defined.

Definition colorIndex (c : CardColor) : nat :=
  match c with Red => 0 | Yellow => 1 | Green => 2 | Blue => 3 | NoColor => 4 end.

Definition colorOfIndex (n : nat) : option CardColor :=
  match n with
  | 0 => Some Red | 1 => Some Yellow | 2 => Some Green | 3 => Some Blue
  | 4 => Some NoColor | _ => None
  end.

Definition typeIndex (t : CardType) : nat :=
  match t with
  | NoType => 0 | Plus2 => 1 | Reverse => 2 | Skip => 3 | Wildcard => 4 | Plus4 => 5
  end.

Definition typeOfIndex (n : nat) : option CardType :=
  match n with
  | 0 => Some NoType | 1 => Some Plus2 | 2 => Some Reverse | 3 => Some Skip
  | 4 => Some Wildcard | 5 => Some Plus4 | _ => None
  end.

(** Modelled from the spec: the [Card] class of Card.ts, an object with a
    unique [id], a [number], a [type], and the mutable fields [color] and
    [playable] (false on creation). *)
Record card := mkCard {
  c_id : nat;
  c_number : nat;
  c_color : CardColor;
  c_type : CardType;
  c_playable : bool
}.

(** What a slot of the deck, of the pile or of a hand holds at run time.
    [generateDeck] fills the deck with [Card] objects.  [Deck.pickCard]
    returns what [splice] returns, an array holding the removed card (or
    nothing), and [giveCard] and [startGame] store that array as it is: the
    other shape of a slot.  An array has no [id], [number] or [type]
    (reading them gives [undefined]); it is an object, so an assignment to
    [color] or [playable] gives it that property.  [tag] stands for the
    identity of the array object, which tells apart the arrays of one hand;
    no code reads it. *)
#[local] Unset Elimination Schemes.
Inductive t :=
| Real (c : card)
| Splice (tag : nat) (items : option t) (color : option CardColor) (playable : bool).
#[local] Set Elimination Schemes.

(** [new Card(..)] with its fields. *)
Definition mk (k n : nat) (co : CardColor) (ty : CardType) (pl : bool) : t :=
  Real (mkCard k n co ty pl).

(** The field reads [x.id], [x.number], [x.type] and [x.color]; [None] is
    [undefined]. *)
Definition id (x : t) : option nat :=
  match x with Real c => Some (c_id c) | Splice _ _ _ _ => None end.

Definition number (x : t) : option nat :=
  match x with Real c => Some (c_number c) | Splice _ _ _ _ => None end.

Definition type (x : t) : option CardType :=
  match x with Real c => Some (c_type c) | Splice _ _ _ _ => None end.

Definition color (x : t) : option CardColor :=
  match x with Real c => Some (c_color c) | Splice _ _ co _ => co end.

(** [x.playable] where the code tests it: [undefined] counts as false. *)
Definition playable (x : t) : bool :=
  match x with Real c => c_playable c | Splice _ _ _ pl => pl end.

Definition tagOf (x : t) : option nat :=
  match x with Real _ => None | Splice a _ _ _ => Some a end.

Definition setColor (co : CardColor) (x : t) : t :=
  match x with
  | Real c => Real (mkCard (c_id c) (c_number c) co (c_type c) (c_playable c))
  | Splice a i _ pl => Splice a i (Some co) pl
  end.

Definition setPlayable (b : bool) (x : t) : t :=
  match x with
  | Real c => Real (mkCard (c_id c) (c_number c) (c_color c) (c_type c) b)
  | Splice a i co _ => Splice a i co b
  end.

Definition isWild (x : t) : bool :=
  bool_decide (type x = Some Wildcard) || bool_decide (type x = Some Plus4).

(** What never changes in a slot: everything but the [playable] flag and the
    colour of a wild card, which is assigned and stripped. *)
Definition core (x : t) : t :=
  match x with
  | Real c =>
      Real (mkCard (c_id c) (c_number c)
              (if bool_decide (c_type c = Wildcard) || bool_decide (c_type c = Plus4)
               then NoColor else c_color c)
              (c_type c) false)
  | Splice a i co _ => Splice a i co false
  end.

(** The [Card] objects a slot leads to: itself, or what the array holds. *)
Fixpoint contents (x : t) : list card :=
  match x with
  | Real c => [c]
  | Splice _ (Some y) _ _ => contents y
  | Splice _ None _ _ => []
  end.

(** What identifies a [Card] object: its id, number and type, and its colour
    unless it is a wild card. *)
Definition ident (c : card) : nat * nat * CardType * CardColor :=
  (c_id c, c_number c, c_type c,
   if bool_decide (c_type c = Wildcard) || bool_decide (c_type c = Plus4)
   then NoColor else c_color c).

(** The number of arrays around the [Card] object of a slot. *)
Fixpoint depth (x : t) : nat :=
  match x with
  | Real _ => 0
  | Splice _ (Some y) _ _ => S (depth y)
  | Splice _ None _ _ => 1
  end.

(** The smallest tag above those of the arrays of [l]. *)
Definition freshTag (l : list t) : nat :=
  foldr (fun x n => match tagOf x with Some a => Nat.max (S a) n | None => n end) 0 l.

End Card.

(** ** The deck *)

Module Deck.
Import Card.

Definition colors : list CardColor := [Red; Yellow; Green; Blue].

(** [for (let type = lo; type <= hi; type++)] over the enumeration. *)
Definition typeRange (lo hi : CardType) : list CardType :=
  omap typeOfIndex (seq (typeIndex lo) (S (typeIndex hi) - typeIndex lo)).

(** The arguments of the [new Card(number, color, type)] calls of
    [generateDeck], in the order the calls are made. *)
Definition colorGroup (c : CardColor) : list (nat * CardColor * CardType) :=
  [(0, c, NoType)]
  ++ flat_map (fun n => [(n, c, NoType); (n, c, NoType)]) (seq 1 9)
  ++ flat_map (fun ty => [(0, c, ty); (0, c, ty)]) (typeRange Plus2 Skip).

Definition wildGroup : list (nat * CardColor * CardType) :=
  flat_map (fun ty => [(0, NoColor, ty); (0, NoColor, ty)]) (typeRange Wildcard Plus4).

(** [new Card(..)]: the [k]-th card created takes the [k]-th fresh id. *)
Definition newCard (k : nat) (a : nat * CardColor * CardType) : Card.t :=
  Card.mk k a.1.1 a.1.2 a.2 false.

(** [generateDeck]: [this.cards = []], then the pushes; [fresh] is the id of
    the first card created. *)
Definition generateDeck (fresh : nat) : list Card.t :=
  imap (fun i a => newCard (fresh + i) a) (flat_map colorGroup colors ++ wildGroup).

(** [Math.floor(Math.random() * n)] on the tape [rs]. *)
Definition randBelow (n : nat) (rs : list nat) : nat * list nat :=
  match rs with
  | [] => (0, [])
  | r :: rs' => (match n with 0 => 0 | _ => r mod n end, rs')
  end.

(** [temp = cards[i]; cards[i] = cards[j]; cards[j] = temp]. *)
Definition swap {A} (i j : nat) (l : list A) : list A :=
  match l !! i, l !! j with
  | Some a, Some b => <[j := a]> (<[i := b]> l)
  | _, _ => l
  end.

(** The [while (0 !== i)] loop of [shuffleDeck], by recursion on [i]. *)
Fixpoint shuffleFrom {A} (i : nat) (cards : list A) (rs : list nat) : list A * list nat :=
  match i with
  | 0 => (cards, rs)
  | S i' =>
      let '(randIndex, rs') := randBelow (S i') rs in
      shuffleFrom i' (swap i' randIndex cards) rs'
  end.

Definition shuffleDeck {A} (cards : list A) (rs : list nat) : list A * list nat :=
  shuffleFrom (length cards) cards rs.

(** [pickCard(i)] is [cards.splice(i, 1)]: the removed card, if any, and the
    remaining deck.  The room calls it without an index, which splices at the
    front. *)
Definition pickCard {A} (i : nat) (cards : list A) : option A * list A :=
  (cards !! i, delete i cards).

Definition countType (ty : CardType) (l : list Card.t) : nat :=
  length (filter (fun c => type c = Some ty) l).

Definition countColor (co : CardColor) (l : list Card.t) : nat :=
  length (filter (fun c => color c = Some co) l).

End Deck.


(** ** Players *)

Definition PlayerId := nat.

(** Array access [l[i]] with a JavaScript number: [undefined] outside
    [0 .. length - 1]. *)
Definition at_ {A} (l : list A) (i : Z) : option A :=
  if (0 <=? i)%Z then l !! Z.to_nat i else None.

(** [l.findIndex(P)]: the first index whose element satisfies [P], else -1. *)
Fixpoint findIndex {A} (P : A -> bool) (l : list A) : Z :=
  match l with
  | [] => (-1)%Z
  | x :: l' => if P x then 0%Z else
      let r := findIndex P l' in if (r <? 0)%Z then (-1)%Z else (r + 1)%Z
  end.

Module Player.

(** Modelled from the spec: the fields of the [Player] class of Player.ts that
    the room and the gateway read and write.  The [id] is the heap address;
    [socket] tells whether the object holds a socket ([null] for a bot). *)
Record t := mk {
  username : string;
  cards : list Card.t;
  bot : bool;
  socket : bool;
  inRoom : bool;
  roomId : string;
  canDraw : bool;
  canPlay : bool;
  drawing : bool;
  hasCalledUno : bool;
  mustStack : bool;
  lastDrawnCard : Z
}.

Definition setUsername (v : string) (x : t) : t :=
  mk v (cards x) (bot x) (socket x) (inRoom x) (roomId x) (canDraw x) (canPlay x) (drawing x) (hasCalledUno x) (mustStack x) (lastDrawnCard x).
Definition setCards (v : list Card.t) (x : t) : t :=
  mk (username x) v (bot x) (socket x) (inRoom x) (roomId x) (canDraw x) (canPlay x) (drawing x) (hasCalledUno x) (mustStack x) (lastDrawnCard x).
Definition setBot (v : bool) (x : t) : t :=
  mk (username x) (cards x) v (socket x) (inRoom x) (roomId x) (canDraw x) (canPlay x) (drawing x) (hasCalledUno x) (mustStack x) (lastDrawnCard x).
Definition setSocket (v : bool) (x : t) : t :=
  mk (username x) (cards x) (bot x) v (inRoom x) (roomId x) (canDraw x) (canPlay x) (drawing x) (hasCalledUno x) (mustStack x) (lastDrawnCard x).
Definition setInRoom (v : bool) (x : t) : t :=
  mk (username x) (cards x) (bot x) (socket x) v (roomId x) (canDraw x) (canPlay x) (drawing x) (hasCalledUno x) (mustStack x) (lastDrawnCard x).
Definition setRoomId (v : string) (x : t) : t :=
  mk (username x) (cards x) (bot x) (socket x) (inRoom x) v (canDraw x) (canPlay x) (drawing x) (hasCalledUno x) (mustStack x) (lastDrawnCard x).
Definition setCanDraw (v : bool) (x : t) : t :=
  mk (username x) (cards x) (bot x) (socket x) (inRoom x) (roomId x) v (canPlay x) (drawing x) (hasCalledUno x) (mustStack x) (lastDrawnCard x).
Definition setCanPlay (v : bool) (x : t) : t :=
  mk (username x) (cards x) (bot x) (socket x) (inRoom x) (roomId x) (canDraw x) v (drawing x) (hasCalledUno x) (mustStack x) (lastDrawnCard x).
Definition setDrawing (v : bool) (x : t) : t :=
  mk (username x) (cards x) (bot x) (socket x) (inRoom x) (roomId x) (canDraw x) (canPlay x) v (hasCalledUno x) (mustStack x) (lastDrawnCard x).
Definition setHasCalledUno (v : bool) (x : t) : t :=
  mk (username x) (cards x) (bot x) (socket x) (inRoom x) (roomId x) (canDraw x) (canPlay x) (drawing x) v (mustStack x) (lastDrawnCard x).
Definition setMustStack (v : bool) (x : t) : t :=
  mk (username x) (cards x) (bot x) (socket x) (inRoom x) (roomId x) (canDraw x) (canPlay x) (drawing x) (hasCalledUno x) v (lastDrawnCard x).
Definition setLastDrawnCard (v : Z) (x : t) : t :=
  mk (username x) (cards x) (bot x) (socket x) (inRoom x) (roomId x) (canDraw x) (canPlay x) (drawing x) (hasCalledUno x) (mustStack x) v.

(** Modelled from the spec: [new Player(socket, bot)], outside any room, with
    an empty hand and no flag set. *)
Definition new (hasSocket isBot : bool) : t :=
  mk EmptyString [] isBot hasSocket false EmptyString false false false false false (-1)%Z.

(** Modelled from the spec: the matching rule of [findPlayableCards].  A hand
    card is playable on [top] when it has its colour, or its number (numbered
    cards), or its type (action cards), or is a Wildcard or Plus4; a player
    who must stack may only play the penalty type lying on top.  Fields are
    compared as [===] compares them: two [undefined] fields are equal. *)
Definition matches (must : bool) (top c : Card.t) : bool :=
  if must then bool_decide (Card.type c = Card.type top)
  else bool_decide (Card.color c = Card.color top)
       || (bool_decide (Card.type c = Some Card.NoType)
           && bool_decide (Card.type top = Some Card.NoType)
           && bool_decide (Card.number c = Card.number top))
       || (negb (bool_decide (Card.type c = Some Card.NoType))
           && bool_decide (Card.type c = Card.type top))
       || Card.isWild c.

(** Modelled from the spec: [findPlayableCards(topCard)] recomputes the
    [playable] flag of every hand card. *)
Definition findPlayableCards (top : Card.t) (p : t) : t :=
  setCards (map (fun c => Card.setPlayable (matches (mustStack p) top c) c) (cards p)) p.

(** Modelled from the spec: [clearPlayableCards()] strips the [playable] flag
    of every hand card. *)
Definition clearPlayableCards (p : t) : t :=
  setCards (map (Card.setPlayable false) (cards p)) p.

(** Modelled from the spec: the order of [sortCards()], by colour, numbered
    cards before action cards of the colour, then by number; a slot without
    colour or number comes last in its group. *)
Definition sortKey (a : Card.t) : nat * nat * nat :=
  (from_option Card.colorIndex 5 (Card.color a),
   if bool_decide (Card.type a = Some Card.NoType) then 0 else 1,
   default 10 (Card.number a)).

Definition cardLe (a b : Card.t) : bool :=
  let ka := sortKey a in
  let kb := sortKey b in
  (ka.1.1 <? kb.1.1)
  || ((ka.1.1 =? kb.1.1)
      && ((ka.1.2 <? kb.1.2) || ((ka.1.2 =? kb.1.2) && (ka.2 <=? kb.2)))).

Fixpoint insertCard (x : Card.t) (l : list Card.t) : list Card.t :=
  match l with
  | [] => [x]
  | y :: l' => if cardLe x y then x :: y :: l' else y :: insertCard x l'
  end.

(** Modelled from the spec: [sortCards()], a stable sort of the hand. *)
Definition sortCards (p : t) : t :=
  setCards (foldr insertCard [] (cards p)) p.

End Player.

(** ** Rooms: state *)

Module Room.

Record Settings := mkSettings {
  stacking : bool;
  forcePlay : bool;
  bluffing : bool;
  drawToPlay : bool;
  public : bool;
  maxPlayers : nat
}.

(** The fields of the [Room] class.  [turn] is [None] once
    [this.turn = this.getNextPlayer()] has stored [undefined]. *)
Record t := mk {
  id : string;
  started : bool;
  host : PlayerId;
  players : list PlayerId;
  deck : list Card.t;
  pile : list Card.t;
  turn : option PlayerId;
  directionReversed : bool;
  stack : Z;
  winner : option PlayerId;
  isRoomEmpty : bool;
  inactivityTimer : nat;
  wildcard : option Card.t;
  settings : Settings
}.

Definition setId (v : string) (x : t) : t :=
  mk v (started x) (host x) (players x) (deck x) (pile x) (turn x) (directionReversed x) (stack x) (winner x) (isRoomEmpty x) (inactivityTimer x) (wildcard x) (settings x).
Definition setStarted (v : bool) (x : t) : t :=
  mk (id x) v (host x) (players x) (deck x) (pile x) (turn x) (directionReversed x) (stack x) (winner x) (isRoomEmpty x) (inactivityTimer x) (wildcard x) (settings x).
Definition setHost (v : PlayerId) (x : t) : t :=
  mk (id x) (started x) v (players x) (deck x) (pile x) (turn x) (directionReversed x) (stack x) (winner x) (isRoomEmpty x) (inactivityTimer x) (wildcard x) (settings x).
Definition setPlayers (v : list PlayerId) (x : t) : t :=
  mk (id x) (started x) (host x) v (deck x) (pile x) (turn x) (directionReversed x) (stack x) (winner x) (isRoomEmpty x) (inactivityTimer x) (wildcard x) (settings x).
Definition setDeck (v : list Card.t) (x : t) : t :=
  mk (id x) (started x) (host x) (players x) v (pile x) (turn x) (directionReversed x) (stack x) (winner x) (isRoomEmpty x) (inactivityTimer x) (wildcard x) (settings x).
Definition setPile (v : list Card.t) (x : t) : t :=
  mk (id x) (started x) (host x) (players x) (deck x) v (turn x) (directionReversed x) (stack x) (winner x) (isRoomEmpty x) (inactivityTimer x) (wildcard x) (settings x).
Definition setTurn (v : option PlayerId) (x : t) : t :=
  mk (id x) (started x) (host x) (players x) (deck x) (pile x) v (directionReversed x) (stack x) (winner x) (isRoomEmpty x) (inactivityTimer x) (wildcard x) (settings x).
Definition setDirectionReversed (v : bool) (x : t) : t :=
  mk (id x) (started x) (host x) (players x) (deck x) (pile x) (turn x) v (stack x) (winner x) (isRoomEmpty x) (inactivityTimer x) (wildcard x) (settings x).
Definition setStack (v : Z) (x : t) : t :=
  mk (id x) (started x) (host x) (players x) (deck x) (pile x) (turn x) (directionReversed x) v (winner x) (isRoomEmpty x) (inactivityTimer x) (wildcard x) (settings x).
Definition setWinner (v : option PlayerId) (x : t) : t :=
  mk (id x) (started x) (host x) (players x) (deck x) (pile x) (turn x) (directionReversed x) (stack x) v (isRoomEmpty x) (inactivityTimer x) (wildcard x) (settings x).
Definition setIsRoomEmpty (v : bool) (x : t) : t :=
  mk (id x) (started x) (host x) (players x) (deck x) (pile x) (turn x) (directionReversed x) (stack x) (winner x) v (inactivityTimer x) (wildcard x) (settings x).
Definition setInactivityTimer (v : nat) (x : t) : t :=
  mk (id x) (started x) (host x) (players x) (deck x) (pile x) (turn x) (directionReversed x) (stack x) (winner x) (isRoomEmpty x) v (wildcard x) (settings x).
Definition setWildcard (v : option Card.t) (x : t) : t :=
  mk (id x) (started x) (host x) (players x) (deck x) (pile x) (turn x) (directionReversed x) (stack x) (winner x) (isRoomEmpty x) (inactivityTimer x) v (settings x).
Definition setSettings (v : Settings) (x : t) : t :=
  mk (id x) (started x) (host x) (players x) (deck x) (pile x) (turn x) (directionReversed x) (stack x) (winner x) (isRoomEmpty x) (inactivityTimer x) (wildcard x) v.

(** [new Room(host, settings, id)] before its call of [addPlayer(host)]. *)
Definition create (rid : string) (h : PlayerId) (st : Settings) : t :=
  mk rid false h [] [] [] (Some h) false 0%Z None false 0 None st.

(** The opponent entries [right], [top] and [left] of a state payload. *)
Record Opponent := mkOpponent {
  o_username : string;
  o_count : nat;
  o_id : PlayerId;
  o_isBot : bool;
  o_calledUno : bool;
  o_skip : bool
}.

(** The [you] entry: the viewer's own fields ([...player], with [socket]
    erased) and the derived ones. *)
Record You := mkYou {
  y_id : PlayerId;
  y_player : Player.t;
  y_count : nat;
  y_calledUno : bool;
  y_skip : bool
}.

(** The payload of a ["state"] message. *)
Record View := mkView {
  v_id : string;
  v_isHost : bool;
  v_host : PlayerId;
  v_turn : PlayerId;
  v_pile : list Card.t;
  v_started : bool;
  v_directionReversed : bool;
  v_stack : Z;
  v_playerCount : nat;
  v_maxPlayers : nat;
  v_wildcard : option Card.t;
  v_you : You;
  v_right : option Opponent;
  v_top : option Opponent;
  v_left : option Opponent;
  v_winner : option (string * PlayerId)
}.

(** Messages emitted on the sockets of players. *)
Inductive Event :=
| EmitState (to : PlayerId) (v : View)
| EmitKicked (to : PlayerId)
| EmitCanKeepCard (to : PlayerId).

(** The world a room operation runs in: the room itself, the heap of player
    objects, the messages emitted so far (oldest first), the random tape and
    the next fresh player and card ids. *)
Record State := mkState {
  room : t;
  heap : PlayerId -> Player.t;
  outbox : list Event;
  rand : list nat;
  freshPlayer : PlayerId;
  freshCard : nat
}.

Definition setRoom (v : t) (s : State) : State :=
  mkState v (heap s) (outbox s) (rand s) (freshPlayer s) (freshCard s).
Definition setHeap (v : PlayerId -> Player.t) (s : State) : State :=
  mkState (room s) v (outbox s) (rand s) (freshPlayer s) (freshCard s).
Definition setOutbox (v : list Event) (s : State) : State :=
  mkState (room s) (heap s) v (rand s) (freshPlayer s) (freshCard s).
Definition setRand (v : list nat) (s : State) : State :=
  mkState (room s) (heap s) (outbox s) v (freshPlayer s) (freshCard s).
Definition setFreshPlayer (v : PlayerId) (s : State) : State :=
  mkState (room s) (heap s) (outbox s) (rand s) v (freshCard s).
Definition setFreshCard (v : nat) (s : State) : State :=
  mkState (room s) (heap s) (outbox s) (rand s) (freshPlayer s) v.

(** Mutation of a room field and of a player object. *)
Definition onRoom (f : t -> t) (s : State) : State := setRoom (f (room s)) s.

Definition update (p : PlayerId) (f : Player.t -> Player.t)
    (h : PlayerId -> Player.t) : PlayerId -> Player.t :=
  fun q => if decide (q = p) then f (h q) else h q.

Definition onPlayer (p : PlayerId) (f : Player.t -> Player.t) (s : State) : State :=
  setHeap (update p f (heap s)) s.

(** The hand of a player. *)
Definition hand (s : State) (p : PlayerId) : list Card.t := Player.cards (heap s p).

(** *** The state-and-error monad

    [None] is an operation without result: a [TypeError] was thrown
    ([throw]), or a loop has used up the passes allowed to it
    ([unfinished]). *)

Definition M (A : Type) : Type := State -> option (A * State).

Definition ret {A} (a : A) : M A := fun s => Some (a, s).
Definition throw {A} : M A := fun _ => None.
Definition unfinished {A} : M A := fun _ => None.
Definition bind {A B} (m : M A) (k : A -> M B) : M B :=
  fun s => match m s with Some (a, s') => k a s' | None => None end.
Definition gets {A} (f : State -> A) : M A := fun s => Some (f s, s).
Definition modify (f : State -> State) : M unit := fun s => Some (tt, f s).

Declare Scope room_scope.
Delimit Scope room_scope with room.
Notation "x <- m ;; k" := (bind m (fun x => k))
  (at level 100, m at next level, k at level 200, right associativity) : room_scope.
Notation "m ;; k" := (bind m (fun _ => k))
  (at level 100, k at level 200, right associativity) : room_scope.
Local Open Scope room_scope.

Definition when (b : bool) (m : M unit) : M unit := if b then m else ret tt.

(** [l.forEach(f)]. *)
Fixpoint forEach {A} (f : A -> M unit) (l : list A) : M unit :=
  match l with
  | [] => ret tt
  | x :: l' => f x;; forEach f l'
  end.

(** [Math.floor(Math.random() * n)]. *)
Definition random (n : nat) : M nat := fun s =>
  let '(r, rs) := Deck.randBelow n (rand s) in Some (r, setRand rs s).

(** A use of [this.turn.<field>]: a [TypeError] when [turn] is [undefined]. *)
Definition theTurn : M PlayerId := fun s =>
  match turn (room s) with Some t => Some (t, s) | None => None end.

Definition emit (e : Event) : M unit :=
  modify (fun s => setOutbox (outbox s ++ [e]) s).

(** [p.socket?.emit(..)]. *)
Definition emitTo (p : PlayerId) (e : Event) : M unit :=
  has <- gets (fun s => Player.socket (heap s p)) ;; when has (emit e).

(** ** Rooms: operations *)

(** [topCard()]: [pile[pile.length - 1]], [undefined] on an empty pile. *)
Definition topCard (s : State) : option Card.t := last (pile (room s)).

(** [p.findPlayableCards(this.topCard())].  On an empty pile the argument is
    [undefined] and the matching rule reads its fields: a [TypeError]. *)
Definition findPlayable (p : PlayerId) : M unit := fun s =>
  match topCard s with
  | Some top => Some (tt, onPlayer p (Player.findPlayableCards top) s)
  | None => None
  end.

(** The index arithmetic of [getNextPlayer] on a seat index [i] of a list of
    [n] seats. *)
Definition nextSeat (n : Z) (reversed : bool) (offset i : Z) : Z :=
  if reversed then
    let i := (i - (1 + offset))%Z in
    if (i <? 0)%Z then (n + i)%Z else i
  else
    let i := (i + (1 + offset))%Z in
    if (i >? n - 1)%Z then (i - n)%Z else i.

(** The seat index of the turn player, [players.findIndex(p => p.id ===
    this.turn.id)]; the callback runs, and reads [this.turn.id], only when
    there is a seat. *)
Definition turnIndex : M Z :=
  ps <- gets (fun s => players (room s)) ;;
  match ps with
  | [] => ret (-1)%Z
  | _ => t <- theTurn ;; ret (findIndex (fun p => bool_decide (p = t)) ps)
  end.

Definition getNextPlayer (offset : Z) : M (option PlayerId) :=
  i <- turnIndex ;;
  ps <- gets (fun s => players (room s)) ;;
  reversed <- gets (fun s => directionReversed (room s)) ;;
  ret (at_ ps (nextSeat (Z.of_nat (length ps)) reversed offset i)).

(** The callback of the [forEach] of [checkForWinner]. *)
Definition winIfEmpty (p : PlayerId) : M unit :=
  h <- gets (fun s => hand s p) ;;
  when (bool_decide (length h = 0)) (modify (onRoom (setWinner (Some p)))).

Definition checkForWinner : M unit :=
  ps <- gets (fun s => players (room s)) ;;
  forEach winIfEmpty ps.

Definition clearStack : M unit :=
  modify (onRoom (setStack 0%Z));;
  ps <- gets (fun s => players (room s)) ;;
  forEach (fun p => modify (onPlayer p (Player.setMustStack false))) ps.

(** [getPlayerPosFromOffset(player, offset)]. *)
Definition getPlayerPosFromOffset (s : State) (player : PlayerId) (offset : Z)
    : option PlayerId :=
  let ps := players (room s) in
  let playerIndex := findIndex (fun p => bool_decide (p = player)) ps in
  let newIndex := (playerIndex + offset)%Z in
  let newIndex :=
    if (newIndex >? Z.of_nat (length ps) - 1)%Z
    then (newIndex - Z.of_nat (length ps))%Z else newIndex in
  at_ ps newIndex.

(** What [broadcastState] builds for the seat [q] of an opponent; [t] is the
    turn player. *)
Definition opponent (s : State) (t q : PlayerId) : Opponent :=
  let o := heap s q in
  mkOpponent (Player.username o) (length (Player.cards o)) q (Player.bot o)
    (Player.hasCalledUno o) (negb (Player.canPlay o) && bool_decide (t = q)).

(** The payload [broadcastState] builds for the viewer [player]; the [switch]
    on the number of seats falls through from 4 to 2. *)
Definition project (s : State) (t player : PlayerId) : View :=
  let r := room s in
  let n := length (players r) in
  let left := if bool_decide (n = 4) then getPlayerPosFromOffset s player 3 else None in
  let top :=
    if bool_decide (n = 4) || bool_decide (n = 3)
    then getPlayerPosFromOffset s player 2 else None in
  let right :=
    if bool_decide (n = 4) || bool_decide (n = 3) || bool_decide (n = 2)
    then getPlayerPosFromOffset s player 1 else None in
  let me := heap s player in
  mkView (id r) (bool_decide (host r = player)) (host r) t (pile r) (started r)
    (directionReversed r) (stack r) n (maxPlayers (settings r)) (wildcard r)
    (mkYou player (Player.setSocket false me) (length (Player.cards me))
       (Player.hasCalledUno me) (negb (Player.canPlay me) && bool_decide (t = player)))
    (opponent s t <$> right) (opponent s t <$> top) (opponent s t <$> left)
    ((fun w => (Player.username (heap s w), w)) <$> winner r).

(** The callback of the [forEach] of [broadcastState]. *)
Definition sendState (player : PlayerId) : M unit :=
  isBot <- gets (fun s => Player.bot (heap s player)) ;;
  if isBot then ret tt
  else
    t <- theTurn ;;
    v <- gets (fun s => project s t player) ;;
    emitTo player (EmitState player v).

Definition broadcastState : M unit :=
  ps <- gets (fun s => players (room s)) ;;
  forEach sendState ps.

(** The wild-card cleaning of [refillDeckFromPile]. *)
Definition stripWild (c : Card.t) : Card.t :=
  if Card.isWild c then Card.setColor Card.NoColor c else c.

(** [refillDeckFromPile()]: [pile.splice(0, pile.length - 1)] goes to the back
    of the deck, wild cards of the deck lose their colour, the deck is
    shuffled. *)
Definition refillDeckFromPile : M unit :=
  modify (fun s =>
    let r := room s in
    let n := length (pile r) - 1 in
    let cards := take n (pile r) in
    let '(d, rs) := Deck.shuffleDeck (map stripWild (deck r ++ cards)) (rand s) in
    setRand rs (onRoom (fun r => setDeck d (setPile (drop n (pile r)) r)) s)).

(** [giveCard(player)]: [const card = this.deck.pickCard()] is the array that
    [splice] returns, which holds the first card of the deck or, when the deck
    is still empty after the refill, nothing; the array is pushed onto the
    hand and returned. *)
Definition giveCard (player : PlayerId) : M Card.t :=
  d <- gets (fun s => deck (room s)) ;;
  when (bool_decide (length d = 0)) refillDeckFromPile;;
  d <- gets (fun s => deck (room s)) ;;
  let picked := Deck.pickCard 0 d in
  modify (onRoom (setDeck picked.2));;
  a <- gets (fun s => Card.freshTag (hand s player)) ;;
  let card := Card.Splice a picked.1 None false in
  modify (onPlayer player (fun p => Player.setCards (Player.cards p ++ [card]) p));;
  t <- theTurn ;;
  st <- gets (fun s => started (room s)) ;;
  when (bool_decide (t = player) && st) (findPlayable player);;
  ret card.

(** [drawn.findIndex(c => c.playable) !== -1]: [drawn] holds the arrays that
    [giveCard] returned, which are the objects it pushed onto the hand; they
    are tracked by tag and their flag is read in the hand. *)
Definition drawnPlayable (drawn : list nat) (player : PlayerId) (s : State) : bool :=
  existsb (fun c => Card.playable c
                    && from_option (fun a => bool_decide (a ∈ drawn)) false (Card.tagOf c))
    (hand s player).

(** How the [while] loop of [drawCards] is left: by its condition or [break],
    or by the [return] that forfeits the turn; or not at all, within the
    passes allowed to it. *)
Inductive LoopExit := Completed | Forfeited | Unfinished.

Section Operations.

(** [Player.botPlay(room)] is not part of the sources at hand: the bot's move
    is a parameter, run where the room invokes it. *)
Variable botPlay : PlayerId -> M unit.

Section TurnAdvance.

Variable drawCards : PlayerId -> Z -> M unit.

(** The body of [nextTurn(skip, draw)]. *)
Definition nextTurnBody (skip : bool) (draw : Z) : M unit :=
  modify (onRoom (setInactivityTimer 0));;
  t <- theTurn ;;
  modify (onPlayer t Player.clearPlayableCards);;
  modify (onPlayer t (Player.setCanDraw false));;
  modify (onPlayer t (Player.setCanPlay false));;
  when (skip || negb (bool_decide (draw = 0%Z))) (
    n <- getNextPlayer 0 ;;
    modify (onRoom (setTurn n));;
    t <- theTurn ;;
    modify (onPlayer t (Player.setCanDraw false));;
    modify (onPlayer t (Player.setCanPlay false));;
    broadcastState;;
    when (negb (bool_decide (draw = 0%Z))) (t <- theTurn ;; drawCards t draw));;
  n <- getNextPlayer 0 ;;
  modify (onRoom (setTurn n));;
  match n with
  | None => ret tt
  | Some t =>
      modify (onPlayer t (Player.setCanDraw true));;
      modify (onPlayer t (Player.setCanPlay true));;
      findPlayable t;;
      checkForWinner;;
      broadcastState;;
      w <- gets (fun s => winner (room s)) ;;
      match w with
      | Some _ => ret tt
      | None =>
          isBot <- gets (fun s => Player.bot (heap s t)) ;;
          when isBot (botPlay t)
      end
  end.

End TurnAdvance.

(** [this.nextTurn()] as [drawCards] calls it: with the default arguments the
    body does not reach its own call of [drawCards]. *)
Definition nextTurnDefault : M unit := nextTurnBody (fun _ _ => throw) false 0%Z.

(** The passes the model allows a loop that the source does not bound. *)
Variable passes : nat.

(** The [while] loop of [drawCards]; [drawn] and [i] are its locals, and
    [c.id === drawn[drawn.length - 1].id] compares the ids of hand slots with
    that of the array just returned.  The recursion is on the number of passes
    the loop may still make; [Unfinished] is a loop that would make
    another. *)
Fixpoint drawLoop (bound : nat) (player : PlayerId) (amount : Z)
    (drawn : list nat) (i : Z) : M LoopExit :=
  found <- gets (drawnPlayable drawn player) ;;
  empty <- gets (fun s => isRoomEmpty (room s)) ;;
  if (bool_decide (amount = (-1)%Z) && negb found)
     || (negb (bool_decide (amount = (-1)%Z)) && negb (bool_decide (amount = i))
         && negb empty)
  then
    match bound with
    | 0 => ret Unfinished
    | S bound' =>
        card <- giveCard player ;;
        let drawn := drawn ++ option_list (Card.tagOf card) in
        modify (onPlayer player Player.sortCards);;
        modify (onPlayer player (fun p =>
          Player.setLastDrawnCard
            (findIndex (fun c => bool_decide (Card.id c = Card.id card)) (Player.cards p)) p));;
        broadcastState;;
        dtp <- gets (fun s => drawToPlay (settings (room s))) ;;
        if bool_decide (amount = (-1)%Z) && negb dtp then
          found <- gets (drawnPlayable drawn player) ;;
          if negb found then
            modify (onPlayer player (Player.setDrawing false));;
            nextTurnDefault;;
            ret Forfeited
          else ret Completed
        else drawLoop bound' player amount drawn (i + 1)%Z
    end
  else ret Completed.

(** [player.cards.forEach(c => c.playable = false)] and then
    [player.cards[player.lastDrawnCard].playable = true] when that card
    exists. *)
Definition onlyLastDrawnPlayable (p : Player.t) : Player.t :=
  let cs := map (Card.setPlayable false) (Player.cards p) in
  match at_ cs (Player.lastDrawnCard p) with
  | Some c => Player.setCards (<[Z.to_nat (Player.lastDrawnCard p) := Card.setPlayable true c]> cs) p
  | None => Player.setCards cs p
  end.

(** [drawCards(player, amount)].  A draw of [amount] cards, [0 <= amount],
    leaves its loop after [amount] passes at the latest; the other draws make
    the passes allowed, and have no result when the loop is still running
    then. *)
Definition drawCards (player : PlayerId) (amount : Z) : M unit :=
  p <- gets (fun s => heap s player) ;;
  if Player.drawing p || (negb (Player.canDraw p) && bool_decide (amount = (-1)%Z))
  then ret tt
  else
    when (bool_decide (amount = (-1)%Z)) (modify (onPlayer player (Player.setCanDraw false)));;
    modify (onPlayer player (Player.setDrawing true));;
    exit <- drawLoop (if (amount <? 0)%Z then passes else Z.to_nat amount)
              player amount [] 0%Z ;;
    match exit with
    | Forfeited => ret tt
    | Unfinished => unfinished
    | Completed =>
        modify (onPlayer player onlyLastDrawnPlayable);;
        fp <- gets (fun s => forcePlay (settings (room s))) ;;
        when (bool_decide (amount = (-1)%Z) && negb fp) (emitTo player (EmitCanKeepCard player));;
        modify (onPlayer player (Player.setDrawing false));;
        broadcastState
    end.

Definition nextTurn (skip : bool) (draw : Z) : M unit := nextTurnBody drawCards skip draw.

(** The [Plus2] and [Plus4] cases of the [switch] of [playCard]: the value of
    [draw] they leave. *)
Definition penalty (nextPlayer : option PlayerId) (ty : Card.CardType) (k : Z) : M Z :=
  match nextPlayer with
  | None => throw
  | Some np =>
      h <- gets (fun s => hand s np) ;;
      if negb (findIndex (fun c => bool_decide (Card.type c = Some ty)) h =? -1)%Z then
        modify (onPlayer np (Player.setMustStack true));;
        modify (onRoom (fun r => setStack (stack r + k)%Z r));;
        ret 0%Z
      else
        st <- gets (fun s => stack (room s)) ;;
        clearStack;;
        ret (st + k)%Z
  end.

Definition playCard (player : PlayerId) (cardIndex : Z) : M unit :=
  p <- gets (fun s => heap s player) ;;
  if negb (Player.canPlay p) then ret tt else
  match at_ (Player.cards p) cardIndex with
  | None => ret tt
  | Some card =>
      t <- theTurn ;;
      if negb (bool_decide (t = player)) || negb (Card.playable card) then ret tt else
      modify (onRoom (setWildcard None));;
      modify (onPlayer player (fun p =>
        Player.setCards (delete (Z.to_nat cardIndex) (Player.cards p)) p));;
      modify (onRoom (fun r => setPile (pile r ++ [card]) r));;
      nextPlayer <- getNextPlayer 0 ;;
      draw <- (match Card.type card with
               | Some Card.Plus2 => penalty nextPlayer Card.Plus2 2
               | Some Card.Plus4 => penalty nextPlayer Card.Plus4 4
               | Some Card.Reverse =>
                   modify (onRoom (fun r =>
                     setDirectionReversed (negb (directionReversed r)) r));;
                   ret 0%Z
               | _ => ret 0%Z
               end) ;;
      p <- gets (fun s => heap s player) ;;
      when (bool_decide (length (Player.cards p) = 1) && negb (Player.hasCalledUno p))
        (drawCards player 2);;
      modify (onPlayer player (Player.setHasCalledUno false));;
      nextMust <- gets (fun s =>
        match nextPlayer with Some np => Player.mustStack (heap s np) | None => false end) ;;
      if ((bool_decide (Card.type card = Some Card.Plus2)
           || bool_decide (Card.type card = Some Card.Plus4))
          && negb nextMust)
         || bool_decide (Card.type card = Some Card.Skip)
      then nextTurn true draw
      else nextTurn false 0%Z
  end.

Definition addPlayer (player : PlayerId) : M unit :=
  rid <- gets (fun s => id (room s)) ;;
  modify (onPlayer player (Player.setRoomId rid));;
  modify (onPlayer player (Player.setInRoom true));;
  modify (onRoom (fun r => setPlayers (players r ++ [player]) r));;
  broadcastState.

Definition botNames : list string :=
  ["John"; "James"; "Alice"; "Sean"; "Joe"; "Fred"; "Bob"; "Pat"; "Jack"; "Adam";
   "Nathaniel"; "Freddie"; "Baka"; "Sussy"]%string.

(** [createBot(player)]: a fresh [Player] object without socket. *)
Definition createBot (player : option PlayerId) : M PlayerId :=
  b <- gets freshPlayer ;;
  modify (setFreshPlayer (S b));;
  rid <- gets (fun s => id (room s)) ;;
  k <- random (length botNames) ;;
  cs <- gets (fun s => match player with Some p => hand s p | None => [] end) ;;
  modify (fun s => setHeap (fun q =>
    if decide (q = b) then
      Player.setCards cs
        (Player.setUsername ("Bot " +:+ default EmptyString (botNames !! k))
          (Player.setRoomId rid (Player.setInRoom true (Player.new false true))))
    else heap s q) s);;
  ret b.

(** [addBot(bot, player)]; [this.players[-1] = bot] leaves the seats as they
    are. *)
Definition addBot (bot : PlayerId) (player : option PlayerId) : M unit :=
  match player with
  | Some player =>
      modify (onRoom (fun r =>
        let index := findIndex (fun p => bool_decide (p = player)) (players r) in
        if (index <? 0)%Z then r else setPlayers (<[Z.to_nat index := bot]> (players r)) r));;
      t <- theTurn ;;
      when (bool_decide (t = player)) (modify (onRoom (setTurn (Some bot)));; botPlay bot)
  | None =>
      n <- gets (fun s => length (players (room s))) ;;
      if bool_decide (n = 4) then ret tt
      else modify (onRoom (fun r => setPlayers (players r ++ [bot]) r))
  end.

(** [removePlayer(player, replace)].  The source calls itself on the host
    when one human is left; nothing bounds that recursion, which the model
    cuts at [depth] nested calls (out of depth: [None]). *)
Fixpoint removePlayer (depth : nat) (player : PlayerId) (replace : bool) : M unit :=
  match depth with
  | 0 => throw
  | S depth' =>
      humans <- gets (fun s =>
        filter (fun p => Player.bot (heap s p) = false ∧ p ≠ player) (players (room s))) ;;
      (if bool_decide (length humans = 0) then modify (onRoom (setIsRoomEmpty true))
       else
         h <- gets (fun s => host (room s)) ;;
         when (bool_decide (h = player)) (
           k <- random (length humans) ;;
           match humans !! k with
           | Some h' => modify (onRoom (setHost h'))
           | None => throw
           end));;
      empty <- gets (fun s => isRoomEmpty (room s)) ;;
      (if replace && negb empty then
         b <- createBot (Some player) ;; addBot b (Some player)
       else modify (onRoom (fun r => setPlayers (filter (fun p => p ≠ player) (players r)) r)));;
      broadcastState;;
      modify (onPlayer player (Player.setRoomId EmptyString));;
      modify (onPlayer player (Player.setInRoom false));;
      modify (onPlayer player (Player.setCards []));;
      st <- gets (fun s => started (room s)) ;;
      when (bool_decide (length humans = 1) && negb replace && st) (
        h <- gets (fun s => host (room s)) ;;
        removePlayer depth' h false;;
        h <- gets (fun s => host (room s)) ;;
        emitTo h (EmitKicked h))
  end.

(** [for (let i = 0; i < 7; i++) this.giveCard(p)]. *)
Fixpoint giveCards (n : nat) (p : PlayerId) : M unit :=
  match n with
  | 0 => ret tt
  | S n' => giveCard p;; giveCards n' p
  end.

(** [startGame()]; the inactivity interval it installs is not modelled.  The
    starting card pushed onto the pile is the array [pickCard()] returns, and
    the test for a wild starting card reads the [type] of that array. *)
Definition startGame : M unit :=
  k <- gets freshCard ;;
  modify (onRoom (setDeck (Deck.generateDeck k)));;
  modify (fun s => setFreshCard (k + length (deck (room s))) s);;
  modify (fun s =>
    let '(d, rs) := Deck.shuffleDeck (deck (room s)) (rand s) in
    setRand rs (onRoom (setDeck d) s));;
  d <- gets (fun s => deck (room s)) ;;
  let picked := Deck.pickCard 0 d in
  modify (onRoom (setDeck picked.2));;
  modify (onRoom (fun r =>
    setPile (pile r ++ [Card.Splice (Card.freshTag (pile r)) picked.1 None false]) r));;
  top <- gets topCard ;;
  match top with
  | None => throw
  | Some top =>
      when (bool_decide (Card.type top = Some Card.Plus4)
            || bool_decide (Card.type top = Some Card.Wildcard)) (
        k <- random 4 ;;
        modify (onRoom (fun r =>
          setPile (alter (Card.setColor (default Card.NoColor (Card.colorOfIndex k)))
                     (length (pile r) - 1) (pile r)) r)))
  end;;
  ps <- gets (fun s => players (room s)) ;;
  forEach (fun p => giveCards 7 p;; modify (onPlayer p Player.sortCards)) ps;;
  k <- random (length ps) ;;
  modify (onRoom (setTurn (ps !! k)));;
  t <- theTurn ;;
  findPlayable t;;
  modify (onPlayer t (Player.setCanDraw true));;
  modify (onPlayer t (Player.setCanPlay true));;
  isBot <- gets (fun s => Player.bot (heap s t)) ;;
  when isBot (botPlay t);;
  modify (onRoom (setStarted true));;
  broadcastState.

End Operations.

End Room.

(** ** The turn pointer as a walk around the table *)

Module Seating.
Import Room.
Local Open Scope room_scope.

(** [this.turn = this.getNextPlayer()], the one-seat advance of [nextTurn]. *)
Definition advanceTurn : M unit :=
  n <- getNextPlayer 0 ;; modify (onRoom (setTurn n)).

(** [k] advances in a row. *)
Fixpoint advanceTurns (k : nat) : M unit :=
  match k with
  | 0 => ret tt
  | S k' => advanceTurn ;; advanceTurns k'
  end.

(** One seat further in the direction of play, modulo the number of seats:
    up when the direction is not reversed, down when it is. *)
Definition seatAfter (n : Z) (reversed : bool) (i : Z) : Z :=
  ((if reversed then i - 1 else i + 1) mod n)%Z.

(** [k] seats further. *)
Definition seatAfterMany (n : Z) (reversed : bool) (k : nat) (i : Z) : Z :=
  ((if reversed then i - Z.of_nat k else i + Z.of_nat k) mod n)%Z.

End Seating.

(** ** The handlers of the gateway *)

Module Gateway.
Import Room.
Local Open Scope room_scope.

(** The registries of socket.ts: [rooms] maps a room id to its room, and the
    heap of the server is the registry [players] (a socket id is the id of
    its player object) together with the bots. *)
Record Server := mkServer {
  rooms : gmap string Room.t;
  heap : PlayerId -> Player.t;
  outbox : list Event;
  rand : list nat;
  freshPlayer : PlayerId;
  freshCard : nat
}.

(** The world in which an operation of the room [r] of the server runs. *)
Definition enter (r : Room.t) (sv : Server) : State :=
  mkState r (heap sv) (outbox sv) (rand sv) (freshPlayer sv) (freshCard sv).

(** The server after that operation: room objects are mutated in place, so the
    registry entry [key] shows the new room. *)
Definition leave (key : string) (s : State) (sv : Server) : Server :=
  mkServer (<[key := room s]> (rooms sv)) (Room.heap s) (Room.outbox s) (Room.rand s)
    (Room.freshPlayer s) (Room.freshCard s).

Definition setUsernameOf (p : PlayerId) (u : string) (sv : Server) : Server :=
  mkServer (rooms sv) (update p (Player.setUsername u) (heap sv)) (outbox sv) (rand sv)
    (freshPlayer sv) (freshCard sv).

(** The handler of ["join-room"] for the socket of [caller]; [None] is a throw
    of [addPlayer]. *)
Definition joinRoom (caller : PlayerId) (roomId username : string) (sv : Server)
    : option Server :=
  if negb (bool_decide (String.length roomId = 7)) then Some sv else
  match rooms sv !! roomId with
  | None => Some sv
  | Some r =>
      if bool_decide (length (players r) = 4) || started r then Some sv else
      if Player.inRoom (heap sv caller) then Some sv else
      let sv := setUsernameOf caller username sv in
      match addPlayer caller (enter r sv) with
      | Some (_, s) => Some (leave roomId s sv)
      | None => None
      end
  end.

(** [m] run in the room registered under [key]; [None] when [m] has no
    result. *)
Definition within (key : string) (r : Room.t) (m : M unit) (sv : Server) : option Server :=
  match m (enter r sv) with
  | Some (_, s) => Some (leave key s sv)
  | None => None
  end.

(** The colour argument of ["play-card"], [undefined] or a number, when it
    passes [color >= CardColor.Red && color <= CardColor.Blue]; numbers that
    are no integers are not modelled. *)
Definition chosenColor (color : option Z) : option Card.CardColor :=
  match color with
  | Some c =>
      if (Z.of_nat (Card.colorIndex Card.Red) <=? c)%Z
         && (c <=? Z.of_nat (Card.colorIndex Card.Blue))%Z
      then Card.colorOfIndex (Z.to_nat c) else None
  | None => None
  end.

(** [card.color = color] on the card at [index] of the hand of [p]. *)
Definition recolour (p : PlayerId) (index : Z) (c : Card.CardColor) (sv : Server) : Server :=
  mkServer (rooms sv)
    (update p (fun a =>
       Player.setCards (alter (Card.setColor c) (Z.to_nat index) (Player.cards a)) a) (heap sv))
    (outbox sv) (rand sv) (freshPlayer sv) (freshCard sv).

(** [player.hasCalledUno = true]. *)
Definition setCalledUno (p : PlayerId) (sv : Server) : Server :=
  mkServer (rooms sv) (update p (Player.setHasCalledUno true) (heap sv)) (outbox sv) (rand sv)
    (freshPlayer sv) (freshCard sv).

Section Handlers.

Variable botPlay : PlayerId -> M unit.
Variable passes : nat.

(** [leaveRoom], the handler of ["leave-room"] and the first step of
    ["disconnect"].  [rooms[player.roomId]] is read again after
    [removePlayer] has run; [depth] bounds the nested calls of
    [removePlayer]. *)
Definition leaveRoom (depth : nat) (caller : PlayerId) (sv : Server) : option Server :=
  if negb (Player.inRoom (heap sv caller)) then Some sv else
  let key := Player.roomId (heap sv caller) in
  match rooms sv !! key with
  | None => None
  | Some r =>
      match removePlayer botPlay depth caller true (enter r sv) with
      | None => None
      | Some (_, s) =>
          let sv' := leave key s sv in
          if isRoomEmpty (room s)
          then Some (mkServer (delete (Player.roomId (heap sv' caller)) (rooms sv'))
                       (heap sv') (outbox sv') (rand sv') (freshPlayer sv') (freshCard sv'))
          else Some sv'
      end
  end.

(** The handler of ["add-bot"]. *)
Definition addBotHandler (caller : PlayerId) (sv : Server) : option Server :=
  if negb (Player.inRoom (heap sv caller)) then Some sv else
  let key := Player.roomId (heap sv caller) in
  match rooms sv !! key with
  | None => None
  | Some r =>
      if negb (bool_decide (host r = caller)) || bool_decide (length (players r) = 4)
      then Some sv
      else within key r (b <- createBot None ;; addBot botPlay b None ;; broadcastState) sv
  end.

(** The handler of ["kick-player"]; [target] is the id sent by the client. *)
Definition kickPlayer (depth : nat) (caller target : PlayerId) (sv : Server) : option Server :=
  if negb (Player.inRoom (heap sv caller)) then Some sv else
  let key := Player.roomId (heap sv caller) in
  match rooms sv !! key with
  | None => None
  | Some r =>
      if negb (bool_decide (host r = caller)) then Some sv else
      if bool_decide (target ∈ players r)
      then within key r (removePlayer botPlay depth target false) sv
      else Some sv
  end.

(** The handler of ["start-game"]. *)
Definition startGameHandler (caller : PlayerId) (sv : Server) : option Server :=
  if negb (Player.inRoom (heap sv caller)) then Some sv else
  let key := Player.roomId (heap sv caller) in
  match rooms sv !! key with
  | None => None
  | Some r =>
      if started r || negb (bool_decide (host r = caller)) then Some sv
      else within key r (startGame botPlay) sv
  end.

(** The handler of ["call-uno"]. *)
Definition callUno (caller : PlayerId) (sv : Server) : option Server :=
  if negb (Player.inRoom (heap sv caller)) then Some sv else
  match rooms sv !! Player.roomId (heap sv caller) with
  | None => None
  | Some r =>
      if negb (started r) then Some sv else
      match turn r with
      | None => None
      | Some t =>
          if negb (bool_decide (t = caller))
             || negb (bool_decide (length (Player.cards (heap sv caller)) = 2))
          then Some sv
          else Some (setCalledUno caller sv)
      end
  end.

(** The handler of ["play-card"]: a wild card takes the colour sent along
    before [playCard] looks at the play. *)
Definition playCardHandler (caller : PlayerId) (index : Z) (color : option Z) (sv : Server)
    : option Server :=
  if negb (Player.inRoom (heap sv caller)) then Some sv else
  let key := Player.roomId (heap sv caller) in
  match rooms sv !! key with
  | None => None
  | Some r =>
      if negb (started r) then Some sv else
      match turn r with
      | None => None
      | Some t =>
          if negb (bool_decide (t = caller)) then Some sv else
          match at_ (Player.cards (heap sv caller)) index with
          | None => Some sv
          | Some card =>
              if bool_decide (Card.type card = Some Card.Plus4)
                 || bool_decide (Card.type card = Some Card.Wildcard)
              then
                match chosenColor color with
                | Some c => within key r (playCard botPlay passes caller index) (recolour caller index c sv)
                | None => Some sv
                end
              else within key r (playCard botPlay passes caller index) sv
          end
      end
  end.

End Handlers.

End Gateway.

(** ** Notions used in the statements *)

Module Facts.
Import Room.

(** The seated players whose hand is empty, in seating order. *)
Definition emptyHanded (s : State) : list PlayerId :=
  filter (fun p => hand s p = []) (players (room s)).

(** The ["state"] messages of one [broadcastState], [t] being the turn
    player: one per seated player that is not a bot and has a socket. *)
Definition stateMessages (s : State) (t : PlayerId) : list Event :=
  flat_map (fun p =>
    if Player.bot (Room.heap s p) then []
    else if Player.socket (Room.heap s p) then [EmitState p (project s t p)] else [])
    (players (room s)).

(** Two player objects that show the same to an opponent: the fields that a
    payload reads of a player other than the viewer. *)
Definition publiclyEqual (a b : Player.t) : Prop :=
  Player.username a = Player.username b
  /\ length (Player.cards a) = length (Player.cards b)
  /\ Player.bot a = Player.bot b
  /\ Player.hasCalledUno a = Player.hasCalledUno b
  /\ Player.canPlay a = Player.canPlay b.

(** All the cards of a room: deck, discard pile and the hands of the seats. *)
Definition allCards (s : State) : list Card.t :=
  deck (room s) ++ pile (room s) ++ flat_map (hand s) (players (room s)).

(** The [Card] objects that the slots of a list lead to, arrays looked into. *)
Definition cardsIn (l : list Card.t) : list (nat * nat * Card.CardType * Card.CardColor) :=
  flat_map (fun x => map Card.ident (Card.contents x)) l.

(** An array as [giveCard] pushes it, bare of what tells arrays apart: the
    matching rule reads of an array only the fields that it lacks. *)
Definition blank : Card.t := Card.Splice 0 None None false.

(** [unplayed drawn h]: the arrays of the hand [h] that were drawn in this
    call ([drawn] holds their tags) are not marked playable, and have no
    colour. *)
Definition unplayed (drawn : list nat) (h : list Card.t) : Prop :=
  Forall (fun c => forall a, Card.tagOf c = Some a -> a ∈ drawn ->
                   Card.playable c = false /\ Card.color c = None) h.

(** The cards a draw can still deliver: the deck and the pile under its top
    card. *)
Definition drawable (s : State) : nat :=
  length (deck (room s)) + (length (pile (room s)) - 1).

(** [sameButHand a b]: the player object [b] is [a] but for the hand and for
    the two fields a draw records, [lastDrawnCard] and [drawing]. *)
Definition sameButHand (a b : Player.t) : Prop :=
  b = Player.setCards (Player.cards b)
        (Player.setLastDrawnCard (Player.lastDrawnCard b)
           (Player.setDrawing (Player.drawing b) a)).

(** [handOnly a b]: moreover the hand of [b] holds the cards of the hand of
    [a], in some order and with some [playable] flags. *)
Definition handOnly (a b : Player.t) : Prop :=
  sameButHand a b /\ map Card.core (Player.cards b) ≡ₚ map Card.core (Player.cards a).

(** [sameButCards r r']: the room [r'] is [r] but for deck and pile. *)
Definition sameButCards (r r' : Room.t) : Prop :=
  r' = setDeck (deck r') (setPile (pile r') r).

(** [dealt p k s s']: the state [s'] is [s] after [k] calls of [giveCard]
    for [p]: the hand of [p] grew by [k] slots, and deck and pile gave what
    they could.  Of the room only deck and pile differ, the top card stays,
    of the players only [p] differs, and only in the hand and the two fields
    a draw records. *)
Definition dealt (p : PlayerId) (k : nat) (s s' : State) : Prop :=
  sameButCards (room s) (room s')
  /\ topCard s' = topCard s
  /\ drawable s' = drawable s - k
  /\ (forall q, q <> p -> Room.heap s' q = Room.heap s q)
  /\ sameButHand (Room.heap s p) (Room.heap s' p)
  /\ length (hand s' p) = length (hand s p) + k.

(** [roomKept r r']: the room [r'] is [r] but for the turn, the winner, the
    inactivity counter and the pending wildcard. *)
Definition roomKept (r r' : Room.t) : Prop :=
  r' = setTurn (turn r') (setWinner (winner r')
         (setInactivityTimer (inactivityTimer r') (setWildcard (wildcard r') r))).

(** [playerKept a b]: the player object [b] is [a] but for [canDraw],
    [canPlay] and the [playable] flags of the hand. *)
Definition playerKept (a b : Player.t) : Prop :=
  b = Player.setCanDraw (Player.canDraw b)
        (Player.setCanPlay (Player.canPlay b) (Player.setCards (Player.cards b) a))
  /\ map Card.core (Player.cards b) = map Card.core (Player.cards a).

(** [turnKeeping s s']: from [s] to [s'] only the bookkeeping of the turn
    happened. *)
Definition turnKeeping (s s' : State) : Prop :=
  roomKept (room s) (room s')
  /\ forall q, playerKept (Room.heap s q) (Room.heap s' q).

(** The end of [nextTurn]: unless there is a winner, a bot that has the turn
    moves. *)
Definition handoff (botPlay : PlayerId -> M unit) : M unit := fun s =>
  match winner (room s), turn (room s) with
  | None, Some t => if Player.bot (Room.heap s t) then botPlay t s else Some (tt, s)
  | _, _ => Some (tt, s)
  end.

(** The player on whose socket a message is emitted. *)
Definition addressee (e : Event) : PlayerId :=
  match e with
  | EmitState p _ => p
  | EmitKicked p => p
  | EmitCanKeepCard p => p
  end.

(** The seated players a broadcast reaches: those that are no bot and have a
    socket. *)
Definition listeners (s : State) : list PlayerId :=
  filter (fun p => Player.bot (Room.heap s p) = false /\ Player.socket (Room.heap s p) = true)
    (players (room s)).

(** [onlyTurnActs s]: no player but the turn player holds the right to draw
    or to play. *)
Definition onlyTurnActs (s : State) : Prop :=
  forall q, turn (room s) <> Some q ->
    Player.canDraw (Room.heap s q) = false /\ Player.canPlay (Room.heap s q) = false.

(** The [Reverse] case of the [switch] of [playCard], as a state: the
    direction is flipped when the card played is a Reverse. *)
Definition flipped (card : Card.t) (s : State) : State :=
  if bool_decide (Card.type card = Some Card.Reverse)
  then onRoom (fun r => setDirectionReversed (negb (directionReversed r)) r) s else s.

(** The state [clearStack] leaves. *)
Definition clearedStack (s : State) : State :=
  foldl (fun s p => onPlayer p (Player.setMustStack false) s)
    (onRoom (setStack 0%Z) s) (players (room s)).

End Facts.

(** ** Sample rooms *)

Module Sample.
Import Room.

Definition settings0 : Settings := mkSettings true true false true true 4.

(** The passes allowed to a voluntary draw in the examples. *)
Definition passes : nat := 3.

(** A connected human outside any room, and one seated in the room
    ["abcdefg"]. *)
Definition human : Player.t := Player.new true false.
Definition seated : Player.t :=
  Player.setRoomId "abcdefg" (Player.setInRoom true human).

Definition card (k n : nat) (c : Card.CardColor) (ty : Card.CardType) (playable : bool)
    : Card.t :=
  Card.mk k n c ty playable.

(** A bot that plays nothing. *)
Definition idleBot : PlayerId -> M unit := fun _ => ret tt.

(** A lobby of two humans, both with an empty hand. *)
Definition lobby2 : State :=
  mkState (setPlayers [1; 2] (create "abcdefg" 1 settings0))
    (fun _ => seated) [] [] 10 0.

(** A game of three humans in progress, player 1 to play.  Player 2 holds a
    red 5 and a green Plus2, player 3 a yellow 7 and a blue Skip. *)
Definition hands3 (q : PlayerId) : Player.t :=
  match q with
  | 1 => Player.setCanPlay true (Player.setCanDraw true
           (Player.setCards [card 20 3 Card.Red Card.NoType true;
                             card 21 0 Card.Blue Card.Plus2 false;
                             card 22 9 Card.Green Card.NoType false] seated))
  | 2 => Player.setCards [card 30 5 Card.Red Card.NoType false;
                          card 31 0 Card.Green Card.Plus2 false] seated
  | 3 => Player.setCards [card 40 7 Card.Yellow Card.NoType false;
                          card 41 0 Card.Blue Card.Skip false] seated
  | _ => human
  end.

Definition room3 : Room.t :=
  setStarted true
    (setDeck [card 50 1 Card.Red Card.NoType false; card 51 2 Card.Red Card.NoType false;
              card 52 4 Card.Blue Card.NoType false; card 53 6 Card.Green Card.NoType false;
              card 54 8 Card.Yellow Card.NoType false; card 55 0 Card.NoColor Card.Wildcard false]
       (setPile [card 10 2 Card.Yellow Card.NoType false; card 11 2 Card.Red Card.NoType false]
          (setPlayers [1; 2; 3] (create "abcdefg" 1 settings0)))).

Definition game3 : State := mkState room3 hands3 [] [5; 3; 8; 1] 10 200.

(** The same game with other cards in the hands of players 2 and 3. *)
Definition hands3' (q : PlayerId) : Player.t :=
  match q with
  | 2 => Player.setCards [card 60 1 Card.Blue Card.NoType false;
                          card 61 0 Card.Red Card.Reverse true] seated
  | 3 => Player.setCards [card 62 0 Card.Red Card.NoType false;
                          card 63 0 Card.NoColor Card.Plus4 false] seated
  | _ => hands3 q
  end.

Definition game3' : State := mkState room3 hands3' [] [5; 3; 8; 1] 10 200.

(** A started room whose four seats are taken. *)
Definition full4 : State :=
  mkState (setPlayers [1; 2; 3; 4] room3) hands3 [] [] 10 200.

(** The same game when the deck is used up and the pile holds one card. *)
Definition lastCard : State :=
  mkState (setDeck [] (setPile [card 11 2 Card.Red Card.NoType false] room3))
    hands3 [] [] 10 200.

(** A game of three humans where player 1, to play on a blue 4, holds a
    playable blue Plus2; player 2, next in turn, holds a Plus2 in [stackable]
    and none in [unanswered]. *)
Definition handsPlus2 (answer : bool) (q : PlayerId) : Player.t :=
  match q with
  | 1 => Player.setCanPlay true (Player.setCanDraw true
           (Player.setCards [card 20 3 Card.Red Card.NoType false;
                             card 21 0 Card.Blue Card.Plus2 true;
                             card 22 9 Card.Green Card.NoType false;
                             card 23 1 Card.Yellow Card.NoType false] seated))
  | 2 => Player.setCards [card 30 5 Card.Red Card.NoType false;
                          if answer then card 31 0 Card.Green Card.Plus2 false
                          else card 31 1 Card.Green Card.NoType false] seated
  | 3 => Player.setCards [card 40 7 Card.Yellow Card.NoType false;
                          card 41 0 Card.Blue Card.Skip false] seated
  | _ => human
  end.

Definition roomPlus2 : Room.t :=
  setPile [card 10 2 Card.Yellow Card.NoType false; card 11 4 Card.Blue Card.NoType false]
    room3.

Definition stackable : State := mkState roomPlus2 (handsPlus2 true) [] [5; 3; 8; 1] 10 200.

(** The three-player game with no turn holder. *)
Definition turnless : State :=
  mkState (setTurn None room3) hands3 [] [5; 3; 8; 1] 10 200.

(** The three-player game where player 1, to play on a red 2, holds the
    card [c] first, and where it is the only card of the hand. *)
Definition handsWith (c : Card.t) (rest : list Card.t) (q : PlayerId) : Player.t :=
  match q with
  | 1 => Player.setCanPlay true (Player.setCanDraw true (Player.setCards (c :: rest) seated))
  | _ => hands3 q
  end.

Definition gameWith (c : Card.t) : State :=
  mkState room3
    (handsWith c [card 22 9 Card.Green Card.NoType false; card 23 1 Card.Yellow Card.NoType false])
    [] [5; 3; 8; 1] 10 200.

Definition lastPlay : State :=
  mkState room3 (handsWith (card 20 3 Card.Red Card.NoType true) []) [] [5; 3; 8; 1] 10 200.

(** The three-player game under the rule that a draw takes one card. *)
Definition drawOne : State :=
  mkState (setSettings (mkSettings true true false false true 4) room3) hands3 []
    [5; 3; 8; 1] 10 200.

(** The game where player 1 holds a playable Plus4; player 2, next in turn,
    holds a Plus4 in [answer4] and none in [gameWith]. *)
Definition answer4 : State :=
  mkState room3
    (fun q =>
       match q with
       | 2 => Player.setCards [card 30 5 Card.Red Card.NoType false;
                               card 31 0 Card.NoColor Card.Plus4 false] seated
       | _ => handsWith (card 21 0 Card.Blue Card.Plus4 true)
                [card 22 9 Card.Green Card.NoType false;
                 card 23 1 Card.Yellow Card.NoType false] q
       end)
    [] [5; 3; 8; 1] 10 200.

(** The array in which [giveCard] and [startGame] store the card [c]. *)
Definition held (a : nat) (c : Card.t) : Card.t := Card.Splice a (Some c) None false.

(** The three-player game as the room leaves it in fact: the pile and the
    hands hold arrays.  Player 1 is to play; [drawToPlay] is the rule on
    drawing. *)
Definition arrays (drawToPlay : bool) : State :=
  mkState
    (setSettings (mkSettings true true false drawToPlay true 4)
       (setPile [held 0 (card 11 2 Card.Red Card.NoType false)] room3))
    (fun q =>
       match q with
       | 1 => Player.setCanPlay true (Player.setCanDraw true
                (Player.setCards [held 0 (card 20 3 Card.Red Card.NoType false);
                                  held 1 (card 21 0 Card.Blue Card.Plus2 false)] seated))
       | _ => Player.setCards [held 0 (card 30 5 Card.Red Card.NoType false)] seated
       end)
    [] [5; 3; 8; 1] 10 200.

(** A started game of one human, player 1, and the bot 7; and one of the two
    humans 1 and 2. *)
Definition solo : State :=
  mkState (setPlayers [1; 7] room3)
    (fun q => match q with 7 => Player.setBot true (Player.setSocket false seated) | _ => hands3 q end)
    [] [5; 3; 8; 1] 10 200.

Definition duel : State := mkState (setPlayers [1; 2] room3) hands3 [] [5; 3; 8; 1] 10 200.

(** The game after player 1, who has the turn, lost the seat. *)
Definition kicked : State := mkState (setPlayers [2; 3] room3) hands3 [] [5; 3; 8; 1] 10 200.

(** The game where player 1 holds two cards, one a playable red 3. *)
Definition twoCards : State :=
  mkState room3
    (handsWith (card 20 3 Card.Red Card.NoType true) [card 22 9 Card.Green Card.NoType false])
    [] [5; 3; 8; 1] 10 200.

(** The three players in the lobby, before the start. *)
Definition lobby3 : State := mkState (setStarted false room3) hands3 [] [5; 3; 8; 1] 10 200.

(** A server whose only room is the room of [s]. *)
Definition server (s : State) : Gateway.Server :=
  Gateway.mkServer {[ id (room s) := room s ]} (heap s) (outbox s) (rand s)
    (freshPlayer s) (freshCard s).

End Sample.

(** * Properties *)

(** ** Lists, indices and the monad *)

Section ListFacts.
Context {A : Type}.

Lemma at_nat (l : list A) (i : nat) : at_ l (Z.of_nat i) = l !! i.
Proof.
  unfold at_. destruct (Z.leb_spec 0 (Z.of_nat i)); [|lia].
  by rewrite Nat2Z.id.
Qed.

Lemma at_Some (l : list A) (i : Z) (x : A) :
  at_ l i = Some x -> (0 <= i < Z.of_nat (length l))%Z /\ l !! Z.to_nat i = Some x.
Proof.
  unfold at_. destruct (Z.leb_spec 0 i); [|done].
  intros H'. split; [|done]. apply lookup_lt_Some in H'. lia.
Qed.

Lemma at_None_iff (l : list A) (i : Z) :
  at_ l i = None <-> (i < 0 \/ Z.of_nat (length l) <= i)%Z.
Proof.
  unfold at_. destruct (Z.leb_spec 0 i).
  - rewrite lookup_ge_None. lia.
  - split; [lia|done].
Qed.

Lemma findIndex_range (P : A -> bool) (l : list A) :
  (-1 <= findIndex P l < Z.of_nat (length l))%Z.
Proof.
  induction l as [|x l IH]; simpl; [lia|].
  destruct (P x); [lia|].
  destruct (Z.ltb_spec (findIndex P l) 0); lia.
Qed.

Lemma findIndex_found (P : A -> bool) (l : list A) :
  (0 <= findIndex P l)%Z ->
  exists x, l !! Z.to_nat (findIndex P l) = Some x /\ P x = true.
Proof.
  induction l as [|x l IH]; simpl; [lia|].
  destruct (P x) eqn:HP; [by exists x|].
  destruct (Z.ltb_spec (findIndex P l) 0); [lia|]. intros _.
  destruct (IH ltac:(lia)) as (y & Hy & HPy). exists y. split; [|done].
  replace (Z.to_nat (findIndex P l + 1)) with (S (Z.to_nat (findIndex P l))) by lia.
  done.
Qed.

Lemma findIndex_none (P : A -> bool) (l : list A) :
  findIndex P l = (-1)%Z <-> Forall (fun x => P x = false) l.
Proof.
  induction l as [|x l IH]; simpl; [by split; [constructor|]|].
  destruct (P x) eqn:HP.
  - split; [lia|]. intros H'. apply Forall_cons in H' as [H' _]. congruence.
  - destruct (Z.ltb_spec (findIndex P l) 0).
    + split; [|done]. intros _. constructor; [done|]. apply IH.
      pose proof (findIndex_range P l). lia.
    + split; [lia|]. intros H'. apply Forall_cons in H' as [_ H'].
      apply IH in H'. lia.
Qed.

Lemma findIndex_first (P : A -> bool) (l : list A) (i : nat) (x : A) :
  l !! i = Some x -> P x = true ->
  (forall j y, j < i -> l !! j = Some y -> P y = false) ->
  findIndex P l = Z.of_nat i.
Proof.
  revert i. induction l as [|a l IH]; intros i Hi HP Hlt; [done|].
  destruct i as [|i]; simpl in *.
  - injection Hi as ->. by rewrite HP.
  - rewrite (Hlt 0 a) by (done || lia).
    rewrite (IH i Hi HP); [|intros j y ? ?; apply (Hlt (S j) y); [lia|done]].
    destruct (Z.ltb_spec (Z.of_nat i) 0); lia.
Qed.

End ListFacts.

Lemma findIndex_NoDup (l : list PlayerId) (i : nat) (t : PlayerId) :
  NoDup l -> l !! i = Some t ->
  findIndex (fun p => bool_decide (p = t)) l = Z.of_nat i.
Proof.
  intros Hnd Hi. apply (findIndex_first _ _ _ t Hi).
  - by apply bool_decide_eq_true.
  - intros j y Hj Hy. apply bool_decide_eq_false. intros ->.
    pose proof (NoDup_lookup _ _ _ _ Hnd Hy Hi). lia.
Qed.

Lemma findIndex_elem (l : list PlayerId) (t : PlayerId) :
  t ∈ l ->
  exists i, findIndex (fun p => bool_decide (p = t)) l = Z.of_nat i /\ l !! i = Some t.
Proof.
  intros Hin.
  destruct (Z.ltb_spec (findIndex (fun p => bool_decide (p = t)) l) 0) as [Hneg|Hpos].
  - pose proof (findIndex_range (fun p => bool_decide (p = t)) l).
    assert (Hm : findIndex (fun p => bool_decide (p = t)) l = (-1)%Z) by lia.
    apply findIndex_none in Hm. rewrite Forall_forall in Hm.
    specialize (Hm t Hin). by apply bool_decide_eq_false in Hm.
  - destruct (findIndex_found _ _ Hpos) as (x & Hx & HP).
    apply bool_decide_eq_true in HP as ->.
    exists (Z.to_nat (findIndex (fun p => bool_decide (p = t)) l)).
    split; [lia|done].
Qed.

(** ** Seating arithmetic *)

Section SeatingFacts.
Import Room Seating.
Local Open Scope room_scope.

Lemma onRoom_setTurn_same (s : State) : onRoom (setTurn (turn (room s))) s = s.
Proof. by destruct s as [[] ? ? ? ? ?]. Qed.

Lemma onRoom_setTurn_twice (a b : option PlayerId) (s : State) :
  onRoom (setTurn a) (onRoom (setTurn b) s) = onRoom (setTurn a) s.
Proof. done. Qed.

Lemma nextSeat_seatAfter (n i : Z) (reversed : bool) :
  (0 <= i < n)%Z -> nextSeat n reversed 0 i = seatAfter n reversed i.
Proof.
  intros Hi. unfold nextSeat, seatAfter. destruct reversed.
  - destruct (Z.ltb_spec (i - (1 + 0)) 0).
    + replace (i - 1)%Z with (-1)%Z by lia. replace (n + (i - (1 + 0)))%Z with (n - 1)%Z by lia.
      apply Z.mod_unique with (q := (-1)%Z); lia.
    + rewrite Z.mod_small; lia.
  - destruct (Z.gtb_spec (i + (1 + 0)) (n - 1)).
    + replace (i + (1 + 0) - n)%Z with 0%Z by lia. replace (i + 1)%Z with n by lia.
      symmetry. apply Z.mod_same. lia.
    + rewrite Z.mod_small; lia.
Qed.

Lemma seatAfter_range (n i : Z) (reversed : bool) :
  (0 < n)%Z -> (0 <= seatAfter n reversed i < n)%Z.
Proof. intros. unfold seatAfter. apply Z.mod_pos_bound. lia. Qed.

Lemma seatAfterMany_S (n i : Z) (reversed : bool) (k : nat) :
  (0 < n)%Z ->
  seatAfterMany n reversed k (seatAfter n reversed i) = seatAfterMany n reversed (S k) i.
Proof.
  intros Hn. unfold seatAfterMany, seatAfter. destruct reversed.
  - rewrite Zminus_mod_idemp_l. f_equal. lia.
  - rewrite Zplus_mod_idemp_l. f_equal. lia.
Qed.

Lemma seatAfterMany_iter (n i : Z) (reversed : bool) (k : nat) :
  (0 < n)%Z ->
  Nat.iter k (seatAfter n reversed) i = seatAfterMany n reversed k i \/ k = 0.
Proof.
  intros Hn. destruct k as [|k]; [by right|left].
  revert i. induction k as [|k IH]; intros i.
  - simpl. unfold seatAfterMany, seatAfter. by destruct reversed.
  - rewrite Nat.iter_succ_r. rewrite IH. by apply seatAfterMany_S.
Qed.

Lemma seatAfterMany_full (n i : Z) (reversed : bool) :
  (0 <= i < n)%Z -> seatAfterMany n reversed (Z.to_nat n) i = i.
Proof.
  intros Hi. unfold seatAfterMany. rewrite Z2Nat.id by lia. destruct reversed.
  - symmetry. apply Z.mod_unique with (q := (-1)%Z); lia.
  - symmetry. apply Z.mod_unique with (q := 1%Z); lia.
Qed.

Lemma getNextPlayer_run (s : State) (t : PlayerId) (offset : Z) :
  turn (room s) = Some t -> players (room s) <> [] ->
  getNextPlayer offset s =
    Some (at_ (players (room s))
            (nextSeat (Z.of_nat (length (players (room s)))) (directionReversed (room s)) offset
               (findIndex (fun p => bool_decide (p = t)) (players (room s)))), s).
Proof.
  intros Ht Hps. unfold getNextPlayer, turnIndex, bind, gets, theTurn, ret.
  destruct (players (room s)) as [|p ps] eqn:E; [done|].
  rewrite Ht. by rewrite E.
Qed.

Lemma advanceTurn_run (s : State) (t : PlayerId) (j : nat) :
  NoDup (players (room s)) -> players (room s) !! j = Some t -> turn (room s) = Some t ->
  let n := Z.of_nat (length (players (room s))) in
  let j' := Z.to_nat (seatAfter n (directionReversed (room s)) (Z.of_nat j)) in
  j' < length (players (room s)) /\
  advanceTurn s = Some (tt, onRoom (setTurn (players (room s) !! j')) s).
Proof.
  intros Hnd Hj Ht n j'.
  pose proof (lookup_lt_Some _ _ _ Hj) as Hlt.
  assert (Hn : (0 < n)%Z) by (unfold n; lia).
  pose proof (seatAfter_range n (Z.of_nat j) (directionReversed (room s)) Hn) as Hr.
  split; [unfold j', n in *; lia|].
  unfold advanceTurn, bind. rewrite (getNextPlayer_run s t 0 Ht).
  2:{ intros E. rewrite E in Hj. done. }
  rewrite (findIndex_NoDup _ _ _ Hnd Hj).
  fold n. rewrite nextSeat_seatAfter by (unfold n; lia).
  unfold modify. rewrite <- (Z2Nat.id (seatAfter _ _ _)) by lia.
  by rewrite at_nat.
Qed.

Lemma advanceTurns_run (k : nat) (s : State) (t : PlayerId) (j : nat) :
  NoDup (players (room s)) -> players (room s) !! j = Some t -> turn (room s) = Some t ->
  let n := Z.of_nat (length (players (room s))) in
  advanceTurns k s =
    Some (tt, onRoom (setTurn (players (room s)
                !! Z.to_nat (seatAfterMany n (directionReversed (room s)) k (Z.of_nat j)))) s).
Proof.
  revert s t j. induction k as [|k IH]; intros s t j Hnd Hj Ht n.
  - simpl. unfold ret, seatAfterMany.
    pose proof (lookup_lt_Some _ _ _ Hj) as Hlt.
    change (Z.of_nat 0) with 0%Z. rewrite Z.sub_0_r, Z.add_0_r.
    replace (if directionReversed (room s) then Z.of_nat j else Z.of_nat j)
      with (Z.of_nat j) by (by destruct (directionReversed (room s))).
    rewrite Z.mod_small by (unfold n; lia). rewrite Nat2Z.id, Hj, <- Ht.
    by rewrite onRoom_setTurn_same.
  - pose proof (lookup_lt_Some _ _ _ Hj) as Hlt.
    assert (Hn : (0 < n)%Z) by (unfold n; lia).
    destruct (advanceTurn_run s t j Hnd Hj Ht) as [Hlt' Hrun].
    cbn [advanceTurns]. unfold bind at 1. rewrite Hrun.
    destruct (lookup_lt_is_Some_2 _ _ Hlt') as [q Hq]. fold n in Hq.
    set (s1 := onRoom _ s).
    assert (Hps : players (room s1) = players (room s)) by done.
    assert (Hrev : directionReversed (room s1) = directionReversed (room s)) by done.
    rewrite (IH s1 q (Z.to_nat (seatAfter n (directionReversed (room s)) (Z.of_nat j)))).
    + rewrite Hps, Hrev. fold n. unfold s1. rewrite onRoom_setTurn_twice.
      rewrite Z2Nat.id by (apply seatAfter_range; lia).
      by rewrite seatAfterMany_S.
    + by rewrite Hps.
    + by rewrite Hps.
    + unfold s1. simpl. by rewrite <- Hq.
Qed.

End SeatingFacts.

(** C7: with the turn player seated, [getNextPlayer()] returns the player one
    seat further, the index going up when the direction is not reversed and
    down when it is, modulo the number of seats; the one-seat step on indices
    comes back to its start after as many steps as there are seats, and so
    does the turn player after as many advances when no player is seated
    twice. *)
Theorem getNextPlayer_one_seat_cycle (s : Room.State) (t : PlayerId) :
  Room.turn (Room.room s) = Some t ->
  t ∈ Room.players (Room.room s) ->
  let ps := Room.players (Room.room s) in
  let n := Z.of_nat (length ps) in
  let reversed := Room.directionReversed (Room.room s) in
  exists (i : nat) (q : PlayerId),
    ps !! i = Some t
    /\ findIndex (fun p => bool_decide (p = t)) ps = Z.of_nat i
    /\ Room.getNextPlayer 0 s = Some (Some q, s)
    /\ at_ ps (Seating.seatAfter n reversed (Z.of_nat i)) = Some q
    /\ Seating.seatAfter n reversed (Z.of_nat i)
       = (if reversed then (Z.of_nat i - 1) mod n else (Z.of_nat i + 1) mod n)%Z
    /\ Nat.iter (length ps) (Seating.seatAfter n reversed) (Z.of_nat i) = Z.of_nat i
    /\ (NoDup ps -> Seating.advanceTurns (length ps) s = Some (tt, s)).
Proof.
  intros Ht Hin ps n reversed.
  destruct (findIndex_elem ps t Hin) as (i & Hfi & Hi).
  pose proof (lookup_lt_Some _ _ _ Hi) as Hlt.
  assert (Hn : (0 < n)%Z) by (unfold n; lia).
  pose proof (seatAfter_range n (Z.of_nat i) reversed Hn) as Hr.
  destruct (lookup_lt_is_Some_2 ps (Z.to_nat (Seating.seatAfter n reversed (Z.of_nat i))))
    as [q Hq]; [unfold n in *; lia|].
  assert (Hat : at_ ps (Seating.seatAfter n reversed (Z.of_nat i)) = Some q).
  { rewrite <- (Z2Nat.id (Seating.seatAfter _ _ _)) by lia. by rewrite at_nat. }
  exists i, q. repeat split; try done.
  - rewrite (getNextPlayer_run s t 0 Ht).
    2:{ intros E. fold ps in E. rewrite E in Hi. done. }
    fold ps n reversed. rewrite Hfi, nextSeat_seatAfter by (unfold n; lia).
    by rewrite Hat.
  - unfold Seating.seatAfter. by destruct reversed.
  - destruct (seatAfterMany_iter n (Z.of_nat i) reversed (length ps) Hn) as [->|E]; [|lia].
    replace (length ps) with (Z.to_nat n) by (unfold n; lia).
    apply seatAfterMany_full. unfold n. lia.
  - intros Hnd. rewrite (advanceTurns_run (length ps) s t i Hnd Hi Ht).
    fold ps n reversed. replace (length ps) with (Z.to_nat n) at 1 by (unfold n; lia).
    rewrite seatAfterMany_full by (unfold n; lia).
    rewrite Nat2Z.id. fold ps in Hi. rewrite Hi, <- Ht. by rewrite onRoom_setTurn_same.
Qed.

Lemma getNextPlayer_one_seat_cycle_witness :
  exists (i : nat) (q : PlayerId),
    Room.players (Room.room Sample.game3) !! i = Some 1
    /\ Room.getNextPlayer 0 Sample.game3 = Some (Some q, Sample.game3)
    /\ Seating.advanceTurns 3 Sample.game3 = Some (tt, Sample.game3).
Proof.
  destruct (getNextPlayer_one_seat_cycle Sample.game3 1 eq_refl)
    as (i & q & Hi & _ & Hq & _ & _ & _ & Hcycle).
  - vm_compute. apply list_elem_of_here.
  - exists i, q. split; [exact Hi|]. split; [exact Hq|].
    apply Hcycle. apply (bool_decide_unpack _). by vm_compute.
Defined.
(** C1: [generateDeck] pushes two cards per colourless type, not four: the
    deck holds 104 cards, 100 coloured and only 2 Wildcard and 2 Plus4. *)
Theorem generateDeck_size_104 (fresh : nat) :
  length (Deck.generateDeck fresh) = 104
  /\ Deck.countColor Card.NoColor (Deck.generateDeck fresh) = 4
  /\ Deck.countType Card.Wildcard (Deck.generateDeck fresh) = 2
  /\ Deck.countType Card.Plus4 (Deck.generateDeck fresh) = 2
  /\ length (Deck.generateDeck fresh) <> 108.
Proof.
  repeat split; try (vm_compute; reflexivity).
  unfold Deck.generateDeck. rewrite length_imap. vm_compute. lia.
Qed.

(** ** Running the simple operations *)

Section RunFacts.
Import Room Facts.
Local Open Scope room_scope.

Lemma update_eq (p : PlayerId) (f : Player.t -> Player.t) (h : PlayerId -> Player.t) :
  update p f h p = f (h p).
Proof. unfold update. by rewrite decide_True. Qed.

Lemma update_ne (p q : PlayerId) (f : Player.t -> Player.t) (h : PlayerId -> Player.t) :
  q <> p -> update p f h q = h q.
Proof. intros. unfold update. by rewrite decide_False. Qed.

Lemma bind_run {A B} (m : M A) (k : A -> M B) (s s' : State) (a : A) :
  m s = Some (a, s') -> (x <- m ;; k x) s = k a s'.
Proof. intros H. unfold bind. by rewrite H. Qed.

Lemma forEach_modify {A} (f : A -> State -> State) (l : list A) (s : State) :
  forEach (fun x => modify (f x)) l s = Some (tt, foldl (fun s x => f x s) s l).
Proof.
  revert s. induction l as [|x l IH]; intros s; [done|].
  simpl. unfold bind, modify at 1. by rewrite IH.
Qed.

Lemma forEach_app {A} (f : A -> M unit) (l1 l2 : list A) (s : State) :
  forEach f (l1 ++ l2) s = (forEach f l1 ;; forEach f l2) s.
Proof.
  revert s. induction l1 as [|x l1 IH]; intros s; simpl.
  - unfold bind, ret. done.
  - unfold bind. destruct (f x s) as [[[] s1]|]; [|done]. apply IH.
Qed.

(** *** [broadcastState] *)

Lemma sendState_run (s : State) (t p : PlayerId) (o : list Event) :
  turn (room s) = Some t ->
  sendState p (setOutbox o s) =
    Some (tt, setOutbox (o ++ (if Player.bot (heap s p) then []
                               else if Player.socket (heap s p)
                                    then [EmitState p (project s t p)] else [])) s).
Proof.
  intros Ht. unfold sendState, bind, gets, theTurn, emitTo, bind, gets, when, emit, modify, ret.
  cbn [heap room setOutbox].
  destruct (Player.bot (heap s p)); [by rewrite app_nil_r|].
  cbn [heap room setOutbox]. rewrite Ht. cbn [heap room setOutbox].
  destruct (Player.socket (heap s p)); [done|by rewrite app_nil_r].
Qed.

Lemma broadcastState_run (s : State) (t : PlayerId) :
  turn (room s) = Some t ->
  broadcastState s = Some (tt, setOutbox (outbox s ++ stateMessages s t) s).
Proof.
  intros Ht. unfold broadcastState, stateMessages.
  unfold bind at 1. unfold gets at 1.
  assert (H : forall l o,
    forEach sendState l (setOutbox o s)
    = Some (tt, setOutbox (o ++ flat_map (fun p =>
        if Player.bot (heap s p) then []
        else if Player.socket (heap s p) then [EmitState p (project s t p)] else []) l) s)).
  { induction l as [|p l IH]; intros o.
    - simpl. unfold ret. by rewrite app_nil_r.
    - cbn [forEach flat_map]. unfold bind. rewrite (sendState_run s t p o Ht).
      rewrite IH. by rewrite <- app_assoc. }
  specialize (H (players (room s)) (outbox s)).
  replace (setOutbox (outbox s) s) with s in H by (by destruct s).
  exact H.
Qed.

(** *** [checkForWinner] *)

Lemma winIfEmpty_run (s : State) (p : PlayerId) :
  winIfEmpty p s =
    Some (tt, if decide (hand s p = []) then onRoom (setWinner (Some p)) s else s).
Proof.
  unfold winIfEmpty, bind, gets, when, modify, ret.
  destruct (decide (hand s p = [])) as [E|E].
  - rewrite E. done.
  - rewrite bool_decide_eq_false_2; [done|]. intros El. by apply nil_length_inv in El.
Qed.

Lemma checkForWinner_run (s : State) :
  checkForWinner s =
    Some (tt, match last (emptyHanded s) with
              | Some p => onRoom (setWinner (Some p)) s
              | None => s
              end).
Proof.
  unfold checkForWinner, emptyHanded. unfold bind at 1. unfold gets at 1.
  assert (H : forall l s', heap s' = heap s ->
    forEach winIfEmpty l s'
    = Some (tt, match last (filter (fun p => hand s p = []) l) with
                | Some p => onRoom (setWinner (Some p)) s'
                | None => s'
                end)).
  { induction l as [|p l IH]; intros s' Hh; [done|].
    cbn [forEach]. unfold bind. rewrite winIfEmpty_run.
    assert (Hhand : hand s' p = hand s p) by (unfold hand; by rewrite Hh).
    rewrite Hhand, filter_cons.
    destruct (decide (hand s p = [])) as [E|E].
    - rewrite IH by done. rewrite last_cons.
      destruct (last (filter _ l)); done.
    - by rewrite IH. }
  by apply H.
Qed.

(** *** [clearStack] *)

Lemma clearStack_run (s : State) : clearStack s = Some (tt, clearedStack s).
Proof.
  unfold clearStack, clearedStack. unfold bind at 1. unfold modify at 1.
  unfold bind at 1. unfold gets at 1. cbn [room onRoom setRoom players setStack].
  by rewrite forEach_modify.
Qed.

Lemma foldl_onPlayer_room (f : Player.t -> Player.t) (l : list PlayerId) (s : State) :
  room (foldl (fun s p => onPlayer p f s) s l) = room s
  /\ outbox (foldl (fun s p => onPlayer p f s) s l) = outbox s
  /\ rand (foldl (fun s p => onPlayer p f s) s l) = rand s.
Proof.
  revert s. induction l as [|p l IH]; intros s; [done|].
  destruct (IH (onPlayer p f s)) as (H1 & H2 & H3). simpl. by rewrite H1, H2, H3.
Qed.

Lemma clearedStack_room (s : State) : room (clearedStack s) = setStack 0%Z (room s).
Proof.
  unfold clearedStack.
  by rewrite (proj1 (foldl_onPlayer_room (Player.setMustStack false) (players (room s))
                       (onRoom (setStack 0%Z) s))).
Qed.


Lemma clearedStack_heap (s : State) (q : PlayerId) :
  heap (clearedStack s) q =
    if bool_decide (q ∈ players (room s)) then Player.setMustStack false (heap s q)
    else heap s q.
Proof.
  unfold clearedStack.
  change (heap s q) with (heap (onRoom (setStack 0%Z) s) q).
  generalize (onRoom (setStack 0%Z) s).
  induction (players (room s)) as [|p l IH] using rev_ind; intros s'.
  - rewrite bool_decide_eq_false_2; [done|]. apply not_elem_of_nil.
  - rewrite foldl_app. cbn [foldl onPlayer heap setHeap].
    destruct (decide (q = p)) as [->|Hne].
    + rewrite bool_decide_eq_true_2 by (apply elem_of_app; right; apply list_elem_of_singleton; done).
      rewrite update_eq, IH. by destruct (bool_decide (p ∈ l)).
    + rewrite update_ne by done. rewrite IH. destruct (decide (q ∈ l)) as [Hin|Hin].
      * rewrite !bool_decide_eq_true_2; [done| |done]. apply elem_of_app; by left.
      * rewrite !bool_decide_eq_false_2; [done| |done].
        intros [H'|H']%elem_of_app; [done|]. apply list_elem_of_singleton in H'. done.
Qed.

End RunFacts.

(** ** Win detection *)

Lemma last_filter_position {A} (P : A -> Prop) `{!forall x, Decision (P x)}
    (l : list A) (w : A) :
  last (filter P l) = Some w ->
  exists i, l !! i = Some w /\ P w /\ forall j q, i < j -> l !! j = Some q -> ~ P q.
Proof.
  induction l as [|x l IH] using rev_ind; [done|].
  rewrite filter_app, filter_cons, filter_nil.
  destruct (decide (P x)) as [Hx|Hx].
  - rewrite last_snoc. intros [= ->]. exists (length l). split; [|split; [done|]].
    + by rewrite lookup_app_r, Nat.sub_diag by lia.
    + intros j q Hj Hq. apply lookup_lt_Some in Hq. rewrite length_app in Hq. simpl in Hq. lia.
  - rewrite app_nil_r. intros Hl. destruct (IH Hl) as (i & Hi & HP & Hafter).
    exists i. split; [|split; [done|]].
    + by apply lookup_app_l_Some.
    + intros j q Hj Hq. destruct (decide (j < length l)) as [Hlt|Hge].
      * rewrite lookup_app_l in Hq by done. by apply (Hafter j).
      * rewrite lookup_app_r in Hq by lia.
        destruct (j - length l) as [|k] eqn:E; simpl in Hq; [|done].
        by injection Hq as <-.
Qed.

(** C2, as the code has it: when some seated player has an empty hand,
    [checkForWinner] leaves as winner the last seat with an empty hand
    (every later seat holds cards) and changes nothing else; that seat is
    also the first one when a single seat has an empty hand. *)
Theorem checkForWinner_last_empty_hand (s : Room.State) (p : PlayerId) :
  p ∈ Room.players (Room.room s) ->
  Room.hand s p = [] ->
  exists (w : PlayerId) (i : nat),
    Room.checkForWinner s = Some (tt, Room.onRoom (Room.setWinner (Some w)) s)
    /\ Room.players (Room.room s) !! i = Some w
    /\ Room.hand s w = []
    /\ (forall j q, i < j -> Room.players (Room.room s) !! j = Some q -> Room.hand s q <> [])
    /\ (length (Facts.emptyHanded s) = 1 -> head (Facts.emptyHanded s) = Some w).
Proof.
  intros Hin Hp.
  assert (Hne : Facts.emptyHanded s <> []).
  { intros E. assert (H : p ∈ Facts.emptyHanded s) by (apply list_elem_of_filter; done).
    rewrite E in H. by apply elem_of_nil in H. }
  destruct (last (Facts.emptyHanded s)) as [w|] eqn:Hl.
  2:{ apply last_None in Hl. done. }
  destruct (last_filter_position _ _ _ Hl) as (i & Hi & Hw & Hafter).
  exists w, i. rewrite checkForWinner_run, Hl. repeat split; try done.
  intros Hlen. destruct (Facts.emptyHanded s) as [|a [|b l]]; simpl in *; try done.
Qed.

Lemma checkForWinner_last_empty_hand_witness :
  exists (w : PlayerId) (i : nat),
    Room.checkForWinner Sample.lobby2 = Some (tt, Room.onRoom (Room.setWinner (Some w)) Sample.lobby2)
    /\ Room.players (Room.room Sample.lobby2) !! i = Some w
    /\ Room.hand Sample.lobby2 w = []
    /\ (forall j q, i < j -> Room.players (Room.room Sample.lobby2) !! j = Some q ->
          Room.hand Sample.lobby2 q <> [])
    /\ (length (Facts.emptyHanded Sample.lobby2) = 1 ->
          head (Facts.emptyHanded Sample.lobby2) = Some w).
Proof.
  apply (checkForWinner_last_empty_hand Sample.lobby2 1).
  - vm_compute. apply list_elem_of_here.
  - reflexivity.
Defined.

(** C2, as stated, fails: with two seats and two empty hands the winner is
    seat 2, not the first empty-handed seat 1. *)
Lemma checkForWinner_not_first :
  1 ∈ Room.players (Room.room Sample.lobby2)
  /\ Room.hand Sample.lobby2 1 = []
  /\ head (Facts.emptyHanded Sample.lobby2) = Some 1
  /\ exists s', Room.checkForWinner Sample.lobby2 = Some (tt, s')
       /\ Room.winner (Room.room s') = Some 2
       /\ Room.winner (Room.room s') <> head (Facts.emptyHanded Sample.lobby2).
Proof.
  split; [vm_compute; apply list_elem_of_here|].
  split; [reflexivity|]. split; [reflexivity|].
  eexists. split; [vm_compute; reflexivity|]. split; [reflexivity|]. by vm_compute.
Qed.

(** ** The state payload *)

Section ProjectionFacts.
Import Room Facts.

Lemma getPlayerPosFromOffset_room (s1 s2 : State) (p : PlayerId) (k : Z) :
  room s1 = room s2 -> getPlayerPosFromOffset s1 p k = getPlayerPosFromOffset s2 p k.
Proof. intros E. unfold getPlayerPosFromOffset. by rewrite E. Qed.

Lemma opponent_public (s1 s2 : State) (t q : PlayerId) :
  publiclyEqual (heap s1 q) (heap s2 q) -> opponent s1 t q = opponent s2 t q.
Proof. intros (Hu & Hl & Hb & Hc & Hp). unfold opponent. by rewrite Hu, Hl, Hb, Hc, Hp. Qed.

Lemma publiclyEqual_refl (a : Player.t) : publiclyEqual a a.
Proof. by repeat split. Qed.

End ProjectionFacts.

(** C9: the payload built for a viewer reads of every other player only the
    username, the number of cards, the id, the bot flag, the uno call and
    [canPlay] (for the skip flag): two states with the same room and the same
    viewer, whose other players agree on these, give the viewer the same
    payload, whatever cards the others hold; and [broadcastState] sends
    exactly these payloads. *)
Theorem project_hides_other_hands (s1 s2 : Room.State) (t viewer : PlayerId) :
  Room.room s1 = Room.room s2 ->
  Room.heap s1 viewer = Room.heap s2 viewer ->
  (forall q, q <> viewer -> Facts.publiclyEqual (Room.heap s1 q) (Room.heap s2 q)) ->
  Room.project s1 t viewer = Room.project s2 t viewer
  /\ (Room.turn (Room.room s1) = Some t ->
      Room.broadcastState s1
      = Some (tt, Room.setOutbox (Room.outbox s1 ++ Facts.stateMessages s1 t) s1)).
Proof.
  intros Hr Hv Ho. split; [|apply broadcastState_run].
  assert (Hpub : forall q, Facts.publiclyEqual (Room.heap s1 q) (Room.heap s2 q)).
  { intros q. destruct (decide (q = viewer)) as [->|Hne]; [|by apply Ho].
    rewrite Hv. apply publiclyEqual_refl. }
  assert (Hopp : forall o : option PlayerId,
            Room.opponent s1 t <$> o = Room.opponent s2 t <$> o).
  { intros [q|]; [|done]. simpl. f_equal. apply opponent_public, Hpub. }
  unfold Room.project.
  rewrite !(getPlayerPosFromOffset_room s1 s2) by done.
  rewrite !Hopp, Hr, Hv. f_equal.
  destruct (Room.winner (Room.room s2)) as [w|]; [|done]. simpl.
  by rewrite (proj1 (Hpub w)).
Qed.

Lemma project_hides_other_hands_witness :
  Room.project Sample.game3 1 1 = Room.project Sample.game3' 1 1
  /\ (Room.turn (Room.room Sample.game3) = Some 1 ->
      Room.broadcastState Sample.game3
      = Some (tt, Room.setOutbox (Room.outbox Sample.game3 ++ Facts.stateMessages Sample.game3 1)
                    Sample.game3)).
Proof.
  apply (project_hides_other_hands Sample.game3 Sample.game3' 1 1).
  - reflexivity.
  - reflexivity.
  - intros q Hq. destruct q as [|[|[|[|q]]]]; try done; by vm_compute.
Defined.

(** ** Rejected plays *)

(** C6: [playCard] returns without an error and leaves the whole state as it
    is when the player may not play, or the indexed card does not exist, or
    the turn is another player's, or the card is not marked playable. *)
Theorem playCard_rejected (botPlay : PlayerId -> Room.M unit) (passes : nat) (s : Room.State)
    (player : PlayerId) (cardIndex : Z) :
  Player.canPlay (Room.heap s player) = false
  \/ at_ (Room.hand s player) cardIndex = None
  \/ (exists t, Room.turn (Room.room s) = Some t /\ t <> player)
  \/ (exists t c, Room.turn (Room.room s) = Some t
        /\ at_ (Room.hand s player) cardIndex = Some c /\ Card.playable c = false) ->
  Room.playCard botPlay passes player cardIndex s = Some (tt, s).
Proof.
  intros H. unfold Room.playCard. unfold Room.bind at 1. unfold Room.gets at 1.
  destruct (Player.canPlay (Room.heap s player)) eqn:Hcan; [|done]. simpl.
  unfold Room.hand in H.
  destruct (at_ (Player.cards (Room.heap s player)) cardIndex) as [card|] eqn:Hcard; [|done].
  destruct H as [H|[H|[(t & Ht & Hne)|(t & c & Ht & Hc & Hp)]]]; try done.
  - unfold Room.bind at 1. unfold Room.theTurn. rewrite Ht.
    by rewrite bool_decide_eq_false_2.
  - injection Hc as <-. unfold Room.bind at 1. unfold Room.theTurn. rewrite Ht, Hp.
    by rewrite orb_true_r.
Qed.

Lemma playCard_rejected_witness :
  Room.playCard Sample.idleBot Sample.passes 2 0 Sample.game3 = Some (tt, Sample.game3)
  /\ Room.playCard Sample.idleBot Sample.passes 1 7 Sample.game3 = Some (tt, Sample.game3)
  /\ Room.playCard Sample.idleBot Sample.passes 1 1 Sample.game3 = Some (tt, Sample.game3).
Proof.
  split; [|split].
  - apply (playCard_rejected Sample.idleBot Sample.passes Sample.game3 2 0). left. reflexivity.
  - apply (playCard_rejected Sample.idleBot Sample.passes Sample.game3 1 7). right; left. reflexivity.
  - apply (playCard_rejected Sample.idleBot Sample.passes Sample.game3 1 1). right; right; right.
    exists 1, (Sample.card 21 0 Card.Blue Card.Plus2 false). repeat split; reflexivity.
Defined.

(** ** Joining *)

Section JoinFacts.
Import Room Facts.

Lemma addPlayer_run (s : State) (p t : PlayerId) :
  turn (room s) = Some t ->
  let s1 := onRoom (fun r => setPlayers (players r ++ [p]) r)
              (onPlayer p (Player.setInRoom true)
                 (onPlayer p (Player.setRoomId (id (room s))) s)) in
  addPlayer p s = Some (tt, setOutbox (outbox s ++ stateMessages s1 t) s1).
Proof.
  intros Ht s1. unfold addPlayer, bind, gets, modify.
  fold s1. by rewrite (broadcastState_run s1 t).
Qed.

End JoinFacts.

(** C10: [addPlayer] has no guard.  Whatever the number of seats taken and
    whether or not the game has started, it seats the player after the others,
    marks the player as in the room with the room's id, and broadcasts.  The
    limit of four seats and the refusal after the start are in the
    ["join-room"] handler, which ignores the request in these cases and
    otherwise runs [addPlayer]. *)
Theorem addPlayer_no_precondition (s : Room.State) (p t : PlayerId) :
  Room.turn (Room.room s) = Some t ->
  (exists s',
     Room.addPlayer p s = Some (tt, s')
     /\ Room.players (Room.room s') = Room.players (Room.room s) ++ [p]
     /\ Player.inRoom (Room.heap s' p) = true
     /\ Player.roomId (Room.heap s' p) = Room.id (Room.room s)
     /\ Room.outbox s' = Room.outbox s ++ Facts.stateMessages (Room.setOutbox (Room.outbox s) s') t)
  /\ (forall sv caller roomId username r,
        Gateway.rooms sv !! roomId = Some r ->
        length (Room.players r) = 4 \/ Room.started r = true ->
        Gateway.joinRoom caller roomId username sv = Some sv)
  /\ (forall sv caller roomId username r,
        String.length roomId = 7 ->
        Gateway.rooms sv !! roomId = Some r ->
        length (Room.players r) <> 4 -> Room.started r = false ->
        Player.inRoom (Gateway.heap sv caller) = false ->
        Gateway.joinRoom caller roomId username sv
        = match Room.addPlayer caller
                  (Gateway.enter r (Gateway.setUsernameOf caller username sv)) with
          | Some (_, s') => Some (Gateway.leave roomId s' (Gateway.setUsernameOf caller username sv))
          | None => None
          end).
Proof.
  intros Ht. split; [|split].
  - eexists. split; [apply (addPlayer_run s p t Ht)|].
    cbn [Room.room Room.heap Room.outbox Room.setOutbox Room.onRoom Room.setRoom
         Room.onPlayer Room.setHeap Room.players Room.setPlayers].
    repeat split; try done.
    + by rewrite !update_eq.
    + by rewrite !update_eq.
  - intros sv caller roomId username r Hr Hfull. unfold Gateway.joinRoom.
    destruct (negb _); [done|]. rewrite Hr.
    destruct Hfull as [->| ->]; [done|]. by rewrite orb_true_r.
  - intros sv caller roomId username r Hlen Hr Hn4 Hst Hin. unfold Gateway.joinRoom.
    rewrite bool_decide_eq_true_2 by done. simpl. rewrite Hr, Hst.
    rewrite bool_decide_eq_false_2 by done. simpl. by rewrite Hin.
Qed.

Lemma addPlayer_no_precondition_witness :
  length (Room.players (Room.room Sample.full4)) = 4
  /\ Room.started (Room.room Sample.full4) = true
  /\ exists s',
     Room.addPlayer 5 Sample.full4 = Some (tt, s')
     /\ Room.players (Room.room s') = [1; 2; 3; 4; 5].
Proof.
  split; [reflexivity|]. split; [reflexivity|].
  destruct (addPlayer_no_precondition Sample.full4 5 1 eq_refl) as [(s' & H1 & H2 & _) _].
  exists s'. split; [exact H1|exact H2].
Defined.

(** ** Leaving *)

Section LeaveFacts.
Import Room Facts.
Local Open Scope room_scope.

Lemma randBelow_lt (n : nat) (rs : list nat) : 0 < n -> (Deck.randBelow n rs).1 < n.
Proof.
  intros Hn. unfold Deck.randBelow. destruct rs as [|r rs]; simpl; [done|].
  destruct n; [lia|]. apply Nat.mod_upper_bound. lia.
Qed.

Lemma random_run (n : nat) (s : State) :
  random n s = Some ((Deck.randBelow n (rand s)).1, setRand (Deck.randBelow n (rand s)).2 s).
Proof. unfold random. by destruct (Deck.randBelow n (rand s)). Qed.

(** The first statement of [removePlayer], which marks the room empty or
    draws a new host, touches neither the seats nor the turn. *)
Lemma removePlayer_host_step (s : State) (p : PlayerId) (humans : list PlayerId) :
  exists s1,
    (if bool_decide (length humans = 0)
     then modify (onRoom (setIsRoomEmpty true))
     else
       h <- gets (fun s0 : State => host (room s0)) ;;
       when (bool_decide (h = p))
         (k <- random (length humans) ;;
          match humans !! k with
          | Some h' => modify (onRoom (setHost h'))
          | None => throw
          end)) s = Some (tt, s1)
    /\ heap s1 = heap s /\ outbox s1 = outbox s /\ freshPlayer s1 = freshPlayer s
    /\ players (room s1) = players (room s) /\ turn (room s1) = turn (room s)
    /\ started (room s1) = started (room s) /\ id (room s1) = id (room s)
    /\ isRoomEmpty (room s1) = bool_decide (length humans = 0) || isRoomEmpty (room s).
Proof.
  destruct (bool_decide (length humans = 0)) eqn:E0.
  - eexists. split; [reflexivity|]. done.
  - apply bool_decide_eq_false in E0.
    unfold bind at 1. unfold gets at 1.
    destruct (bool_decide (host (room s) = p)); [|eexists; split; [reflexivity|done]].
    unfold when, bind. rewrite random_run.
    pose proof (randBelow_lt (length humans) (rand s) ltac:(lia)) as Hk.
    destruct (lookup_lt_is_Some_2 _ _ Hk) as [h' Hh'].
    cbn [fst snd]. rewrite Hh'. eexists. split; [reflexivity|]. done.
Qed.

Lemma createBot_run (s : State) (p : PlayerId) :
  exists s',
    createBot (Some p) s = Some (freshPlayer s, s')
    /\ room s' = room s /\ outbox s' = outbox s
    /\ hand s' (freshPlayer s) = hand s p
    /\ Player.bot (heap s' (freshPlayer s)) = true
    /\ (forall q, q <> freshPlayer s -> heap s' q = heap s q).
Proof.
  unfold createBot, bind, gets, modify, ret. rewrite random_run.
  eexists. split; [reflexivity|].
  cbn [room heap outbox setHeap setRand setFreshPlayer hand].
  rewrite decide_True by done. split_and!; try done.
  - unfold hand. cbn [heap setHeap]. by rewrite decide_True.
  - intros q Hq. by rewrite decide_False.
Qed.

Variable botPlay : PlayerId -> M unit.
Variable passes : nat.

(** X19 (removePlayer, createBot, addBot): the replacing path of
    [removePlayer].  When the turn player leaves a room that keeps another
    human, a fresh bot takes the seat and the hand of the player and the
    turn; its move comes before the broadcast and the reset of the player
    that left. *)
Lemma removePlayer_with_replacement_moves_turn (depth : nat) (s : State) (p : PlayerId)
    (i : nat) :
  turn (room s) = Some p ->
  players (room s) !! i = Some p ->
  NoDup (players (room s)) ->
  isRoomEmpty (room s) = false ->
  filter (fun q => Player.bot (heap s q) = false /\ q <> p) (players (room s)) <> [] ->
  exists s',
    turn (room s') = Some (freshPlayer s)
    /\ players (room s') = <[i := freshPlayer s]> (players (room s))
    /\ freshPlayer s ∈ players (room s')
    /\ hand s' (freshPlayer s) = hand s p
    /\ Player.bot (heap s' (freshPlayer s)) = true
    /\ removePlayer botPlay (S depth) p true s
       = (botPlay (freshPlayer s) ;;
          broadcastState ;;
          modify (onPlayer p (Player.setRoomId EmptyString)) ;;
          modify (onPlayer p (Player.setInRoom false)) ;;
          modify (onPlayer p (Player.setCards []))) s'.
Proof.
  intros Ht Hi Hnd Hempty Hhum.
  set (humans := filter _ _) in Hhum.
  cbn [removePlayer]. unfold bind at 1. unfold gets at 1. fold humans.
  destruct (removePlayer_host_step s p humans)
    as (s1 & Hrun & Hh & Ho & Hfp & Hps & Htu & Hst & Hid & He).
  unfold bind at 1. rewrite Hrun.
  unfold bind at 1. unfold gets at 1. rewrite He, Hempty.
  rewrite bool_decide_eq_false_2 by (intros E; by apply nil_length_inv in E).
  cbn [andb orb negb].
  destruct (createBot_run s1 p) as (s2 & Hcb & Hr2 & _ & Hhand & Hbot & Hoth).
  unfold bind at 1. unfold bind at 1. rewrite Hcb. rewrite Hfp in *.
  unfold addBot. unfold bind at 1. unfold modify at 1.
  set (s3 := onRoom _ s2).
  assert (Hps3 : players (room s3) = <[i := freshPlayer s]> (players (room s))).
  { unfold s3. cbn [room onRoom setRoom]. rewrite Hr2, Hps.
    rewrite (findIndex_NoDup _ _ _ Hnd Hi).
    destruct (Z.ltb_spec (Z.of_nat i) 0); [lia|]. cbn [players setPlayers].
    by rewrite Nat2Z.id. }
  assert (Htu3 : turn (room s3) = Some p).
  { unfold s3. cbn [room onRoom setRoom]. rewrite Hr2.
    destruct (_ <? _)%Z; cbn [turn setPlayers]; congruence. }
  unfold bind at 1. unfold theTurn at 1. rewrite Htu3.
  rewrite bool_decide_eq_true_2 by done. cbn [when].
  unfold bind at 1. unfold modify at 1.
  set (s4 := onRoom (setTurn (Some (freshPlayer s))) s3).
  exists s4. split_and!.
  - done.
  - exact Hps3.
  - change (freshPlayer s ∈ players (room s3)). rewrite Hps3.
    apply list_elem_of_lookup. exists i. apply list_lookup_insert_eq.
    by apply lookup_lt_Some in Hi.
  - unfold hand in *. change (heap s4) with (heap s2). by rewrite Hhand, Hh.
  - exact Hbot.
  - unfold bind. destruct (botPlay (freshPlayer s) s4) as [[[] s5]|]; [|done].
    destruct (broadcastState s5) as [[[] s6]|]; [|done].
    unfold modify, gets. rewrite andb_false_r. done.
Qed.


End LeaveFacts.

(** C3 fails on [removePlayer(player, false)]: when the turn player is
    removed without a replacing bot (a kick, or the inactivity sweep) and the
    removal does not cascade, the seat is filtered out of [players] while
    [turn] still refers to the removed player.  The replacing path, [addBot],
    does move [turn] to the bot. *)
Theorem removePlayer_without_replacement_keeps_turn
    (botPlay : PlayerId -> Room.M unit) (depth : nat) (s : Room.State) (p : PlayerId) :
  Room.turn (Room.room s) = Some p ->
  p ∈ Room.players (Room.room s) ->
  length (filter (fun q => Player.bot (Room.heap s q) = false /\ q <> p)
            (Room.players (Room.room s))) <> 1
  \/ Room.started (Room.room s) = false ->
  exists s',
    Room.removePlayer botPlay (S depth) p false s = Some (tt, s')
    /\ Room.turn (Room.room s') = Some p
    /\ Room.players (Room.room s') = filter (fun q => q <> p) (Room.players (Room.room s))
    /\ p ∉ Room.players (Room.room s').
Proof.
  intros Ht Hin Hno.
  set (humans := filter _ _) in Hno.
  cbn [Room.removePlayer]. unfold Room.bind at 1. unfold Room.gets at 1. fold humans.
  destruct (removePlayer_host_step s p humans)
    as (s1 & Hrun & Hh & Ho & _ & Hps & Htu & Hst & _).
  unfold Room.bind at 1. rewrite Hrun.
  unfold Room.bind at 1. unfold Room.gets at 1. cbn [andb].
  unfold Room.bind at 1. unfold Room.modify at 1.
  set (s2 := Room.onRoom _ s1).
  unfold Room.bind at 1.
  rewrite (broadcastState_run s2 p) by (unfold s2; simpl; congruence).
  do 3 (unfold Room.bind at 1; unfold Room.modify at 1).
  unfold Room.bind at 1. unfold Room.gets at 1.
  assert (Hcond : bool_decide (length humans = 1) && negb false
                  && Room.started (Room.room s1) = false).
  { rewrite Hst. destruct Hno as [Hno| ->]; [|by rewrite andb_false_r].
    by rewrite bool_decide_eq_false_2. }
  cbn [Room.room Room.setOutbox Room.onPlayer Room.setHeap].
  change (Room.started (Room.room s2)) with (Room.started (Room.room s1)).
  rewrite Hcond. eexists. split; [reflexivity|].
  unfold s2.
  cbn [Room.room Room.turn Room.players Room.onRoom Room.setRoom Room.setPlayers
       Room.onPlayer Room.setHeap Room.setOutbox].
  rewrite Htu, Hps. repeat split; try done.
  intros Hp. apply list_elem_of_filter in Hp. by destruct Hp.
Qed.

Lemma removePlayer_without_replacement_keeps_turn_witness :
  exists s',
    Room.removePlayer Sample.idleBot 2 1 false Sample.game3 = Some (tt, s')
    /\ Room.turn (Room.room s') = Some 1
    /\ Room.players (Room.room s') = [2; 3]
    /\ 1 ∉ Room.players (Room.room s').
Proof.
  destruct (removePlayer_without_replacement_keeps_turn Sample.idleBot 1 Sample.game3 1 eq_refl)
    as (s' & H1 & H2 & H3 & H4).
  - vm_compute. apply list_elem_of_here.
  - left. vm_compute. lia.
  - exists s'. split; [exact H1|]. split; [exact H2|]. split; [exact H3|exact H4].
Defined.

(** ** Dealing *)

Section DealFacts.
Import Room Facts.
Local Open Scope room_scope.

Lemma swap_Permutation {A} (i j : nat) (l : list A) : Deck.swap i j l ≡ₚ l.
Proof.
  unfold Deck.swap.
  destruct (l !! i) as [a|] eqn:Hi; [|done].
  destruct (l !! j) as [b|] eqn:Hj; [|done].
  apply Permutation_inj. split; [by rewrite !length_insert|].
  exists (fun k => if decide (k = i) then j else if decide (k = j) then i else k).
  split.
  - intros x y. repeat case_decide; intros; subst; try done; congruence.
  - intros k. cbv beta. pose proof (lookup_lt_Some _ _ _ Hi). pose proof (lookup_lt_Some _ _ _ Hj).
    destruct (decide (k = j)) as [->|Hkj].
    + rewrite list_lookup_insert_eq by (by rewrite length_insert).
      destruct (decide (j = i)) as [->|?]; [congruence|].
      done.
    + rewrite list_lookup_insert_ne by done.
      destruct (decide (k = i)) as [->|Hki].
      * by rewrite list_lookup_insert_eq.
      * by rewrite list_lookup_insert_ne.
Qed.

Lemma shuffleFrom_Permutation {A} (i : nat) (l : list A) (rs : list nat) :
  (Deck.shuffleFrom i l rs).1 ≡ₚ l.
Proof.
  revert l rs. induction i as [|i IH]; intros l rs; [done|].
  cbn [Deck.shuffleFrom]. destruct (Deck.randBelow (S i) rs) as [r rs'].
  rewrite IH. apply swap_Permutation.
Qed.

Lemma shuffleDeck_Permutation {A} (l : list A) (rs : list nat) :
  (Deck.shuffleDeck l rs).1 ≡ₚ l.
Proof. apply shuffleFrom_Permutation. Qed.

Lemma core_stripWild (c : Card.t) : Card.core (stripWild c) = Card.core c.
Proof.
  unfold stripWild, Card.isWild. destruct c as [[i n co ty pl]|a it co pl]; [|done].
  cbn. by destruct ty.
Qed.

Lemma core_setPlayable (b : bool) (c : Card.t) : Card.core (Card.setPlayable b c) = Card.core c.
Proof. by destruct c. Qed.

Lemma playable_setColor (co : Card.CardColor) (c : Card.t) :
  Card.playable (Card.setColor co c) = Card.playable c.
Proof. by destruct c. Qed.

Lemma type_setColor (co : Card.CardColor) (c : Card.t) :
  Card.type (Card.setColor co c) = Card.type c.
Proof. by destruct c. Qed.

Lemma playable_setPlayable (b : bool) (c : Card.t) : Card.playable (Card.setPlayable b c) = b.
Proof. by destruct c. Qed.

Lemma refillDeckFromPile_run (s : State) :
  exists d rs,
    Deck.shuffleDeck (map stripWild (deck (room s) ++ take (length (pile (room s)) - 1) (pile (room s))))
      (rand s) = (d, rs)
    /\ refillDeckFromPile s =
         Some (tt, setRand rs (onRoom (fun r =>
                 setDeck d (setPile (drop (length (pile (room s)) - 1) (pile r)) r)) s))
    /\ d ≡ₚ map stripWild (deck (room s) ++ take (length (pile (room s)) - 1) (pile (room s))).
Proof.
  unfold refillDeckFromPile, modify.
  pose proof (shuffleDeck_Permutation
    (map stripWild (deck (room s) ++ take (length (pile (room s)) - 1) (pile (room s)))) (rand s)) as HP.
  destruct (Deck.shuffleDeck _ _) as [d rs]. exists d, rs. done.
Qed.

Lemma topCard_Some (s : State) : pile (room s) <> [] -> exists top, topCard s = Some top.
Proof.
  unfold topCard. intros H. destruct (last (pile (room s))) eqn:E; [eauto|].
  by apply last_None in E.
Qed.

Lemma last_drop_pred {A} (l : list A) : last (drop (length l - 1) l) = last l.
Proof.
  induction l as [|x l IH]; [done|].
  destruct l as [|y l]; [done|].
  replace (length (x :: y :: l) - 1) with (S (length (y :: l) - 1)) by (simpl; lia).
  cbn [drop]. rewrite IH. done.
Qed.

(** *** Frames *)

Lemma sameButCards_refl (r : Room.t) : sameButCards r r.
Proof. by destruct r. Qed.

Lemma sameButCards_trans (a b c : Room.t) :
  sameButCards a b -> sameButCards b c -> sameButCards a c.
Proof.
  unfold sameButCards. intros H1 H2. etrans; [exact H2|].
  generalize (deck c) (pile c). intros d pl. rewrite H1. reflexivity.
Qed.

Lemma sameButCards_fields (r r' : Room.t) :
  sameButCards r r' ->
  turn r' = turn r /\ players r' = players r /\ started r' = started r
  /\ stack r' = stack r /\ directionReversed r' = directionReversed r
  /\ isRoomEmpty r' = isRoomEmpty r /\ winner r' = winner r /\ settings r' = settings r
  /\ host r' = host r /\ id r' = id r /\ wildcard r' = wildcard r
  /\ inactivityTimer r' = inactivityTimer r.
Proof. intros ->. done. Qed.

Lemma sameButCards_set (r r' : Room.t) (d pl : list Card.t) :
  r' = setDeck d (setPile pl r) -> sameButCards r r'.
Proof. intros ->. done. Qed.

Lemma sameButHand_refl (a : Player.t) : sameButHand a a.
Proof. by destruct a. Qed.

Lemma sameButHand_trans (a b c : Player.t) :
  sameButHand a b -> sameButHand b c -> sameButHand a c.
Proof.
  unfold sameButHand. intros H1 H2. etrans; [exact H2|].
  generalize (Player.cards c) (Player.lastDrawnCard c) (Player.drawing c).
  intros cs l d. rewrite H1. reflexivity.
Qed.

Lemma sameButHand_fields (a b : Player.t) :
  sameButHand a b ->
  Player.bot b = Player.bot a /\ Player.mustStack b = Player.mustStack a
  /\ Player.canPlay b = Player.canPlay a /\ Player.canDraw b = Player.canDraw a
  /\ Player.hasCalledUno b = Player.hasCalledUno a /\ Player.socket b = Player.socket a
  /\ Player.username b = Player.username a /\ Player.inRoom b = Player.inRoom a
  /\ Player.roomId b = Player.roomId a.
Proof. intros ->. done. Qed.

Lemma handOnly_length (a b : Player.t) :
  handOnly a b -> length (Player.cards b) = length (Player.cards a).
Proof.
  intros [_ P]. apply Permutation_length in P. by rewrite !List.length_map in P.
Qed.

Lemma dealt_onPlayer (p : PlayerId) (k : nat) (s s' : State) (f : Player.t -> Player.t) :
  (forall a, handOnly a (f a)) -> dealt p k s s' -> dealt p k s (onPlayer p f s').
Proof.
  intros Hf (Hroom & Htop & Hdr & Hoth & Hp & Hlen).
  unfold dealt, hand, topCard, drawable in *.
  cbn [room heap onPlayer setHeap]. rewrite update_eq.
  destruct (Hf (heap s' p)) as [Hf1 Hf2].
  split_and!; try done.
  - intros q Hq. rewrite update_ne by done. by apply Hoth.
  - by apply (sameButHand_trans _ (heap s' p)).
  - rewrite (handOnly_length _ _ (Hf _)). done.
Qed.

Lemma dealt_setOutbox (p : PlayerId) (k : nat) (s s' : State) (o : list Event) :
  dealt p k s s' -> dealt p k s (setOutbox o s').
Proof. done. Qed.

Lemma dealt_refl (p : PlayerId) (s : State) : dealt p 0 s s.
Proof.
  unfold dealt. split_and!; try done; try lia.
  - apply sameButCards_refl.
  - apply sameButHand_refl.
Qed.

Lemma dealt_trans (p : PlayerId) (j k : nat) (s1 s2 s3 : State) :
  dealt p j s1 s2 -> dealt p k s2 s3 -> dealt p (j + k) s1 s3.
Proof.
  intros (Hroom & Htop & Hdr & Hoth & Hp & Hlen)
         (Hroom' & Htop' & Hdr' & Hoth' & Hp' & Hlen').
  unfold dealt. split_and!.
  - by apply (sameButCards_trans _ (room s2)).
  - congruence.
  - lia.
  - intros q Hq. rewrite Hoth' by done. by apply Hoth.
  - by apply (sameButHand_trans _ (heap s2 p)).
  - lia.
Qed.

(** The refill [giveCard] starts with. *)
Lemma giveCard_refill (s : State) :
  exists sr,
    when (bool_decide (length (deck (room s)) = 0)) refillDeckFromPile s = Some (tt, sr)
    /\ heap sr = heap s
    /\ sameButCards (room s) (room sr)
    /\ (0 < drawable s -> deck (room sr) <> [])
    /\ drawable sr = drawable s
    /\ topCard sr = topCard s
    /\ map Card.core (deck (room sr) ++ pile (room sr))
       ≡ₚ map Card.core (deck (room s) ++ pile (room s))
    /\ (drawable s = 0 -> deck (room sr) = [] /\ pile (room sr) = pile (room s)).
Proof.
  unfold when.
  destruct (deck (room s)) as [|c d] eqn:Hd.
  - rewrite bool_decide_eq_true_2 by done.
    destruct (refillDeckFromPile_run s) as (d' & rs & Hsh & Hrun & Hperm).
    rewrite Hd in Hperm. cbn [app] in Hperm.
    eexists. split; [exact Hrun|].
    cbn [room heap setRand onRoom setRoom deck pile setDeck setPile].
    assert (Hd'len : length d' = length (pile (room s)) - 1).
    { rewrite Hperm, List.length_map, length_take. lia. }
    unfold drawable. rewrite ?Hd.
    cbn [room heap setRand onRoom setRoom deck pile setDeck setPile length].
    split_and!.
    + done.
    + by eapply sameButCards_set.
    + intros Hdr ->. simpl in Hd'len. lia.
    + rewrite length_drop, Hd'len. lia.
    + unfold topCard. cbn [room heap setRand onRoom setRoom deck pile setDeck setPile].
      apply last_drop_pred.
    + cbn [app]. rewrite Hperm.
      pose proof (take_drop (length (pile (room s)) - 1) (pile (room s))) as Htd.
      set (tk := take _ _) in *. set (dr := drop _ _) in *. rewrite <- Htd.
      rewrite !List.map_app, List.map_map.
      by rewrite (List.map_ext _ Card.core core_stripWild).
    + intros Hdr. split.
      * apply nil_length_inv. lia.
      * replace (length (pile (room s)) - 1) with 0 by lia. done.
  - rewrite bool_decide_eq_false_2 by done. exists s. unfold ret.
    unfold drawable. rewrite Hd. split_and!; try done.
    apply sameButCards_refl.
Qed.

Lemma sameButCards_setDeck (r : Room.t) (d : list Card.t) : sameButCards r (setDeck d r).
Proof. by destruct r. Qed.

Lemma sameButHand_setCards (a : Player.t) (cs : list Card.t) :
  sameButHand a (Player.setCards cs a).
Proof. by destruct a. Qed.

Lemma handOnly_setCards (a : Player.t) (cs : list Card.t) :
  map Card.core cs ≡ₚ map Card.core (Player.cards a) -> handOnly a (Player.setCards cs a).
Proof. intros H. split; [apply sameButHand_setCards|done]. Qed.

Lemma handOnly_findPlayableCards (top : Card.t) (a : Player.t) :
  handOnly a (Player.findPlayableCards top a).
Proof.
  apply handOnly_setCards. rewrite List.map_map. simpl.
  by rewrite (List.map_ext _ Card.core (fun c => core_setPlayable _ c)).
Qed.

(** [giveCard] step by step: the state after the refill, the array pushed
    and the recomputed flags. *)
Lemma giveCard_exact (s : State) (p t : PlayerId) (top : Card.t) :
  turn (room s) = Some t -> topCard s = Some top ->
  exists sr,
    when (bool_decide (length (deck (room s)) = 0)) refillDeckFromPile s = Some (tt, sr)
    /\ giveCard p s =
       Some (Card.Splice (Card.freshTag (hand s p)) (deck (room sr) !! 0) None false,
             (if bool_decide (t = p) && started (room s)
              then onPlayer p (Player.findPlayableCards top) else (fun s1 => s1))
               (onPlayer p (fun a => Player.setCards
                  (Player.cards a
                   ++ [Card.Splice (Card.freshTag (hand s p)) (deck (room sr) !! 0) None false]) a)
                  (onRoom (setDeck (delete 0 (deck (room sr)))) sr))).
Proof.
  intros Ht Htop. unfold giveCard. unfold bind at 1. unfold gets at 1.
  destruct (giveCard_refill s) as (sr & Hrun & Hheap & Hroom & Hdeck & Hdraw & Htop' & Hperm & _).
  exists sr. split; [done|].
  unfold bind at 1. rewrite Hrun. unfold bind at 1. unfold gets at 1.
  cbv zeta. unfold Deck.pickCard. cbn [fst snd].
  unfold bind at 1; unfold modify at 1.
  unfold bind at 1; unfold gets at 1.
  unfold bind at 1; unfold modify at 1.
  destruct (sameButCards_fields _ _ Hroom) as (Htu & Hps & Hst & _).
  unfold bind at 1. unfold theTurn at 1.
  cbn [room onPlayer onRoom setHeap setRoom turn setDeck]. rewrite Htu, Ht.
  unfold bind at 1. unfold gets at 1.
  cbn [room onPlayer onRoom setHeap setRoom started setDeck]. rewrite Hst.
  unfold hand at 1 2. cbn [heap onRoom setRoom]. rewrite Hheap. fold (hand s p).
  destruct (bool_decide (t = p) && started (room s)).
  - unfold when, bind, findPlayable, topCard.
    cbn [room onPlayer onRoom setHeap setRoom pile setDeck].
    fold (topCard sr). rewrite Htop', Htop. reflexivity.
  - reflexivity.
Qed.

(** What [giveCard] changes, whatever the deck holds. *)
Lemma giveCard_dealt (s : State) (p t : PlayerId) :
  turn (room s) = Some t -> pile (room s) <> [] ->
  exists c s', giveCard p s = Some (c, s') /\ dealt p 1 s s'.
Proof.
  intros Ht Hpile.
  destruct (topCard_Some s Hpile) as [top Htop].
  destruct (giveCard_exact s p t top Ht Htop) as (sr & Hrun & Hgive).
  destruct (giveCard_refill s) as (sr' & Hrun' & Hheap & Hroom & Hdeck & Hdraw & Htop' & Hperm & _).
  assert (sr' = sr) by congruence. subst sr'.
  eexists _, _. split; [exact Hgive|].
  set (x := Card.Splice _ _ _ _).
  set (s1 := onPlayer p _ (onRoom (setDeck _) sr)).
  assert (Hd1 : dealt p 1 s s1).
  { unfold dealt, s1, hand, topCard, drawable in *.
    cbn [room heap onPlayer onRoom setHeap setRoom deck pile setDeck]. rewrite update_eq.
    rewrite Hheap. cbn [Player.cards Player.setCards]. rewrite length_app. cbn [length].
    split_and!.
    - apply (sameButCards_trans _ (room sr)); [done|apply sameButCards_setDeck].
    - done.
    - destruct (deck (room sr)) as [|c d'] eqn:Hd; cbn [delete list_delete length] in *; [|lia].
      destruct (decide (0 < length (deck (room s)) + (length (pile (room s)) - 1))) as [Hpos|Hz];
        [by specialize (Hdeck Hpos)|lia].
    - intros q Hq. by rewrite update_ne.
    - apply sameButHand_setCards.
    - lia. }
  destruct (bool_decide (t = p) && started (room s)); [|done].
  apply dealt_onPlayer; [apply handOnly_findPlayableCards|done].
Qed.

Lemma filter_ne_absent (ps : list PlayerId) (p : PlayerId) :
  p ∉ ps -> filter (fun q => q <> p) ps = ps.
Proof.
  induction ps as [|x ps IH]; intros Hp; [done|].
  apply not_elem_of_cons in Hp as [Hne Hp].
  rewrite filter_cons, decide_True by done. by rewrite IH.
Qed.

Lemma flat_map_extract {A} (h : PlayerId -> list A) (ps : list PlayerId) (p : PlayerId) :
  NoDup ps -> p ∈ ps ->
  flat_map h ps ≡ₚ h p ++ flat_map h (filter (fun q => q <> p) ps).
Proof.
  induction ps as [|x ps IH]; intros Hnd Hin; [by apply elem_of_nil in Hin|].
  apply NoDup_cons in Hnd as [Hx Hnd]. rewrite filter_cons. cbn [flat_map].
  destruct (decide (x = p)) as [->|Hne].
  - rewrite decide_False by (intros H; by apply H).
    by rewrite filter_ne_absent.
  - rewrite decide_True by done. cbn [flat_map].
    apply elem_of_cons in Hin as [->|Hin]; [done|].
    rewrite (IH Hnd Hin). rewrite !app_assoc. f_equiv. apply Permutation_app_comm.
Qed.

Lemma flat_map_others {A} (h h' : PlayerId -> list A) (ps : list PlayerId) (p : PlayerId) :
  (forall q, q <> p -> h' q = h q) ->
  flat_map h' (filter (fun q => q <> p) ps) = flat_map h (filter (fun q => q <> p) ps).
Proof.
  intros H. induction ps as [|x ps IH]; [done|].
  rewrite filter_cons. destruct (decide (x <> p)); [|done].
  cbn [flat_map]. by rewrite IH, H.
Qed.

Lemma drop_pred_last {A} (l : list A) (x : A) :
  last l = Some x -> drop (length l - 1) l = [x].
Proof.
  induction l as [|a l IH]; [done|].
  destruct l as [|b l]; [by intros [= ->]|].
  intros H. replace (length (a :: b :: l) - 1) with (S (length (b :: l) - 1)) by (simpl; lia).
  cbn [drop]. by apply IH.
Qed.

Lemma topCard_pile (s : State) (top : Card.t) : topCard s = Some top -> pile (room s) <> [].
Proof. unfold topCard. intros H E. by rewrite E in H. Qed.

Lemma stripWild_colourless (c : Card.t) :
  Card.isWild (stripWild c) = true -> Card.color (stripWild c) = Some Card.NoColor.
Proof.
  unfold stripWild. destruct (Card.isWild c) eqn:E; [|congruence].
  intros _. by destruct c.
Qed.

Lemma refillDeckFromPile_spec (s : State) (top : Card.t) :
  topCard s = Some top ->
  exists sr,
    refillDeckFromPile s = Some (tt, sr)
    /\ pile (room sr) = [top]
    /\ map Card.core (deck (room sr))
       ≡ₚ map Card.core (deck (room s) ++ take (length (pile (room s)) - 1) (pile (room s)))
    /\ Forall (fun c => Card.isWild c = true -> Card.color c = Some Card.NoColor) (deck (room sr))
    /\ heap sr = heap s
    /\ players (room sr) = players (room s)
    /\ map Card.core (deck (room sr) ++ pile (room sr))
       ≡ₚ map Card.core (deck (room s) ++ pile (room s)).
Proof.
  intros Htop. destruct (refillDeckFromPile_run s) as (d & rs & Hsh & Hrun & Hperm).
  eexists. split; [exact Hrun|].
  cbn [room heap setRand onRoom setRoom deck pile players setDeck setPile].
  assert (Hcore : map Card.core d
     ≡ₚ map Card.core (deck (room s) ++ take (length (pile (room s)) - 1) (pile (room s)))).
  { rewrite Hperm, List.map_map. by rewrite (List.map_ext _ Card.core core_stripWild). }
  split_and!; try done.
  - by apply drop_pred_last.
  - rewrite Hperm. apply Forall_forall. intros c Hc.
    apply list_elem_of_In, in_map_iff in Hc as (c0 & <- & _). apply stripWild_colourless.
  - rewrite List.map_app, Hcore, <- List.map_app, <- app_assoc.
    by rewrite take_drop.
Qed.

Lemma giveCards_succeeds (p t : PlayerId) (n : nat) (s : State) :
  turn (room s) = Some t -> pile (room s) <> [] -> is_Some (giveCards n p s).
Proof.
  revert s. induction n as [|n IH]; intros s Ht Hpile.
  - simpl. unfold ret. eauto.
  - cbn [giveCards]. unfold bind.
    destruct (giveCard_dealt s p t Ht Hpile) as (c & s' & Hrun & Hroom & Htop & _).
    rewrite Hrun.
    destruct (sameButCards_fields _ _ Hroom) as (Htu & _).
    destruct (topCard_Some s Hpile) as [top Hts].
    apply IH; [congruence|].
    apply (topCard_pile s' top). congruence.
Qed.

Lemma insertCard_Permutation (x : Card.t) (l : list Card.t) :
  Player.insertCard x l ≡ₚ x :: l.
Proof.
  induction l as [|y l IH]; [done|]. simpl.
  destruct (Player.cardLe x y); [done|]. rewrite IH. apply perm_swap.
Qed.

Lemma sortCards_Permutation (l : list Card.t) : foldr Player.insertCard [] l ≡ₚ l.
Proof.
  induction l as [|x l IH]; [done|]. simpl. by rewrite insertCard_Permutation, IH.
Qed.

Lemma handOnly_sortCards (a : Player.t) : handOnly a (Player.sortCards a).
Proof. apply handOnly_setCards. by rewrite sortCards_Permutation. Qed.

Lemma handOnly_setLastDrawnCard (v : Z) (a : Player.t) :
  handOnly a (Player.setLastDrawnCard v a).
Proof. split; [by destruct a|done]. Qed.

Lemma handOnly_setDrawing (v : bool) (a : Player.t) : handOnly a (Player.setDrawing v a).
Proof. split; [by destruct a|done]. Qed.

Lemma map_core_insert (l : list Card.t) (i : nat) (c x : Card.t) :
  l !! i = Some c -> Card.core x = Card.core c ->
  map Card.core (<[i := x]> l) = map Card.core l.
Proof.
  revert i. induction l as [|y l IH]; intros i Hi Hx; [done|].
  destruct i as [|i]; simpl in *.
  - injection Hi as ->. by rewrite Hx.
  - by rewrite (IH i).
Qed.

Lemma handOnly_onlyLastDrawnPlayable (a : Player.t) : handOnly a (onlyLastDrawnPlayable a).
Proof.
  unfold onlyLastDrawnPlayable.
  assert (Hm : map Card.core (map (Card.setPlayable false) (Player.cards a))
               = map Card.core (Player.cards a)).
  { rewrite List.map_map. by rewrite (List.map_ext _ Card.core (fun c => core_setPlayable _ c)). }
  destruct (at_ _ _) as [c|] eqn:E; apply handOnly_setCards.
  - apply at_Some in E as [_ E].
    by rewrite (map_core_insert _ _ c _ E (core_setPlayable _ _)), Hm.
  - by rewrite Hm.
Qed.

Lemma dealt_fields (p : PlayerId) (k : nat) (s s' : State) :
  dealt p k s s' ->
  turn (room s') = turn (room s) /\ players (room s') = players (room s)
  /\ isRoomEmpty (room s') = isRoomEmpty (room s)
  /\ settings (room s') = settings (room s)
  /\ (pile (room s) <> [] -> pile (room s') <> []).
Proof.
  intros (Hroom & Htop & _). destruct (sameButCards_fields _ _ Hroom) as (? & ? & ? & ? & ? & ? & ? & ? & _).
  split_and!; try done.
  intros Hp. destruct (topCard_Some s Hp) as [top Ht].
  apply (topCard_pile s' top). congruence.
Qed.


Lemma refill_drawable (s : State) :
  exists sr,
    when (bool_decide (length (deck (room s)) = 0)) refillDeckFromPile s = Some (tt, sr)
    /\ drawable sr = drawable s.
Proof.
  unfold when. destruct (bool_decide_reflect (length (deck (room s)) = 0)) as [E|E].
  - destruct (refillDeckFromPile_run s) as (d & rs & _ & Hrun & Hperm).
    eexists. split; [exact Hrun|]. unfold drawable.
    cbn [room setRand onRoom setRoom deck pile setDeck setPile].
    apply Permutation_length in Hperm.
    rewrite Hperm, List.length_map, length_app, length_take, length_drop. lia.
  - by exists s.
Qed.

Lemma broadcastState_room (s s' : State) :
  broadcastState s = Some (tt, s') -> room s' = room s.
Proof.
  destruct (turn (room s)) as [t|] eqn:Ht.
  - rewrite (broadcastState_run s t Ht). by intros [= <-].
  - unfold broadcastState, bind, gets.
    assert (H : forall l s0 s1, forEach sendState l s0 = Some (tt, s1) -> turn (room s0) = None ->
              room s1 = room s0).
    { induction l as [|q l IH]; intros s0 s1; [by intros [= <-]|].
      cbn [forEach]. unfold bind at 1. unfold sendState at 1. unfold bind at 1. unfold gets at 1.
      destruct (Player.bot (heap s0 q)).
      - unfold ret. apply IH.
      - unfold bind, theTurn. intros Hr Htn. by rewrite Htn in Hr. }
    intros Hr. by apply (H _ _ _ Hr).
Qed.


(** The hand [giveCard] leaves. *)
Lemma giveCard_hand (s : State) (p t : PlayerId) (top : Card.t) :
  turn (room s) = Some t -> topCard s = Some top ->
  exists it s',
    giveCard p s = Some (Card.Splice (Card.freshTag (hand s p)) it None false, s')
    /\ dealt p 1 s s'
    /\ hand s' p
       = (if bool_decide (t = p) && started (room s)
          then map (fun c => Card.setPlayable
                               (Player.matches (Player.mustStack (heap s p)) top c) c)
          else (fun l => l))
           (hand s p ++ [Card.Splice (Card.freshTag (hand s p)) it None false]).
Proof.
  intros Ht Htop.
  destruct (giveCard_exact s p t top Ht Htop) as (sr & Hrun & Hgive).
  destruct (giveCard_refill s) as (sr' & Hrun' & Hheap & _).
  assert (sr' = sr) by congruence. subst sr'.
  destruct (giveCard_dealt s p t Ht (topCard_pile s top Htop)) as (c & s' & Hgive' & Hd).
  rewrite Hgive in Hgive'. injection Hgive' as <- <-.
  eexists _, _. split; [exact Hgive|]. split; [exact Hd|].
  unfold hand. destruct (bool_decide (t = p) && started (room s)).
  - cbn [heap onPlayer onRoom setRoom setHeap]. rewrite !update_eq, Hheap. reflexivity.
  - cbn [heap onPlayer onRoom setRoom setHeap]. rewrite !update_eq, Hheap. reflexivity.
Qed.

End DealFacts.


(** ** What [giveCard] hands out *)

Section SliceFacts.
Import Room Facts.
Local Open Scope room_scope.

Lemma flat_map_core {B} (f : Card.t -> list B) (l : list Card.t) :
  (forall x, f (Card.core x) = f x) -> flat_map f (map Card.core l) = flat_map f l.
Proof.
  intros Hf. induction l as [|x l IH]; [done|]. cbn [map flat_map]. by rewrite Hf, IH.
Qed.

Lemma flat_map_core_perm {B} (f : Card.t -> list B) (l l' : list Card.t) :
  (forall x, f (Card.core x) = f x) ->
  map Card.core l ≡ₚ map Card.core l' -> flat_map f l ≡ₚ flat_map f l'.
Proof.
  intros Hf Hp. rewrite <- (flat_map_core f l Hf), <- (flat_map_core f l' Hf).
  by apply Permutation_flat_map.
Qed.

Lemma ident_core (x : Card.t) :
  map Card.ident (Card.contents (Card.core x)) = map Card.ident (Card.contents x).
Proof.
  destruct x as [[i n co ty pl]|a it co pl]; [|done].
  cbn. unfold Card.ident. cbn. by destruct ty.
Qed.

Lemma depth_core (x : Card.t) : Card.depth (Card.core x) = Card.depth x.
Proof. by destruct x as [?|a [y|] co pl]. Qed.

(** The slots of the room after [giveCard], through any reading [f] of a slot
    that does not depend on flags and wild colours: the array pushed comes on
    top of what the room held, and the card it holds is read twice. *)
Lemma giveCard_slots {B} (f : Card.t -> list B) (s : State) (p t : PlayerId) :
  (forall x, f (Card.core x) = f x) ->
  turn (room s) = Some t -> pile (room s) <> [] ->
  NoDup (players (room s)) -> p ∈ players (room s) ->
  exists it s',
    giveCard p s = Some (Card.Splice (Card.freshTag (hand s p)) it None false, s')
    /\ dealt p 1 s s'
    /\ map Card.core (hand s' p)
       = map Card.core (hand s p) ++ [Card.Splice (Card.freshTag (hand s p)) it None false]
    /\ (it = None <-> drawable s = 0)
    /\ flat_map f (allCards s') ++ flat_map f (option_list it)
       ≡ₚ f (Card.Splice (Card.freshTag (hand s p)) it None false) ++ flat_map f (allCards s).
Proof.
  intros Hf Ht Hpile Hnd Hin.
  destruct (topCard_Some s Hpile) as [top Htop].
  destruct (giveCard_exact s p t top Ht Htop) as (sr & Hrun & Hgive).
  destruct (giveCard_refill s) as (sr' & Hrun' & Hheap & Hroom & Hdeck & Hdraw & Htop' & Hperm & Hzero).
  assert (sr' = sr) by congruence. subst sr'.
  destruct (giveCard_hand s p t top Ht Htop) as (it & s' & Hgive' & Hd & Hh).
  assert (Hit : it = deck (room sr) !! 0) by congruence.
  assert (Hroom' : deck (room s') = delete 0 (deck (room sr)) /\ pile (room s') = pile (room sr)).
  { rewrite Hgive in Hgive'. injection Hgive' as _ <-.
    by destruct (bool_decide (t = p) && started (room s)). }
  destruct Hroom' as [Hdeck' Hpile'].
  exists it, s'. split; [exact Hgive'|]. split; [exact Hd|].
  set (x := Card.Splice (Card.freshTag (hand s p)) it None false) in *.
  assert (Hcore : map Card.core (hand s' p) = map Card.core (hand s p) ++ [x]).
  { rewrite Hh. destruct (bool_decide (t = p) && started (room s)).
    - rewrite List.map_map.
      rewrite (List.map_ext _ Card.core (fun c => core_setPlayable _ c)).
      by rewrite List.map_app.
    - by rewrite List.map_app. }
  split; [exact Hcore|]. split.
  { rewrite Hit. split.
    - intros Hnone. destruct (decide (0 < drawable s)) as [Hpos|]; [|lia].
      specialize (Hdeck Hpos). by destruct (deck (room sr)).
    - intros Hz. destruct (Hzero Hz) as [-> _]. done. }
  destruct Hd as (Hroomd & _ & _ & Hoth & _).
  destruct (sameButCards_fields _ _ Hroomd) as (_ & Hps & _).
  unfold allCards. rewrite Hps, Hdeck', Hpile'.
  pose proof (flat_map_extract (hand s') _ p Hnd Hin) as H1.
  pose proof (flat_map_extract (hand s) _ p Hnd Hin) as H0.
  rewrite (flat_map_others (hand s) (hand s') _ p) in H1.
  2:{ intros q Hq. unfold hand. by rewrite Hoth. }
  set (others := flat_map (hand s) (filter (fun q => q <> p) (players (room s)))) in *.
  rewrite !flat_map_app.
  rewrite (Permutation_flat_map f H1), (Permutation_flat_map f H0).
  rewrite !flat_map_app.
  rewrite (flat_map_core_perm f (hand s' p) (hand s p ++ [x]) Hf).
  2:{ rewrite Hcore, List.map_app. cbn [map]. done. }
  rewrite flat_map_app. cbn [flat_map]. rewrite app_nil_r.
  assert (Hd0 : flat_map f (delete 0 (deck (room sr))) ++ flat_map f (option_list it)
                ≡ₚ flat_map f (deck (room sr))).
  { rewrite Hit. destruct (deck (room sr)) as [|c d']; [done|].
    simpl. rewrite app_nil_r. apply Permutation_app_comm. }
  assert (Hdp : flat_map f (deck (room sr)) ++ flat_map f (pile (room sr))
                ≡ₚ flat_map f (deck (room s)) ++ flat_map f (pile (room s))).
  { rewrite <- !flat_map_app. by apply flat_map_core_perm. }
  set (D' := flat_map f (delete 0 (deck (room sr)))) in *.
  set (O := flat_map f (option_list it)) in *.
  set (P' := flat_map f (pile (room sr))) in *.
  set (H := flat_map f (hand s p)) in *.
  set (R := flat_map f others) in *.
  transitivity ((D' ++ O) ++ P' ++ H ++ f x ++ R).
  { rewrite <- !app_assoc. f_equiv.
    rewrite (Permutation_app_comm O). rewrite <- !app_assoc. done. }
  rewrite Hd0. rewrite (app_assoc (flat_map f (deck (room sr)))), Hdp.
  rewrite <- !app_assoc. symmetry.
  rewrite (Permutation_app_swap_app (f x)). f_equiv.
  rewrite (Permutation_app_swap_app (f x)). f_equiv.
  apply Permutation_app_swap_app.
Qed.

End SliceFacts.

(** C8, as the code has it: in a room with a turn player and a discard pile,
    [refillDeckFromPile] leaves the pile holding only its former top card and
    moves the other pile cards to the deck, where wild cards end up
    colourless, and keeps the slots of the room (deck, pile and hands) the
    same up to order, flags and wild colours.  [giveCard], though, does not
    move a card to the hand: it pushes, and returns, the array that
    [pickCard()] got from [splice], holding the first card of the deck, or
    nothing when deck and pile are exhausted, in which case the hand grows
    all the same and nothing fails.  The [Card] objects that the slots lead
    to are kept, but the slots of the room are never the same multiset
    after [giveCard] as before. *)
Theorem giveCard_pushes_splice_array (s : Room.State) (p t : PlayerId) :
  Room.turn (Room.room s) = Some t ->
  Room.pile (Room.room s) <> [] ->
  NoDup (Room.players (Room.room s)) ->
  p ∈ Room.players (Room.room s) ->
  (exists sr top,
     Room.refillDeckFromPile s = Some (tt, sr)
     /\ Room.topCard s = Some top
     /\ Room.pile (Room.room sr) = [top]
     /\ map Card.core (Room.deck (Room.room sr))
        ≡ₚ map Card.core (Room.deck (Room.room s)
                           ++ take (length (Room.pile (Room.room s)) - 1)
                                (Room.pile (Room.room s)))
     /\ Forall (fun c => Card.isWild c = true -> Card.color c = Some Card.NoColor)
          (Room.deck (Room.room sr))
     /\ map Card.core (Facts.allCards sr) ≡ₚ map Card.core (Facts.allCards s))
  /\ (exists it s',
        Room.giveCard p s
        = Some (Card.Splice (Card.freshTag (Room.hand s p)) it None false, s')
        /\ map Card.core (Room.hand s' p)
           = map Card.core (Room.hand s p)
             ++ [Card.Splice (Card.freshTag (Room.hand s p)) it None false]
        /\ (it = None <-> Facts.drawable s = 0)
        /\ Facts.drawable s' = Facts.drawable s - 1
        /\ Facts.cardsIn (Facts.allCards s') ≡ₚ Facts.cardsIn (Facts.allCards s)
        /\ ~ (map Card.core (Facts.allCards s') ≡ₚ map Card.core (Facts.allCards s))).
Proof.
  intros Ht Hpile Hnd Hin. split.
  - destruct (topCard_Some s Hpile) as [top Htop].
    destruct (refillDeckFromPile_spec s top Htop)
      as (sr & Hrun & Hp & Hd & Hw & Hh & Hps & Hall).
    exists sr, top. split_and!; try done.
    unfold Facts.allCards, Room.hand. rewrite Hh, Hps.
    rewrite !app_assoc, !(List.map_app _ _ (flat_map _ _)). by rewrite Hall.
  - destruct (giveCard_slots (fun x => map Card.ident (Card.contents x)) s p t
                ident_core Ht Hpile Hnd Hin) as (it & s' & Hgive & Hd & Hcore & Hit & Hcards).
    destruct (giveCard_slots (fun x => replicate (Card.depth x) tt) s p t
                (fun x => f_equal (fun n => replicate n tt) (depth_core x)) Ht Hpile Hnd Hin)
      as (it' & s'' & Hgive' & _ & _ & _ & Hdepth).
    rewrite Hgive in Hgive'. injection Hgive' as <- <-.
    exists it, s'. split; [exact Hgive|]. split; [exact Hcore|]. split; [exact Hit|].
    split; [by destruct Hd as (_ & _ & ? & _)|].
    split.
    + unfold Facts.cardsIn.
      apply (Permutation_app_inv_r
               (flat_map (fun x => map Card.ident (Card.contents x)) (option_list it))).
      rewrite Hcards. rewrite Permutation_app_comm. f_equiv.
      destruct it; simpl; by rewrite ?app_nil_r.
    + intros Hperm.
      apply (flat_map_core_perm (fun x => replicate (Card.depth x) tt)) in Hperm.
      2:{ intros x. by rewrite depth_core. }
      apply Permutation_length in Hperm, Hdepth.
      rewrite !length_app, length_replicate in Hdepth.
      destruct it as [y|]; simpl in Hdepth; rewrite ?length_app, ?length_replicate in Hdepth;
        simpl in Hdepth; lia.
Qed.

Lemma giveCard_pushes_splice_array_witness :
  (exists s',
     Room.giveCard 2 Sample.game3
     = Some (Card.Splice 0 (Some (Sample.card 50 1 Card.Red Card.NoType false)) None false, s')
     /\ map Card.core (Room.hand s' 2)
        = map Card.core (Room.hand Sample.game3 2)
          ++ [Card.Splice 0 (Some (Sample.card 50 1 Card.Red Card.NoType false)) None false]
     /\ ~ (map Card.core (Facts.allCards s') ≡ₚ map Card.core (Facts.allCards Sample.game3)))
  /\ (exists s',
        Room.giveCard 1 Sample.lastCard = Some (Card.Splice 0 None None false, s')
        /\ length (Room.hand s' 1) = 4
        /\ Facts.drawable s' = 0).
Proof.
  assert (Hnd : NoDup (Room.players (Room.room Sample.game3))).
  { apply (bool_decide_unpack _). by vm_compute. }
  assert (Hin : 2 ∈ Room.players (Room.room Sample.game3)).
  { apply (bool_decide_unpack _). by vm_compute. }
  assert (Hin1 : 1 ∈ Room.players (Room.room Sample.game3)).
  { apply (bool_decide_unpack _). by vm_compute. }
  assert (Hpile : Room.pile (Room.room Sample.game3) <> []) by done.
  assert (Hpile1 : Room.pile (Room.room Sample.lastCard) <> []) by done.
  split.
  - destruct (giveCard_pushes_splice_array Sample.game3 2 1 eq_refl Hpile Hnd Hin)
      as (_ & it & s' & Hgive & Hcore & Hit & _ & _ & Hnot).
    assert (Hsome : it = Some (Sample.card 50 1 Card.Red Card.NoType false)).
    { assert (Hrun : exists s0, Room.giveCard 2 Sample.game3
                 = Some (Card.Splice 0 (Some (Sample.card 50 1 Card.Red Card.NoType false))
                           None false, s0)).
      { eexists. vm_compute. reflexivity. }
      destruct Hrun as [s0 Hrun]. rewrite Hrun in Hgive. by injection Hgive as -> _. }
    subst it. exists s'. split; [exact Hgive|]. split; [exact Hcore|exact Hnot].
  - destruct (giveCard_pushes_splice_array Sample.lastCard 1 1 eq_refl Hpile1 Hnd Hin1)
      as (_ & it & s' & Hgive & Hcore & Hit & Hdr & _).
    assert (Hnone : it = None) by (by apply Hit).
    subst it. exists s'. split; [exact Hgive|]. split; [|exact Hdr].
    apply (f_equal length) in Hcore. rewrite length_app, !List.length_map in Hcore.
    exact Hcore.
Defined.

(** ** Forced draws *)

Section DrawFacts.
Import Room Facts.
Local Open Scope room_scope.

Variable botPlay : PlayerId -> M unit.
Variable passes : nat.

(** The forced draw: the loop hands out the cards that are left to draw. *)
Lemma drawLoop_forced (p t : PlayerId) (n k : nat) :
  forall (bound : nat) (drawn : list nat) (s : State),
  k <= n -> k <= bound ->
  turn (room s) = Some t -> pile (room s) <> [] -> isRoomEmpty (room s) = false ->
  exists s',
    drawLoop botPlay bound p (Z.of_nat n) drawn (Z.of_nat (n - k)) s = Some (Completed, s')
    /\ dealt p k s s'.
Proof.
  induction k as [|k IH]; intros bound drawn s Hkn Hkb Ht Hpile Hempty.
  - exists s. split; [|apply dealt_refl].
    destruct bound; cbn [drawLoop]; unfold bind, gets; rewrite Hempty;
      rewrite (bool_decide_eq_false_2 (Z.of_nat n = (-1)%Z)) by lia;
      rewrite (bool_decide_eq_true_2 (Z.of_nat n = Z.of_nat (n - 0))) by (f_equal; lia);
      done.
  - destruct bound as [|bound]; [lia|].
    cbn [drawLoop]. unfold bind at 1. unfold gets at 1. unfold bind at 1. unfold gets at 1.
    rewrite Hempty.
    rewrite (bool_decide_eq_false_2 (Z.of_nat n = (-1)%Z)) by lia.
    rewrite (bool_decide_eq_false_2 (Z.of_nat n = Z.of_nat (n - S k))) by lia.
    cbn [andb orb negb].
    destruct (giveCard_dealt s p t Ht Hpile) as (c & s1 & Hrun & Hd1).
    unfold bind at 1. rewrite Hrun.
    do 2 (unfold bind at 1; unfold modify at 1).
    set (s2 := onPlayer p _ (onPlayer p Player.sortCards s1)).
    assert (Hd2 : dealt p 1 s s2).
    { apply dealt_onPlayer; [intros a; apply handOnly_setLastDrawnCard|].
      apply dealt_onPlayer; [apply handOnly_sortCards|done]. }
    destruct (dealt_fields _ _ _ _ Hd2) as (Htu & Hps & Hemp & Hset & Hpl).
    unfold bind at 1. rewrite (broadcastState_run s2 t) by congruence.
    unfold bind at 1. unfold gets at 1. cbn [andb].
    set (s3 := setOutbox _ s2).
    assert (Hd3 : dealt p 1 s s3) by (by apply dealt_setOutbox).
    destruct (IH bound (drawn ++ option_list (Card.tagOf c)) s3) as (s' & Hloop & Hd').
    + lia.
    + lia.
    + change (turn (room s2) = Some t). congruence.
    + change (pile (room s2) <> []). by apply Hpl.
    + change (isRoomEmpty (room s2) = false). congruence.
    + exists s'. split; [|by apply (dealt_trans p 1 k s s3 s')].
      replace (Z.of_nat (n - S k) + 1)%Z with (Z.of_nat (n - k)) by lia.
      exact Hloop.
Qed.

Lemma drawLoop_room_empty (p : PlayerId) (n bound : nat) (drawn : list nat) (i : Z)
    (s : State) :
  isRoomEmpty (room s) = true ->
  drawLoop botPlay bound p (Z.of_nat n) drawn i s = Some (Completed, s).
Proof.
  intros He. destruct bound; cbn [drawLoop]; unfold bind, gets; rewrite He;
    rewrite (bool_decide_eq_false_2 (Z.of_nat n = (-1)%Z)) by lia;
    by rewrite andb_false_r.
Qed.

(** [drawCards(player, n)] with a count [n]: nothing when the player is
    already drawing, else [n] cards, or none in a room marked empty. *)
Lemma drawCards_forced (p t : PlayerId) (n : nat) (s : State) :
  turn (room s) = Some t -> pile (room s) <> [] ->
  exists s',
    drawCards botPlay passes p (Z.of_nat n) s = Some (tt, s')
    /\ dealt p (if Player.drawing (heap s p) || isRoomEmpty (room s) then 0 else n) s s'
    /\ (Player.drawing (heap s p) = false -> Player.drawing (heap s' p) = false).
Proof.
  intros Ht Hpile. unfold drawCards. unfold bind at 1. unfold gets at 1.
  rewrite (bool_decide_eq_false_2 (Z.of_nat n = (-1)%Z)) by lia. rewrite andb_false_r, orb_false_r.
  destruct (Player.drawing (heap s p)) eqn:Hdrawing.
  { exists s. split; [done|]. split; [apply dealt_refl|done]. }
  cbn [orb when]. unfold bind at 1. unfold ret at 1.
  unfold bind at 1. unfold modify at 1.
  set (s1 := onPlayer p (Player.setDrawing true) s).
  assert (Hd1 : dealt p 0 s s1).
  { apply dealt_onPlayer; [intros a; apply handOnly_setDrawing|apply dealt_refl]. }
  replace (if (Z.of_nat n <? 0)%Z then passes else Z.to_nat (Z.of_nat n)) with n
    by (rewrite (proj2 (Z.ltb_ge _ _)) by lia; by rewrite Nat2Z.id).
  assert (Hloop : exists s2,
    drawLoop botPlay n p (Z.of_nat n) [] 0%Z s1
      = Some (Completed, s2)
    /\ dealt p (if isRoomEmpty (room s) then 0 else n) s s2).
  { destruct (isRoomEmpty (room s)) eqn:He.
    - exists s1. split; [by apply drawLoop_room_empty|done].
    - destruct (drawLoop_forced p t n n n [] s1)
        as (s2 & Hrun & Hd2); try done.
      exists s2. rewrite Nat.sub_diag in Hrun. split; [done|].
      by apply (dealt_trans p 0 n s s1 s2). }
  destruct Hloop as (s2 & Hrun & Hd2). unfold bind at 1. rewrite Hrun.
  unfold bind at 1. unfold modify at 1.
  unfold bind at 1. unfold gets at 1. cbn [andb when].
  unfold bind at 1. unfold ret at 1.
  unfold bind at 1. unfold modify at 1.
  set (s3 := onPlayer p (Player.setDrawing false) (onPlayer p onlyLastDrawnPlayable s2)).
  assert (Hd3 : dealt p (if isRoomEmpty (room s) then 0 else n) s s3).
  { apply dealt_onPlayer; [intros a; apply handOnly_setDrawing|].
    apply dealt_onPlayer; [apply handOnly_onlyLastDrawnPlayable|done]. }
  destruct (dealt_fields _ _ _ _ Hd3) as (Htu & _).
  rewrite (broadcastState_run s3 t) by congruence.
  eexists. split; [reflexivity|]. split; [by apply dealt_setOutbox|].
  intros _. cbn [heap setOutbox]. unfold s3. cbn [heap onPlayer setHeap]. by rewrite update_eq.
Qed.


Lemma drawLoop_S (bound : nat) (p : PlayerId) (amount : Z) (drawn : list nat) (i : Z) :
  drawLoop botPlay (S bound) p amount drawn i =
    (found <- gets (drawnPlayable drawn p) ;;
     empty <- gets (fun s => isRoomEmpty (room s)) ;;
     if (bool_decide (amount = (-1)%Z) && negb found)
        || (negb (bool_decide (amount = (-1)%Z)) && negb (bool_decide (amount = i))
            && negb empty)
     then
       card <- giveCard p ;;
       let drawn := drawn ++ option_list (Card.tagOf card) in
       modify (onPlayer p Player.sortCards) ;;
       modify (onPlayer p (fun a =>
         Player.setLastDrawnCard
           (findIndex (fun c => bool_decide (Card.id c = Card.id card)) (Player.cards a)) a)) ;;
       broadcastState ;;
       dtp <- gets (fun s => drawToPlay (settings (room s))) ;;
       if bool_decide (amount = (-1)%Z) && negb dtp then
         found <- gets (drawnPlayable drawn p) ;;
         if negb found then
           modify (onPlayer p (Player.setDrawing false)) ;;
           nextTurnDefault botPlay ;;
           ret Forfeited
         else ret Completed
       else drawLoop botPlay bound p amount drawn (i + 1)%Z
     else ret Completed).
Proof. reflexivity. Qed.

End DrawFacts.

(** ** Turn advance *)

Section TurnFacts.
Import Room Facts.
Local Open Scope room_scope.

Lemma roomKept_refl (r : Room.t) : roomKept r r.
Proof. by destruct r. Qed.

Lemma roomKept_trans (a b c : Room.t) : roomKept a b -> roomKept b c -> roomKept a c.
Proof.
  unfold roomKept. intros H1 H2. etrans; [exact H2|].
  generalize (turn c) (winner c) (inactivityTimer c) (wildcard c).
  intros tu w ti wc. rewrite H1. reflexivity.
Qed.

Lemma roomKept_fields (r r' : Room.t) :
  roomKept r r' ->
  players r' = players r /\ directionReversed r' = directionReversed r
  /\ stack r' = stack r /\ deck r' = deck r /\ pile r' = pile r
  /\ isRoomEmpty r' = isRoomEmpty r /\ started r' = started r
  /\ settings r' = settings r /\ host r' = host r /\ id r' = id r.
Proof. intros ->. done. Qed.

Lemma playerKept_refl (a : Player.t) : playerKept a a.
Proof. split; [by destruct a|done]. Qed.

Lemma playerKept_trans (a b c : Player.t) : playerKept a b -> playerKept b c -> playerKept a c.
Proof.
  unfold playerKept. intros [H1 P1] [H2 P2]. split; [|congruence].
  clear P1 P2. etrans; [exact H2|].
  generalize (Player.canDraw c) (Player.canPlay c) (Player.cards c).
  intros cd cp cs. rewrite H1. reflexivity.
Qed.

Lemma playerKept_fields (a b : Player.t) :
  playerKept a b ->
  Player.bot b = Player.bot a /\ Player.mustStack b = Player.mustStack a
  /\ Player.drawing b = Player.drawing a /\ Player.hasCalledUno b = Player.hasCalledUno a
  /\ Player.socket b = Player.socket a /\ Player.username b = Player.username a
  /\ length (Player.cards b) = length (Player.cards a)
  /\ map Card.type (Player.cards b) = map Card.type (Player.cards a).
Proof.
  intros [H P]. rewrite H. cbn. split_and!; try done.
  - rewrite <- (List.length_map Card.core), P. apply List.length_map.
  - assert (E : forall l, map Card.type l = map Card.type (map Card.core l)).
    { intros l. rewrite List.map_map. apply List.map_ext. by intros [?|]. }
    etrans; [apply E|]. rewrite P. symmetry. apply E.
Qed.

Lemma turnKeeping_refl (s : State) : turnKeeping s s.
Proof. split; [apply roomKept_refl|intros q; apply playerKept_refl]. Qed.

Lemma turnKeeping_trans (s1 s2 s3 : State) :
  turnKeeping s1 s2 -> turnKeeping s2 s3 -> turnKeeping s1 s3.
Proof.
  intros [R1 P1] [R2 P2]. split; [by apply (roomKept_trans _ (room s2))|].
  intros q. by apply (playerKept_trans _ (heap s2 q)).
Qed.

Lemma turnKeeping_onRoom (f : Room.t -> Room.t) (s s' : State) :
  (forall r, roomKept r (f r)) -> turnKeeping s s' -> turnKeeping s (onRoom f s').
Proof.
  intros Hf [R P]. split; [|done]. by apply (roomKept_trans _ (room s')).
Qed.

Lemma turnKeeping_onPlayer (p : PlayerId) (f : Player.t -> Player.t) (s s' : State) :
  (forall a, playerKept a (f a)) -> turnKeeping s s' -> turnKeeping s (onPlayer p f s').
Proof.
  intros Hf [R P]. split; [done|]. intros q. cbn [heap onPlayer setHeap].
  destruct (decide (q = p)) as [->|Hne].
  - rewrite update_eq. by apply (playerKept_trans _ (heap s' p)).
  - by rewrite update_ne.
Qed.

Lemma turnKeeping_setOutbox (o : list Event) (s s' : State) :
  turnKeeping s s' -> turnKeeping s (setOutbox o s').
Proof. done. Qed.

Lemma roomKept_setTurn (v : option PlayerId) (r : Room.t) : roomKept r (setTurn v r).
Proof. by destruct r. Qed.
Lemma roomKept_setWinner (v : option PlayerId) (r : Room.t) : roomKept r (setWinner v r).
Proof. by destruct r. Qed.
Lemma roomKept_setInactivityTimer (v : nat) (r : Room.t) : roomKept r (setInactivityTimer v r).
Proof. by destruct r. Qed.
Lemma playerKept_setCanDraw (v : bool) (a : Player.t) : playerKept a (Player.setCanDraw v a).
Proof. split; [by destruct a|done]. Qed.
Lemma playerKept_setCanPlay (v : bool) (a : Player.t) : playerKept a (Player.setCanPlay v a).
Proof. split; [by destruct a|done]. Qed.
Lemma playerKept_clearPlayableCards (a : Player.t) : playerKept a (Player.clearPlayableCards a).
Proof.
  split; [by destruct a|]. unfold Player.clearPlayableCards. cbn.
  rewrite List.map_map. by rewrite (List.map_ext _ Card.core (fun c => core_setPlayable _ c)).
Qed.
Lemma playerKept_findPlayableCards (top : Card.t) (a : Player.t) :
  playerKept a (Player.findPlayableCards top a).
Proof.
  split; [by destruct a|]. unfold Player.findPlayableCards. cbn.
  rewrite List.map_map. by rewrite (List.map_ext _ Card.core (fun c => core_setPlayable _ c)).
Qed.

Lemma turnKeeping_checkForWinner (s s' : State) :
  turnKeeping s s' ->
  exists s'', checkForWinner s' = Some (tt, s'') /\ turnKeeping s s''
    /\ turn (room s'') = turn (room s').
Proof.
  intros H. rewrite checkForWinner_run. destruct (last (emptyHanded s')) as [w|].
  - eexists. split; [reflexivity|]. split; [|done].
    apply turnKeeping_onRoom; [apply roomKept_setWinner|done].
  - by exists s'.
Qed.

Lemma getNextPlayer_unfold (s : State) (offset : Z) :
  getNextPlayer offset s =
    match players (room s), turn (room s) with
    | _ :: _, None => None
    | ps, Some t =>
        Some (at_ ps (nextSeat (Z.of_nat (length ps)) (directionReversed (room s)) offset
                        (findIndex (fun p => bool_decide (p = t)) ps)), s)
    | [], None => Some (at_ [] (nextSeat 0 (directionReversed (room s)) offset (-1)), s)
    end.
Proof.
  unfold getNextPlayer, turnIndex, bind, gets, theTurn, ret.
  destruct (players (room s)) eqn:Hp; destruct (turn (room s)) eqn:Ht; by rewrite ?Hp.
Qed.

Lemma getNextPlayer_same (s s' : State) (offset : Z) (x : option PlayerId) :
  players (room s') = players (room s) -> turn (room s') = turn (room s) ->
  directionReversed (room s') = directionReversed (room s) ->
  getNextPlayer offset s = Some (x, s) -> getNextPlayer offset s' = Some (x, s').
Proof.
  intros Hp Ht Hd. rewrite !getNextPlayer_unfold, Hp, Ht, Hd.
  destruct (players (room s)); destruct (turn (room s)); try done; by intros [= <-].
Qed.

Lemma turnKeeping_fields (s s' : State) :
  turnKeeping s s' ->
  players (room s') = players (room s)
  /\ directionReversed (room s') = directionReversed (room s)
  /\ stack (room s') = stack (room s)
  /\ deck (room s') = deck (room s) /\ pile (room s') = pile (room s)
  /\ isRoomEmpty (room s') = isRoomEmpty (room s)
  /\ (forall q, Player.mustStack (heap s' q) = Player.mustStack (heap s q)
                /\ Player.drawing (heap s' q) = Player.drawing (heap s q)
                /\ length (hand s' q) = length (hand s q)).
Proof.
  intros [R P]. destruct (roomKept_fields _ _ R) as (? & ? & ? & ? & ? & ? & _).
  split_and!; try done. intros q.
  destruct (playerKept_fields _ _ (P q)) as (_ & ? & ? & _ & _ & _ & ? & _). done.
Qed.

Variable botPlay : PlayerId -> M unit.
Variable passes : nat.

(** The end of [nextTurn], from [this.turn = this.getNextPlayer()] on. *)
Lemma nextTurn_tail (s0 s : State) (np : PlayerId) :
  turnKeeping s0 s -> pile (room s) <> [] ->
  exists s',
    (modify (onRoom (setTurn (Some np))) ;;
     modify (onPlayer np (Player.setCanDraw true)) ;;
     modify (onPlayer np (Player.setCanPlay true)) ;;
     findPlayable np ;;
     checkForWinner ;;
     broadcastState ;;
     w <- gets (fun s => winner (room s)) ;;
     match w with
     | Some _ => ret tt
     | None => isBot <- gets (fun s => Player.bot (heap s np)) ;; when isBot (botPlay np)
     end) s = handoff botPlay s'
    /\ turnKeeping s0 s' /\ turn (room s') = Some np.
Proof.
  intros Hk Hpile.
  do 3 (unfold bind at 1; unfold modify at 1).
  set (s1 := onPlayer np _ (onPlayer np _ (onRoom _ s))).
  assert (Hk1 : turnKeeping s0 s1).
  { apply turnKeeping_onPlayer; [intros a; apply playerKept_setCanPlay|].
    apply turnKeeping_onPlayer; [intros a; apply playerKept_setCanDraw|].
    apply turnKeeping_onRoom; [intros r; apply roomKept_setTurn|done]. }
  destruct (topCard_Some s Hpile) as [top Htop].
  unfold bind at 1. unfold findPlayable at 1.
  change (topCard s1) with (topCard s). rewrite Htop.
  set (s2 := onPlayer np _ s1).
  assert (Hk2 : turnKeeping s0 s2).
  { apply turnKeeping_onPlayer; [intros a; apply playerKept_findPlayableCards|done]. }
  destruct (turnKeeping_checkForWinner s0 s2 Hk2) as (s3 & Hrun & Hk3 & Ht3).
  unfold bind at 1. rewrite Hrun.
  assert (Ht3' : turn (room s3) = Some np) by (rewrite Ht3; done).
  unfold bind at 1. rewrite (broadcastState_run s3 np Ht3').
  set (s4 := setOutbox _ s3).
  exists s4. split; [|split; [by apply turnKeeping_setOutbox|done]].
  unfold bind at 1. unfold gets at 1. unfold handoff.
  change (room s4) with (room s3). rewrite Ht3'.
  destruct (winner (room s3)); [done|].
  unfold bind, gets, when, ret. by destruct (Player.bot (heap s4 np)).
Qed.

Lemma nextTurn_plain_spec (s : State) (p np : PlayerId) :
  turn (room s) = Some p -> getNextPlayer 0 s = Some (Some np, s) ->
  pile (room s) <> [] ->
  exists s',
    nextTurn botPlay passes false 0 s = handoff botPlay s'
    /\ turnKeeping s s' /\ turn (room s') = Some np.
Proof.
  intros Ht Hnext Hpile. unfold nextTurn, nextTurnBody.
  unfold bind at 1. unfold modify at 1.
  unfold bind at 1. unfold theTurn at 1. cbn [room onRoom setRoom turn setInactivityTimer].
  rewrite Ht.
  do 3 (unfold bind at 1; unfold modify at 1).
  set (s1 := onPlayer p _ (onPlayer p _ (onPlayer p _ (onRoom _ s)))).
  assert (Hk1 : turnKeeping s s1).
  { apply turnKeeping_onPlayer; [intros a; apply playerKept_setCanPlay|].
    apply turnKeeping_onPlayer; [intros a; apply playerKept_setCanDraw|].
    apply turnKeeping_onPlayer; [apply playerKept_clearPlayableCards|].
    apply turnKeeping_onRoom; [intros r; apply roomKept_setInactivityTimer|].
    apply turnKeeping_refl. }
  cbn [orb negb]. rewrite bool_decide_eq_true_2 by done. cbn [negb when].
  unfold bind at 1. unfold ret at 1.
  unfold bind at 1. rewrite (getNextPlayer_same s s1 0 (Some np)); try done.
  apply nextTurn_tail; [done|].
  destruct (turnKeeping_fields _ _ Hk1) as (_ & _ & _ & _ & -> & _). done.
Qed.

(** [nextTurn(true, n)]: the next seat takes the turn without the right to
    act and draws [n] cards, then the seat after it gets the turn. *)
Lemma nextTurn_skip_spec (s : State) (p np nnp : PlayerId) (n : nat) :
  turn (room s) = Some p ->
  getNextPlayer 0 s = Some (Some np, s) ->
  getNextPlayer 0 (onRoom (setTurn (Some np)) s)
    = Some (Some nnp, onRoom (setTurn (Some np)) s) ->
  pile (room s) <> [] -> n <= drawable s ->
  exists s1 s2 s',
    nextTurn botPlay passes true (Z.of_nat n) s = handoff botPlay s'
    /\ turnKeeping s s1 /\ turn (room s1) = Some np
    /\ dealt np (if Player.drawing (heap s np) || isRoomEmpty (room s) then 0 else n) s1 s2
    /\ turnKeeping s2 s' /\ turn (room s') = Some nnp.
Proof.
  intros Ht Hnext Hnext2 Hpile Hn. unfold nextTurn, nextTurnBody.
  unfold bind at 1. unfold modify at 1.
  unfold bind at 1. unfold theTurn at 1. cbn [room onRoom setRoom turn setInactivityTimer].
  rewrite Ht.
  do 3 (unfold bind at 1; unfold modify at 1).
  set (s1 := onPlayer p _ (onPlayer p _ (onPlayer p _ (onRoom _ s)))).
  assert (Hk1 : turnKeeping s s1).
  { apply turnKeeping_onPlayer; [intros a; apply playerKept_setCanPlay|].
    apply turnKeeping_onPlayer; [intros a; apply playerKept_setCanDraw|].
    apply turnKeeping_onPlayer; [apply playerKept_clearPlayableCards|].
    apply turnKeeping_onRoom; [intros r; apply roomKept_setInactivityTimer|].
    apply turnKeeping_refl. }
  cbn [orb when]. unfold bind at 1. unfold bind at 1.
  rewrite (getNextPlayer_same s s1 0 (Some np)); try done.
  unfold bind at 1. unfold modify at 1.
  unfold bind at 1. unfold theTurn at 1. cbn [room onRoom setRoom turn setTurn].
  do 2 (unfold bind at 1; unfold modify at 1).
  set (s2 := onPlayer np _ (onPlayer np _ (onRoom (setTurn (Some np)) s1))).
  assert (Hk2 : turnKeeping s s2).
  { apply turnKeeping_onPlayer; [intros a; apply playerKept_setCanPlay|].
    apply turnKeeping_onPlayer; [intros a; apply playerKept_setCanDraw|].
    apply turnKeeping_onRoom; [intros r; apply roomKept_setTurn|done]. }
  assert (Ht2 : turn (room s2) = Some np) by done.
  unfold bind at 1. rewrite (broadcastState_run s2 np Ht2).
  set (s3 := setOutbox _ s2).
  assert (Hk3 : turnKeeping s s3) by (by apply turnKeeping_setOutbox).
  assert (Ht3 : turn (room s3) = Some np) by done.
  destruct (turnKeeping_fields _ _ Hk3) as (Hps & Hdir & Hst & Hdeck & Hpile3 & Hemp & Hq).
  assert (Hdraw : exists s4,
    when (negb (bool_decide (Z.of_nat n = 0%Z)))
      (t <- theTurn ;; drawCards botPlay passes t (Z.of_nat n)) s3 = Some (tt, s4)
    /\ dealt np (if Player.drawing (heap s np) || isRoomEmpty (room s) then 0 else n) s3 s4).
  { destruct n as [|n].
    - exists s3. split; [done|]. destruct (_ || _); apply dealt_refl.
    - rewrite bool_decide_eq_false_2 by lia. cbn [negb when].
      unfold bind at 1. unfold theTurn at 1. rewrite Ht3.
      destruct (drawCards_forced botPlay passes np np (S n) s3) as (s4 & Hrun & Hd & _).
      + done.
      + by rewrite Hpile3.
      + exists s4. split; [done|].
        destruct (Hq np) as (_ & <- & _). by rewrite <- Hemp. }
  destruct Hdraw as (s4 & Hrun & Hd). rewrite Hrun.
  destruct (dealt_fields _ _ _ _ Hd) as (Htu4 & Hps4 & Hemp4 & _ & Hpl4).
  assert (Hdir4 : directionReversed (room s4) = directionReversed (room s3)).
  { destruct Hd as (Hroom & _). by destruct (sameButCards_fields _ _ Hroom) as (_ & _ & _ & _ & ? & _). }
  unfold bind at 1.
  rewrite (getNextPlayer_same (onRoom (setTurn (Some np)) s) s4 0 (Some nnp)); try done.
  destruct (nextTurn_tail s4 s4 nnp (turnKeeping_refl s4)) as (s' & Htail & Hk' & Ht').
  { apply Hpl4. by rewrite Hpile3. }
  exists s3, s4, s'. split_and!; try done.
Qed.


End TurnFacts.

(** ** Playing a Plus2 *)

Section PlayFacts.
Import Room Facts Seating.
Local Open Scope room_scope.

Lemma seatAfter_moves (n i : Z) (reversed : bool) :
  (2 <= n)%Z -> (0 <= i < n)%Z -> seatAfter n reversed i <> i.
Proof.
  intros Hn Hi. unfold seatAfter. destruct reversed.
  - destruct (decide (i = 0%Z)) as [->|].
    + replace ((0 - 1) mod n)%Z with (n - 1)%Z; [lia|].
      apply Z.mod_unique with (q := (-1)%Z); lia.
    + rewrite Z.mod_small; lia.
  - destruct (decide (i = (n - 1)%Z)) as [->|].
    + replace (n - 1 + 1)%Z with n by lia. rewrite Z.mod_same; lia.
    + rewrite Z.mod_small; lia.
Qed.

Lemma getNextPlayer_other (s : State) (p np : PlayerId) :
  NoDup (players (room s)) -> 2 <= length (players (room s)) ->
  turn (room s) = Some p -> p ∈ players (room s) ->
  getNextPlayer 0 s = Some (Some np, s) ->
  np <> p /\ np ∈ players (room s).
Proof.
  intros Hnd Hlen Ht Hin Hnext.
  destruct (findIndex_elem _ _ Hin) as (i & Hfi & Hi).
  pose proof (lookup_lt_Some _ _ _ Hi) as Hlt.
  rewrite (getNextPlayer_run s p 0 Ht) in Hnext.
  2:{ intros E. rewrite E in Hi. done. }
  rewrite Hfi, nextSeat_seatAfter in Hnext by lia.
  injection Hnext as Hnp. apply at_Some in Hnp as [Hr Hnp].
  split.
  - intros ->.
    pose proof (NoDup_lookup _ _ _ _ Hnd Hnp Hi) as E.
    apply (seatAfter_moves (Z.of_nat (length (players (room s)))) (Z.of_nat i)
             (directionReversed (room s))); lia.
  - by apply list_elem_of_lookup_2 in Hnp.
Qed.


Lemma findIndex_Exists {A} (P : A -> bool) (l : list A) :
  Exists (fun x => P x = true) l -> findIndex P l <> (-1)%Z.
Proof.
  intros He Hf. apply findIndex_none in Hf. apply Exists_exists in He as (x & Hx & HP).
  rewrite Forall_forall in Hf. specialize (Hf x Hx). congruence.
Qed.

Variable botPlay : PlayerId -> M unit.
Variable passes : nat.

(** The penalty for a missed uno call, whether or not it is due. *)
Lemma uno_penalty (b : bool) (p t : PlayerId) (s : State) :
  turn (room s) = Some t -> pile (room s) <> [] -> 2 <= drawable s ->
  exists s' k,
    when b (drawCards botPlay passes p 2) s = Some (tt, s') /\ dealt p k s s' /\ k <= 2.
Proof.
  intros Ht Hpile Hdr. destruct b; [|exists s, 0; split; [done|split; [apply dealt_refl|lia]]].
  destruct (drawCards_forced botPlay passes p t 2 s Ht Hpile) as (s' & Hrun & Hd & _).
  exists s'. eexists. split; [exact Hrun|]. split; [exact Hd|].
  destruct (_ || _); lia.
Qed.

Lemma dealt_others (p : PlayerId) (k : nat) (s s' : State) :
  dealt p k s s' ->
  forall q, Player.mustStack (heap s' q) = Player.mustStack (heap s q)
            /\ (q <> p -> heap s' q = heap s q).
Proof.
  intros (_ & _ & _ & Hoth & Hp & _) q. split; [|by apply Hoth].
  destruct (decide (q = p)) as [->|Hne]; [|by rewrite Hoth].
  by destruct (sameButHand_fields _ _ Hp) as (_ & ? & _).
Qed.

(** The accepted play, up to the effect of the card: the card leaves the
    hand for the pile and the next player is looked up. *)
Ltac play_accepted s Ht Hcan Hcard Hplayable Hnext s1 :=
  unfold playCard; unfold bind at 1; unfold gets at 1; rewrite Hcan; cbn [negb];
  unfold hand in Hcard; rewrite Hcard;
  unfold bind at 1; unfold theTurn at 1; rewrite Ht;
  rewrite bool_decide_eq_true_2 by done; rewrite Hplayable; cbn [negb orb];
  do 3 (unfold bind at 1; unfold modify at 1);
  unfold bind at 1;
  match goal with
  | |- context [getNextPlayer 0 ?st] => set (s1 := st)
  end;
  rewrite (getNextPlayer_same s s1 0 _ eq_refl eq_refl eq_refl Hnext).

(** C4, as the code has it: when the turn player plays a playable Plus2 and
    the next player, in seating order and direction, holds a Plus2, the next
    player draws nothing and keeps the same cards, must stack, and gets the
    turn; the stack grows by 2, the penalty of the card played, so that a
    stack of 0 becomes 2.  The play ends by handing over to the next player,
    whose move follows if it is a bot. *)
Theorem playCard_plus2_stacks (s : State) (p np : PlayerId) (i : Z) (card : Card.t) :
  turn (room s) = Some p ->
  Player.canPlay (heap s p) = true ->
  at_ (hand s p) i = Some card ->
  Card.playable card = true ->
  Card.type card = Some Card.Plus2 ->
  NoDup (players (room s)) -> 2 <= length (players (room s)) -> p ∈ players (room s) ->
  getNextPlayer 0 s = Some (Some np, s) ->
  Exists (fun c => Card.type c = Some Card.Plus2) (hand s np) ->
  2 <= length (deck (room s)) + length (pile (room s)) ->
  exists s',
    playCard botPlay passes p i s = handoff botPlay s'
    /\ stack (room s') = (stack (room s) + 2)%Z
    /\ Player.mustStack (heap s' np) = true
    /\ map Card.core (hand s' np) = map Card.core (hand s np)
    /\ turn (room s') = Some np.
Proof.
  intros Ht Hcan Hcard Hplayable Hty Hnd Hlen Hin Hnext Hplus2 Hcards.
  destruct (getNextPlayer_other s p np Hnd Hlen Ht Hin Hnext) as [Hne Hnpin].
  play_accepted s Ht Hcan Hcard Hplayable Hnext s1.
  assert (Hnp1 : heap s1 np = heap s np).
  { unfold s1. cbn [heap onRoom setRoom onPlayer setHeap]. by rewrite update_ne. }
  rewrite Hty. unfold bind at 1. unfold penalty. unfold bind at 1. unfold gets at 1.
  unfold hand at 1. rewrite Hnp1.
  destruct (Z.eqb_spec (findIndex (fun c => bool_decide (Card.type c = Some Card.Plus2))
                          (Player.cards (heap s np))) (-1)) as [E|_].
  { exfalso. revert E. apply findIndex_Exists. eapply Exists_impl; [exact Hplus2|].
    intros c Hc. by apply bool_decide_eq_true. }
  cbn [negb]. do 2 (unfold bind at 1; unfold modify at 1). unfold ret at 1.
  set (s2 := onRoom _ (onPlayer np _ s1)).
  unfold bind at 1. unfold gets at 1. unfold bind at 1.
  destruct (uno_penalty
    (bool_decide (length (Player.cards (heap s2 p)) = 1) && negb (Player.hasCalledUno (heap s2 p)))
    p p s2) as (s3 & k & Hrun & Hd & _).
  { done. }
  { unfold s2, s1. cbn [room onRoom setRoom onPlayer setHeap pile setPile setStack].
    intros E. by apply app_nil in E as [_ E]. }
  { unfold drawable, s2, s1. cbn [room onRoom setRoom onPlayer setHeap pile deck setPile setStack setWildcard].
    rewrite length_app. simpl. lia. }
  rewrite Hrun. unfold bind at 1. unfold modify at 1.
  set (s4 := onPlayer p _ s3).
  destruct Hd as (Hroom & Htop & Hdr & Hoth & Hp & Hlen3).
  destruct (sameButCards_fields _ _ Hroom) as (Htu3 & Hps3 & _ & Hst3 & Hdir3 & _).
  assert (Hnp4 : heap s4 np = Player.setMustStack true (heap s np)).
  { unfold s4. cbn [heap onPlayer setHeap]. rewrite update_ne by done.
    rewrite Hoth by done. unfold s2. cbn [heap onRoom setRoom onPlayer setHeap].
    by rewrite update_eq, Hnp1. }
  unfold bind at 1. unfold gets at 1. rewrite Hnp4.
  cbn [Player.mustStack Player.setMustStack negb andb orb].
  rewrite (bool_decide_eq_false_2 (Some Card.Plus2 = Some Card.Skip)) by done.
  rewrite andb_false_r. cbn [orb].
  destruct (nextTurn_plain_spec botPlay passes s4 p np) as (s' & Hfin & Hk & Ht').
  { change (turn (room s3) = Some p). by rewrite Htu3. }
  { apply (getNextPlayer_same s s4 0 (Some np)); try done. }
  { change (pile (room s3) <> []).
    destruct (topCard_Some s2) as [top Htop2].
    { unfold s2, s1. cbn [room onRoom setRoom onPlayer setHeap pile setPile setStack].
      intros E. by apply app_nil in E as [_ E]. }
    apply (topCard_pile s3 top). congruence. }
  exists s'. split; [exact Hfin|].
  destruct Hk as [Rk Pk].
  destruct (roomKept_fields _ _ Rk) as (_ & _ & Hstk & _).
  destruct (Pk np) as [Hpk Hcore].
  destruct (playerKept_fields _ _ (Pk np)) as (_ & Hms & _).
  split_and!.
  - rewrite Hstk. change (stack (room s3) = (stack (room s) + 2)%Z). by rewrite Hst3.
  - by rewrite Hms, Hnp4.
  - unfold hand. rewrite Hcore, Hnp4. done.
  - done.
Qed.


End PlayFacts.

Lemma playCard_plus2_stacks_witness :
  exists s',
    Room.playCard Sample.idleBot Sample.passes 1 1 Sample.stackable = Facts.handoff Sample.idleBot s'
    /\ Room.stack (Room.room s') = (Room.stack (Room.room Sample.stackable) + 2)%Z
    /\ Player.mustStack (Room.heap s' 2) = true
    /\ map Card.core (Room.hand s' 2) = map Card.core (Room.hand Sample.stackable 2)
    /\ Room.turn (Room.room s') = Some 2.
Proof.
  apply (playCard_plus2_stacks Sample.idleBot Sample.passes Sample.stackable 1 2 1
           (Sample.card 21 0 Card.Blue Card.Plus2 true)).
  - reflexivity.
  - reflexivity.
  - reflexivity.
  - reflexivity.
  - reflexivity.
  - apply (bool_decide_unpack _). by vm_compute.
  - vm_compute. lia.
  - apply (bool_decide_unpack _). by vm_compute.
  - reflexivity.
  - apply (bool_decide_unpack _). by vm_compute.
  - vm_compute. lia.
Defined.

(** C4, as stated, fails: on a stack of 0 the Plus2 that the next player can
    answer leaves a stack of 2, not 4. *)
Lemma playCard_plus2_stack_is_not_4 :
  Room.stack (Room.room Sample.stackable) = 0%Z
  /\ Room.turn (Room.room Sample.stackable) = Some 1
  /\ at_ (Room.hand Sample.stackable 1) 1 = Some (Sample.card 21 0 Card.Blue Card.Plus2 true)
  /\ Room.getNextPlayer 0 Sample.stackable = Some (Some 2, Sample.stackable)
  /\ Exists (fun c => Card.type c = Some Card.Plus2) (Room.hand Sample.stackable 2)
  /\ exists s',
       Room.playCard Sample.idleBot Sample.passes 1 1 Sample.stackable = Some (tt, s')
       /\ Player.mustStack (Room.heap s' 2) = true
       /\ length (Room.hand s' 2) = length (Room.hand Sample.stackable 2)
       /\ Room.stack (Room.room s') = 2%Z
       /\ Room.stack (Room.room s') <> 4%Z.
Proof.
  split_and!; try reflexivity.
  - apply (bool_decide_unpack _). by vm_compute.
  - assert (H : match Room.playCard Sample.idleBot Sample.passes 1 1 Sample.stackable with
                | Some (_, s') =>
                    Player.mustStack (Room.heap s' 2) = true
                    /\ length (Room.hand s' 2) = length (Room.hand Sample.stackable 2)
                    /\ Room.stack (Room.room s') = 2%Z
                | None => False
                end) by (vm_compute; done).
    destruct (Room.playCard Sample.idleBot Sample.passes 1 1 Sample.stackable) as [[[] s']|]; [|done].
    destruct H as (H1 & H2 & H3). exists s'. split_and!; try done. by rewrite H3.
Qed.

(** ** The deck, the seats and the views *)

Section DeckAndSeats.
Import Room Facts Seating.
Local Open Scope room_scope.

Lemma shuffleFrom_tape {A} (i : nat) (l : list A) (rs : list nat) :
  (Deck.shuffleFrom i l rs).2 = drop i rs.
Proof.
  revert l rs. induction i as [|i IH]; intros l rs; [by rewrite drop_0|].
  cbn [Deck.shuffleFrom]. destruct rs as [|r rs]; cbn [Deck.randBelow].
  - rewrite IH. by rewrite !drop_nil.
  - by rewrite IH.
Qed.

Lemma shuffleFrom_length {A} (i : nat) (l : list A) (rs : list nat) :
  length (Deck.shuffleFrom i l rs).1 = length l.
Proof. apply Permutation_length, shuffleFrom_Permutation. Qed.

(** X1 (shuffleDeck): shuffling returns a permutation of the cards it was
    given, of the same length, and draws exactly one random number per
    card. *)
Theorem shuffleDeck_permutes {A} (cards : list A) (rs : list nat) :
  (Deck.shuffleDeck cards rs).1 ≡ₚ cards
  /\ length (Deck.shuffleDeck cards rs).1 = length cards
  /\ (Deck.shuffleDeck cards rs).2 = drop (length cards) rs.
Proof.
  split_and!.
  - apply shuffleDeck_Permutation.
  - apply shuffleFrom_length.
  - apply shuffleFrom_tape.
Qed.

(** X2 (pickCard): picking at an index inside the deck returns the card at
    that index and leaves the other cards in their order, one fewer; at an
    index past the end it returns nothing and leaves the deck as it was. *)
Theorem pickCard_removes_one {A} (i : nat) (cards : list A) :
  match Deck.pickCard i cards with
  | (Some c, rest) =>
      i < length cards /\ cards !! i = Some c
      /\ rest = take i cards ++ drop (S i) cards
      /\ length rest + 1 = length cards
      /\ cards ≡ₚ c :: rest
  | (None, rest) => length cards <= i /\ rest = cards
  end.
Proof.
  unfold Deck.pickCard. destruct (cards !! i) as [c|] eqn:E.
  - pose proof (lookup_lt_Some _ _ _ E) as Hlt. split_and!; try done.
    + apply delete_take_drop.
    + rewrite length_delete by eauto. lia.
    + by apply delete_Permutation.
  - apply lookup_ge_None in E. split; [done|].
    rewrite delete_take_drop, take_ge, drop_ge by lia. by rewrite app_nil_r.
Qed.

(** X3 (getNextPlayer): with the turn player at seat [i] of [n], a
    non-negative offset gives the seat [(i + 1 + offset) mod n] (or
    [(i - 1 - offset) mod n] when the direction is reversed) as long as the
    walk wraps around the table at most once; beyond that the single wrap of
    the code leaves the index out of range and the result is undefined.
    The state is not changed. *)
Theorem getNextPlayer_offset (s : State) (t : PlayerId) (offset : Z) :
  turn (room s) = Some t -> t ∈ players (room s) -> (0 <= offset)%Z ->
  let ps := players (room s) in
  let n := Z.of_nat (length ps) in
  exists i : nat,
    ps !! i = Some t
    /\ findIndex (fun p => bool_decide (p = t)) ps = Z.of_nat i
    /\ getNextPlayer offset s =
         Some (if directionReversed (room s)
               then if (1 + offset <=? n + Z.of_nat i)%Z
                    then ps !! Z.to_nat ((Z.of_nat i - (1 + offset)) mod n)
                    else None
               else if (Z.of_nat i + (1 + offset) <? 2 * n)%Z
                    then ps !! Z.to_nat ((Z.of_nat i + (1 + offset)) mod n)
                    else None, s).
Proof.
  intros Ht Hin Hoff ps n.
  destruct (findIndex_elem ps t Hin) as (i & Hfi & Hi).
  pose proof (lookup_lt_Some _ _ _ Hi) as Hlt.
  exists i. split; [done|]. split; [done|].
  rewrite (getNextPlayer_run s t offset Ht).
  2:{ intros E. fold ps in E. rewrite E in Hi. done. }
  fold ps n. rewrite Hfi. f_equal. f_equal. unfold nextSeat.
  destruct (directionReversed (room s)).
  - destruct (Z.ltb_spec (Z.of_nat i - (1 + offset)) 0) as [Hneg|Hpos].
    + destruct (Z.leb_spec (1 + offset) (n + Z.of_nat i)) as [Hle|Hgt].
      * replace ((Z.of_nat i - (1 + offset)) mod n)%Z with (n + (Z.of_nat i - (1 + offset)))%Z.
        { unfold at_. destruct (Z.leb_spec 0 (n + (Z.of_nat i - (1 + offset)))); [done|lia]. }
        apply Z.mod_unique with (q := (-1)%Z); unfold n in *; lia.
      * apply at_None_iff. lia.
    + rewrite (proj2 (Z.leb_le _ _)) by (unfold n; lia).
      rewrite Z.mod_small by (unfold n; lia).
      unfold at_. destruct (Z.leb_spec 0 (Z.of_nat i - (1 + offset))); [done|lia].
  - destruct (Z.gtb_spec (Z.of_nat i + (1 + offset)) (n - 1)) as [Hbig|Hsmall].
    + destruct (Z.ltb_spec (Z.of_nat i + (1 + offset)) (2 * n)) as [Hlt2|Hge2].
      * replace ((Z.of_nat i + (1 + offset)) mod n)%Z with (Z.of_nat i + (1 + offset) - n)%Z.
        { unfold at_. destruct (Z.leb_spec 0 (Z.of_nat i + (1 + offset) - n)); [done|lia]. }
        apply Z.mod_unique with (q := 1%Z); unfold n in *; lia.
      * apply at_None_iff. unfold n in *. lia.
    + rewrite (proj2 (Z.ltb_lt _ _)) by (unfold n in *; lia).
      rewrite Z.mod_small by (unfold n in *; lia).
      unfold at_. destruct (Z.leb_spec 0 (Z.of_nat i + (1 + offset))); [done|lia].
Qed.

Lemma getPlayerPosFromOffset_seat (s : State) (v : PlayerId) (i k : nat) :
  NoDup (players (room s)) -> players (room s) !! i = Some v ->
  k <= length (players (room s)) ->
  getPlayerPosFromOffset s v (Z.of_nat k)
  = players (room s) !! ((i + k) mod length (players (room s))).
Proof.
  intros Hnd Hi Hk. pose proof (lookup_lt_Some _ _ _ Hi) as Hlt.
  unfold getPlayerPosFromOffset. rewrite (findIndex_NoDup _ _ _ Hnd Hi).
  set (n := length (players (room s))) in *.
  destruct (Z.gtb_spec (Z.of_nat i + Z.of_nat k) (Z.of_nat n - 1)) as [Hbig|Hsmall].
  - replace (Z.of_nat i + Z.of_nat k - Z.of_nat n)%Z with (Z.of_nat (i + k - n)) by lia.
    rewrite at_nat. f_equal.
    apply Nat.mod_unique with (q := 1); lia.
  - replace (Z.of_nat i + Z.of_nat k)%Z with (Z.of_nat (i + k)) by lia.
    rewrite at_nat. f_equal. symmetry. apply Nat.mod_small. lia.
Qed.

Ltac split_decides :=
  repeat match goal with
  | |- context [bool_decide ?P] =>
      destruct (decide P);
      [rewrite (bool_decide_eq_true_2 P) by assumption
      |rewrite (bool_decide_eq_false_2 P) by assumption]
  end.

(** X4 (getPlayerPosFromOffset, broadcastState): the payload built for the
    viewer at seat [i] shows the seats [i+1], [i+2], [i+3] (mod [n]) as
    [right], [top] and [left]: [right] for 2 to 4 seats, [top] for 3 or 4,
    [left] for 4 only, and nobody when the room has one seat or more than
    four.  The opponents shown are distinct seated players, never the
    viewer, and with 2 to 4 seats they are all the other players. *)
Theorem project_opponents (s : State) (t viewer : PlayerId) (i : nat) :
  NoDup (players (room s)) -> players (room s) !! i = Some viewer ->
  let ps := players (room s) in
  let n := length ps in
  let seat (k : nat) : option Opponent := opponent s t <$> ps !! ((i + k) mod n) in
  let v := project s t viewer in
  let shown := o_id <$> omap (fun o => o) [v_right v; v_top v; v_left v] in
  v_right v = (if bool_decide (2 <= n <= 4) then seat 1 else None)
  /\ v_top v = (if bool_decide (3 <= n <= 4) then seat 2 else None)
  /\ v_left v = (if bool_decide (n = 4) then seat 3 else None)
  /\ NoDup shown /\ (viewer ∉ shown) /\ (shown ⊆ ps)
  /\ (2 <= n <= 4 -> length shown = n - 1).
Proof.
  intros Hnd Hi ps n seat v shown.
  pose proof (lookup_lt_Some _ _ _ Hi) as Hlt. fold ps n in Hlt.
  assert (Hr : v_right v = if bool_decide (2 <= n <= 4) then seat 1 else None).
  { unfold v, project, seat. cbn [v_right]. fold ps n.
    change 1%Z with (Z.of_nat 1).
    split_decides; cbn [orb]; try lia;
      try (rewrite (getPlayerPosFromOffset_seat s viewer i 1 Hnd Hi) by (fold ps n; lia));
      done. }
  assert (Ht : v_top v = if bool_decide (3 <= n <= 4) then seat 2 else None).
  { unfold v, project, seat. cbn [v_top]. fold ps n.
    change 2%Z with (Z.of_nat 2).
    split_decides; cbn [orb]; try lia;
      try (rewrite (getPlayerPosFromOffset_seat s viewer i 2 Hnd Hi) by (fold ps n; lia));
      done. }
  assert (Hl : v_left v = if bool_decide (n = 4) then seat 3 else None).
  { unfold v, project, seat. cbn [v_left]. fold ps n.
    change 3%Z with (Z.of_nat 3).
    split_decides; cbn [orb]; try lia;
      try (rewrite (getPlayerPosFromOffset_seat s viewer i 3 Hnd Hi) by (fold ps n; lia));
      done. }
  split_and!; try done.
  all: unfold shown; rewrite Hr, Ht, Hl; unfold seat; clear Hr Ht Hl shown seat v.
  all: fold ps in Hnd, Hi; clearbody ps; subst n.
  all: destruct ps as [|a [|b [|c [|d [|e ps]]]]]; cbn [length] in *; try lia.
  all: split_decides; try lia.
  all: destruct i as [|[|[|[|i]]]]; try lia.
  all: simplify_eq/=.
  all: rewrite ?NoDup_cons, ?elem_of_cons, ?elem_of_nil in Hnd.
  all: try done.
  all: repeat (apply NoDup_cons; split); try apply NoDup_nil_2.
  all: try (intros x).
  all: rewrite ?elem_of_cons, ?elem_of_nil in *; intuition congruence.
Qed.

End DeckAndSeats.

(** ** Broadcasts, the stack and the refill *)

Section BroadcastFacts.
Import Room Facts.
Local Open Scope room_scope.

Lemma stateMessages_addressees (s : State) (t : PlayerId) :
  addressee <$> stateMessages s t = listeners s.
Proof.
  unfold stateMessages, listeners.
  induction (players (room s)) as [|p l IH]; [done|].
  cbn [flat_map]. rewrite fmap_app, IH, filter_cons.
  destruct (Player.bot (heap s p)) eqn:Hb.
  - rewrite decide_False by (intros [? _]; done). done.
  - destruct (Player.socket (heap s p)) eqn:Hs.
    + rewrite decide_True by done. done.
    + rewrite decide_False by (intros [_ ?]; done). done.
Qed.

Lemma stateMessages_payloads (s : State) (t : PlayerId) :
  Forall (fun e => e = EmitState (addressee e) (project s t (addressee e))) (stateMessages s t).
Proof.
  unfold stateMessages. apply Forall_flat_map. apply Forall_forall. intros p _.
  destruct (Player.bot (heap s p)); [apply Forall_nil_2|].
  destruct (Player.socket (heap s p)); [|apply Forall_nil_2].
  apply Forall_cons. split; [done|apply Forall_nil_2].
Qed.

(** X5 (broadcastState): a broadcast changes nothing but the outbox; it
    emits one ["state"] message to every seated player that is no bot and
    has a socket, in seating order, each carrying the payload built for its
    addressee, and none to anybody else. *)
Theorem broadcastState_delivery (s : State) (t : PlayerId) :
  turn (room s) = Some t ->
  exists msgs,
    broadcastState s = Some (tt, setOutbox (outbox s ++ msgs) s)
    /\ addressee <$> msgs = listeners s
    /\ Forall (fun e => e = EmitState (addressee e) (project s t (addressee e))) msgs.
Proof.
  intros Ht. exists (stateMessages s t). split; [by apply broadcastState_run|].
  split; [apply stateMessages_addressees|apply stateMessages_payloads].
Qed.

(** X6 (broadcastState): in a room whose turn is undefined the broadcast
    throws as soon as a seat is held by a player that is no bot (the payload
    reads [this.turn.id]); with bots only, or no seat, it does nothing. *)
Theorem broadcastState_without_turn (s : State) :
  turn (room s) = None ->
  broadcastState s =
    if bool_decide (Forall (fun p => Player.bot (heap s p) = true) (players (room s)))
    then Some (tt, s) else None.
Proof.
  intros Ht. unfold broadcastState. unfold bind at 1. unfold gets at 1.
  induction (players (room s)) as [|p l IH].
  - rewrite bool_decide_eq_true_2 by apply Forall_nil_2. done.
  - cbn [forEach]. unfold bind at 1. unfold sendState at 1.
    unfold bind at 1. unfold gets at 1.
    destruct (Player.bot (heap s p)) eqn:Hb.
    + unfold ret at 1. rewrite IH.
      destruct (decide (Forall (fun p => Player.bot (heap s p) = true) l)) as [Hl|Hl].
      * rewrite !bool_decide_eq_true_2; [done|by apply Forall_cons|done].
      * rewrite !bool_decide_eq_false_2; [done| |done].
        intros H'. apply Forall_cons in H' as [_ H']. done.
    + unfold bind at 1. unfold theTurn at 1. rewrite Ht.
      rewrite bool_decide_eq_false_2; [done|].
      intros H'. apply Forall_cons in H' as [H' _]. congruence.
Qed.

(** X7 (clearStack): the stack is set to 0 and [mustStack] is reset for the
    seated players, and only for them: a player object that is not seated
    in the room keeps its flag.  Nothing else changes. *)
Theorem clearStack_resets (s : State) :
  exists s',
    clearStack s = Some (tt, s')
    /\ room s' = setStack 0%Z (room s)
    /\ (forall q, q ∈ players (room s) -> heap s' q = Player.setMustStack false (heap s q))
    /\ (forall q, q ∉ players (room s) -> heap s' q = heap s q)
    /\ outbox s' = outbox s /\ rand s' = rand s.
Proof.
  exists (clearedStack s). split; [apply clearStack_run|].
  split; [apply clearedStack_room|].
  split_and!.
  - intros q Hq. rewrite clearedStack_heap. by rewrite bool_decide_eq_true_2.
  - intros q Hq. rewrite clearedStack_heap. by rewrite bool_decide_eq_false_2.
  - unfold clearedStack.
    by rewrite (proj1 (proj2 (foldl_onPlayer_room (Player.setMustStack false) (players (room s))
                       (onRoom (setStack 0%Z) s)))).
  - unfold clearedStack.
    by rewrite (proj2 (proj2 (foldl_onPlayer_room (Player.setMustStack false) (players (room s))
                       (onRoom (setStack 0%Z) s)))).
Qed.

(** X8 (refillDeckFromPile): the refill never fails.  The top card stays on
    the pile, alone; the cards under it join the deck, which is then a
    permutation of the old deck and those cards with the colour of every
    wild card erased; an empty pile stays empty.  The players are not
    touched, and one random number is drawn per deck card. *)
Theorem refillDeckFromPile_keeps_top (s : State) :
  exists sr,
    refillDeckFromPile s = Some (tt, sr)
    /\ topCard sr = topCard s
    /\ pile (room sr) = match topCard s with Some top => [top] | None => [] end
    /\ deck (room sr) ≡ₚ map stripWild (deck (room s) ++ removelast (pile (room s)))
    /\ Forall (fun c => Card.isWild c = true -> Card.color c = Some Card.NoColor) (deck (room sr))
    /\ heap sr = heap s /\ outbox sr = outbox s
    /\ rand sr = drop (length (deck (room s)) + (length (pile (room s)) - 1)) (rand s).
Proof.
  destruct (refillDeckFromPile_run s) as (d & rs & Hsh & Hrun & Hperm).
  eexists. split; [exact Hrun|].
  cbn [room heap outbox rand setRand onRoom setRoom deck pile players setDeck setPile].
  assert (Hpile : drop (length (pile (room s)) - 1) (pile (room s))
                  = match topCard s with Some top => [top] | None => [] end).
  { unfold topCard. destruct (pile (room s)) as [|c l] eqn:E using rev_ind; [done|].
    rewrite last_snoc, length_app. cbn [length].
    replace (length l + 1 - 1) with (length l) by lia.
    by rewrite drop_app_length. }
  assert (Htake : take (length (pile (room s)) - 1) (pile (room s)) = removelast (pile (room s))).
  { destruct (pile (room s)) as [|c l] using rev_ind; [done|].
    rewrite removelast_last, length_app. cbn [length].
    replace (length l + 1 - 1) with (length l) by lia.
    by rewrite take_app_length. }
  split_and!; try done.
  - unfold topCard at 1. cbn [room setRand onRoom setRoom pile setDeck setPile].
    rewrite Hpile. unfold topCard. by destruct (last (pile (room s))).
  - by rewrite Hperm, Htake.
  - rewrite Hperm. apply Forall_forall. intros c Hc.
    apply list_elem_of_In, in_map_iff in Hc as (c0 & <- & _). apply stripWild_colourless.
  - pose proof (shuffleFrom_tape
      (length (map stripWild (deck (room s) ++ take (length (pile (room s)) - 1) (pile (room s)))))
      (map stripWild (deck (room s) ++ take (length (pile (room s)) - 1) (pile (room s))))
      (rand s)) as Htape.
    unfold Deck.shuffleDeck in Hsh. rewrite Hsh in Htape. cbn [snd] in Htape.
    rewrite Htape, List.length_map, length_app, length_take. f_equal. lia.
Qed.

End BroadcastFacts.

(** ** Handing over the turn *)

Section HandOverFacts.
Import Room Facts Seating.
Local Open Scope room_scope.

Variable botPlay : PlayerId -> M unit.
Variable passes : nat.

Lemma emptyHanded_same (s s' : State) :
  players (room s') = players (room s) ->
  (forall q, length (hand s' q) = length (hand s q)) ->
  emptyHanded s' = emptyHanded s.
Proof.
  intros Hps Hlen. unfold emptyHanded. rewrite Hps. apply list_filter_iff. intros q.
  specialize (Hlen q). split; intros E; apply nil_length_inv; [rewrite <- Hlen|rewrite Hlen];
    by rewrite E.
Qed.

Lemma emptyHanded_turnKeeping (s s' : State) : turnKeeping s s' -> emptyHanded s' = emptyHanded s.
Proof.
  intros Hk. destruct (turnKeeping_fields _ _ Hk) as (Hps & _ & _ & _ & _ & _ & Hq).
  apply emptyHanded_same; [done|]. intros q. by destruct (Hq q) as (_ & _ & ?).
Qed.

(** [nextTurn()] with its default arguments, in full: what the room and the
    players look like when the turn is handed over. *)
Lemma nextTurn_plain_exact (s : State) (p np : PlayerId) :
  turn (room s) = Some p -> getNextPlayer 0 s = Some (Some np, s) ->
  pile (room s) <> [] ->
  exists s',
    nextTurn botPlay passes false 0 s = handoff botPlay s'
    /\ turnKeeping s s' /\ turn (room s') = Some np
    /\ inactivityTimer (room s') = 0
    /\ winner (room s') = match last (emptyHanded s) with
                          | Some w => Some w
                          | None => winner (room s)
                          end
    /\ wildcard (room s') = wildcard (room s)
    /\ Player.canDraw (heap s' np) = true /\ Player.canPlay (heap s' np) = true
    /\ (p <> np -> Player.canDraw (heap s' p) = false /\ Player.canPlay (heap s' p) = false
                   /\ Forall (fun c => Card.playable c = false) (hand s' p))
    /\ (forall q, q <> p -> q <> np -> heap s' q = heap s q)
    /\ exists sb, outbox s' = outbox s ++ stateMessages sb np
                  /\ room sb = room s' /\ heap sb = heap s'.
Proof.
  intros Ht Hnext Hpile. unfold nextTurn, nextTurnBody.
  unfold bind at 1. unfold modify at 1.
  unfold bind at 1. unfold theTurn at 1. cbn [room onRoom setRoom turn setInactivityTimer].
  rewrite Ht.
  do 3 (unfold bind at 1; unfold modify at 1).
  set (s1 := onPlayer p _ (onPlayer p _ (onPlayer p _ (onRoom _ s)))).
  assert (Hk1 : turnKeeping s s1).
  { apply turnKeeping_onPlayer; [intros a; apply playerKept_setCanPlay|].
    apply turnKeeping_onPlayer; [intros a; apply playerKept_setCanDraw|].
    apply turnKeeping_onPlayer; [apply playerKept_clearPlayableCards|].
    apply turnKeeping_onRoom; [intros r; apply roomKept_setInactivityTimer|].
    apply turnKeeping_refl. }
  cbn [orb negb]. rewrite bool_decide_eq_true_2 by done. cbn [negb when].
  unfold bind at 1. unfold ret at 1.
  unfold bind at 1. rewrite (getNextPlayer_same s s1 0 (Some np)); try done.
  do 3 (unfold bind at 1; unfold modify at 1).
  set (s2 := onPlayer np _ (onPlayer np _ (onRoom _ s1))).
  assert (Hk2 : turnKeeping s s2).
  { apply turnKeeping_onPlayer; [intros a; apply playerKept_setCanPlay|].
    apply turnKeeping_onPlayer; [intros a; apply playerKept_setCanDraw|].
    apply turnKeeping_onRoom; [intros r; apply roomKept_setTurn|done]. }
  destruct (topCard_Some s Hpile) as [top Htop].
  unfold bind at 1. unfold findPlayable at 1.
  change (topCard s2) with (topCard s). rewrite Htop.
  set (s3 := onPlayer np _ s2).
  assert (Hk3 : turnKeeping s s3).
  { apply turnKeeping_onPlayer; [intros a; apply playerKept_findPlayableCards|done]. }
  unfold bind at 1. rewrite checkForWinner_run.
  rewrite (emptyHanded_turnKeeping s s3 Hk3).
  set (s4 := match last (emptyHanded s) with Some w => onRoom (setWinner (Some w)) s3 | None => s3 end).
  assert (Hk4 : turnKeeping s s4).
  { unfold s4. destruct (last (emptyHanded s)); [|done].
    apply turnKeeping_onRoom; [apply roomKept_setWinner|done]. }
  assert (Hh4 : heap s4 = heap s3) by (unfold s4; by destruct (last (emptyHanded s))).
  assert (Ho4 : outbox s4 = outbox s) by (unfold s4; by destruct (last (emptyHanded s))).
  assert (Ht4 : turn (room s4) = Some np) by (unfold s4; by destruct (last (emptyHanded s))).
  assert (Hi4 : inactivityTimer (room s4) = 0) by (unfold s4; by destruct (last (emptyHanded s))).
  assert (Hwc4 : wildcard (room s4) = wildcard (room s)) by (unfold s4; by destruct (last (emptyHanded s))).
  assert (Hw4 : winner (room s4) = match last (emptyHanded s) with
                                   | Some w => Some w | None => winner (room s) end).
  { unfold s4. by destruct (last (emptyHanded s)). }
  unfold bind at 1. rewrite (broadcastState_run s4 np Ht4).
  set (s5 := setOutbox _ s4).
  exists s5. split.
  { unfold bind at 1. unfold gets at 1. unfold handoff.
    change (room s5) with (room s4). rewrite Ht4.
    destruct (winner (room s4)); [done|].
    unfold bind, gets, when, ret. by destruct (Player.bot (heap s5 np)). }
  split; [by apply turnKeeping_setOutbox|].
  unfold hand. change (room s5) with (room s4). change (heap s5) with (heap s4). rewrite Hh4.
  split_and!; try done.
  - unfold s3, s2. cbn [heap onPlayer setHeap]. by rewrite !update_eq.
  - unfold s3, s2. cbn [heap onPlayer setHeap]. by rewrite !update_eq.
  - intros Hne. unfold hand, s3, s2, s1. cbn [heap onPlayer onRoom setRoom setHeap].
    rewrite !(update_ne np p) by done. rewrite !update_eq. split_and!; try done.
    cbn. apply Forall_forall. intros c Hc.
    apply list_elem_of_In, in_map_iff in Hc as (c0 & <- & _). by destruct c0.
  - intros q Hqp Hqnp. unfold s3, s2, s1. cbn [heap onPlayer onRoom setRoom setHeap].
    by rewrite !update_ne by done.
  - exists s4. rewrite Hh4. split_and!; try done. unfold s5. cbn [outbox setOutbox]. by rewrite Ho4.
Qed.

End HandOverFacts.

(** ** More plays *)

Section PlainPlays.
Import Room Facts Seating.
Local Open Scope room_scope.

Variable botPlay : PlayerId -> M unit.
Variable passes : nat.

(** The accepted play, up to the effect of the card: the card leaves the
    hand for the pile and the next player is looked up. *)
Ltac accept_play s Ht Hcan Hcard Hplayable Hnext s1 :=
  unfold playCard; unfold bind at 1; unfold gets at 1; rewrite Hcan; cbn [negb];
  unfold hand in Hcard; rewrite Hcard;
  unfold bind at 1; unfold theTurn at 1; rewrite Ht;
  rewrite bool_decide_eq_true_2 by done; rewrite Hplayable; cbn [negb orb];
  do 3 (unfold bind at 1; unfold modify at 1);
  unfold bind at 1;
  match goal with
  | |- context [getNextPlayer 0 ?st] => set (s1 := st)
  end;
  rewrite (getNextPlayer_same s s1 0 _ eq_refl eq_refl eq_refl Hnext).

Lemma playCard_plain_exact (s : State) (p np : PlayerId) (i : Z) (card : Card.t) :
  turn (room s) = Some p ->
  Player.canPlay (heap s p) = true ->
  at_ (hand s p) i = Some card ->
  Card.playable card = true ->
  Card.type card <> Some Card.Plus2 -> Card.type card <> Some Card.Plus4 ->
  Card.type card <> Some Card.Skip ->
  getNextPlayer 0 (flipped card s) = Some (Some np, flipped card s) ->
  2 <= length (deck (room s)) + length (pile (room s)) ->
  exists s',
    playCard botPlay passes p i s = handoff botPlay s'
    /\ topCard s' = Some card
    /\ turn (room s') = Some np
    /\ players (room s') = players (room s)
    /\ stack (room s') = stack (room s)
    /\ directionReversed (room s')
       = xorb (bool_decide (Card.type card = Some Card.Reverse)) (directionReversed (room s))
    /\ wildcard (room s') = None
    /\ winner (room s') = match last (emptyHanded s') with
                          | Some w => Some w
                          | None => winner (room s)
                          end
    /\ length (hand s' p) + 1
       = length (hand s p)
         + (if bool_decide (length (hand s p) = 2) && negb (Player.hasCalledUno (heap s p))
            then if Player.drawing (heap s p) || isRoomEmpty (room s) then 0 else 2
            else 0)
    /\ Player.hasCalledUno (heap s' p) = false
    /\ (forall q, q <> p -> map Card.core (hand s' q) = map Card.core (hand s q))
    /\ length (deck (room s')) + length (pile (room s')) + length (hand s' p)
       = length (deck (room s)) + length (pile (room s)) + length (hand s p).
Proof.
  intros Ht Hcan Hcard Hplayable Hno2 Hno4 Hnoskip Hnext Hcards.
  assert (Hnext0 : exists x, getNextPlayer 0 s = Some (x, s)).
  { rewrite getNextPlayer_unfold, Ht. destruct (players (room s)); eauto. }
  destruct Hnext0 as [x Hnext0].
  assert (Hi : (0 <= i)%Z /\ Player.cards (heap s p) !! Z.to_nat i = Some card).
  { apply at_Some in Hcard as [? ?]. split; [lia|done]. }
  destruct Hi as [Hi0 Hi].
  accept_play s Ht Hcan Hcard Hplayable Hnext0 s1.
  set (s2 := flipped card s1).
  assert (Hmid : (match Card.type card with
                  | Some Card.Plus2 => penalty x Card.Plus2 2
                  | Some Card.Reverse =>
                      modify (onRoom (fun r => setDirectionReversed (negb (directionReversed r)) r)) ;;
                      ret 0%Z
                  | Some Card.Plus4 => penalty x Card.Plus4 4
                  | _ => ret 0%Z
                  end) s1 = Some (0%Z, s2)).
  { unfold s2, flipped. destruct (Card.type card) as [[]|]; try done. }
  unfold bind at 1. rewrite Hmid. clear Hmid.
  assert (Hroom2 : room s2 = room (flipped card (onRoom (fun r => setPile (pile r ++ [card]) r)
                                                   (onRoom (setWildcard None) s)))).
  { unfold s2, s1, flipped. by destruct (bool_decide (Card.type card = Some Card.Reverse)). }
  assert (Hheap2 : heap s2 = heap s1) by (unfold s2, flipped; by destruct (bool_decide (Card.type card = Some Card.Reverse))).
  assert (Hpile2 : pile (room s2) = pile (room s) ++ [card]).
  { rewrite Hroom2. unfold flipped. by destruct (bool_decide (Card.type card = Some Card.Reverse)). }
  assert (Hdeck2 : deck (room s2) = deck (room s)).
  { rewrite Hroom2. unfold flipped. by destruct (bool_decide (Card.type card = Some Card.Reverse)). }
  assert (Htu2 : turn (room s2) = Some p).
  { rewrite Hroom2. unfold flipped. by destruct (bool_decide (Card.type card = Some Card.Reverse)). }
  assert (Hemp2 : isRoomEmpty (room s2) = isRoomEmpty (room s)).
  { rewrite Hroom2. unfold flipped. by destruct (bool_decide (Card.type card = Some Card.Reverse)). }
  assert (Hps2 : players (room s2) = players (room (flipped card s))).
  { rewrite Hroom2. unfold flipped. by destruct (bool_decide (Card.type card = Some Card.Reverse)). }
  assert (Hdir2 : directionReversed (room s2) = directionReversed (room (flipped card s))).
  { rewrite Hroom2. unfold flipped. by destruct (bool_decide (Card.type card = Some Card.Reverse)). }
  assert (Hst2 : stack (room s2) = stack (room s)).
  { rewrite Hroom2. unfold flipped. by destruct (bool_decide (Card.type card = Some Card.Reverse)). }
  assert (Hwc2 : wildcard (room s2) = None).
  { rewrite Hroom2. unfold flipped. by destruct (bool_decide (Card.type card = Some Card.Reverse)). }
  assert (Hw2 : winner (room s2) = winner (room s)).
  { rewrite Hroom2. unfold flipped. by destruct (bool_decide (Card.type card = Some Card.Reverse)). }
  assert (Hp2 : heap s2 p = Player.setCards (delete (Z.to_nat i) (Player.cards (heap s p))) (heap s p)).
  { rewrite Hheap2. unfold s1. cbn [heap onRoom setRoom onPlayer setHeap]. by rewrite update_eq. }
  assert (Hq2 : forall q, q <> p -> heap s2 q = heap s q).
  { intros q Hq. rewrite Hheap2. unfold s1. cbn [heap onRoom setRoom onPlayer setHeap].
    by rewrite update_ne. }
  assert (Hlen2 : length (Player.cards (heap s2 p)) + 1 = length (Player.cards (heap s p))).
  { rewrite Hp2. cbn. rewrite length_delete by eauto.
    apply lookup_lt_Some in Hi. lia. }
  assert (Hne2 : pile (room s2) <> []).
  { rewrite Hpile2. intros E. by apply app_nil in E as [_ E]. }
  assert (Htop2 : topCard s2 = Some card).
  { unfold topCard. rewrite Hpile2. apply last_snoc. }
  unfold bind at 1. unfold gets at 1. unfold bind at 1.
  set (k := if bool_decide (length (hand s p) = 2) && negb (Player.hasCalledUno (heap s p))
            then if Player.drawing (heap s p) || isRoomEmpty (room s) then 0 else 2
            else 0).
  assert (Hpen : exists s3,
    when (bool_decide (length (Player.cards (heap s2 p)) = 1)
          && negb (Player.hasCalledUno (heap s2 p))) (drawCards botPlay passes p 2) s2 = Some (tt, s3)
    /\ dealt p k s2 s3).
  { unfold k, hand.
    replace (Player.hasCalledUno (heap s2 p)) with (Player.hasCalledUno (heap s p)) by (by rewrite Hp2).
    destruct (decide (length (Player.cards (heap s p)) = 2)) as [E2|E2].
    - rewrite !bool_decide_eq_true_2 by lia.
      destruct (Player.hasCalledUno (heap s p)); cbn [negb andb when].
      + exists s2. split; [done|apply dealt_refl].
      + destruct (drawCards_forced botPlay passes p p 2 s2 Htu2 Hne2) as (s3 & Hrun & Hd & _).
        exists s3. split; [exact Hrun|].
        rewrite Hp2, Hemp2 in Hd. exact Hd.
    - rewrite !bool_decide_eq_false_2 by lia. cbn [andb when].
      exists s2. split; [done|apply dealt_refl]. }
  destruct Hpen as (s3 & Hrun & Hd). rewrite Hrun.
  unfold bind at 1. unfold modify at 1.
  set (s4 := onPlayer p _ s3).
  pose proof (dealt_fields _ _ _ _ Hd) as (Htu3 & Hps3 & Hemp3 & _ & Hpl3).
  destruct Hd as (Hroom & Htop & Hdr & Hoth & Hp & Hlen3).
  destruct (sameButCards_fields _ _ Hroom)
    as (_ & _ & _ & Hst3 & Hdir3 & _ & Hw3 & _ & _ & _ & Hwc3 & _).
  unfold bind at 1. unfold gets at 1.
  replace (((bool_decide (Card.type card = Some Card.Plus2) || bool_decide (Card.type card = Some Card.Plus4))
            && negb match x with Some np0 => Player.mustStack (heap s4 np0) | None => false end)
           || bool_decide (Card.type card = Some Card.Skip)) with false.
  2:{ rewrite !bool_decide_eq_false_2 by done. done. }
  destruct (nextTurn_plain_exact botPlay passes s4 p np)
    as (s' & Hfin & Hk & Ht' & _ & Hw' & Hwc' & _ & _ & _ & _ & _).
  { change (turn (room s3) = Some p). by rewrite Htu3. }
  { apply (getNextPlayer_same (flipped card s) s4 0 (Some np)); try done.
    - change (players (room s3) = players (room (flipped card s))). by rewrite Hps3.
    - change (turn (room s3) = turn (room (flipped card s))). rewrite Htu3, Htu2.
      unfold flipped. destruct (bool_decide (Card.type card = Some Card.Reverse)); exact (eq_sym Ht).
    - change (directionReversed (room s3) = directionReversed (room (flipped card s))).
      by rewrite Hdir3. }
  { change (pile (room s3) <> []). by apply Hpl3. }
  exists s'. split; [exact Hfin|].
  destruct (turnKeeping_fields _ _ Hk) as (Hps' & Hdir' & Hst' & Hdeck' & Hpile' & _ & Hq').
  rewrite (emptyHanded_turnKeeping _ _ Hk).
  split_and!.
  - unfold topCard. rewrite Hpile'. change (topCard s3 = Some card). by rewrite Htop.
  - done.
  - rewrite Hps'. change (players (room s3) = players (room s)). rewrite Hps3, Hps2.
    unfold flipped. by destruct (bool_decide (Card.type card = Some Card.Reverse)).
  - rewrite Hst'. change (stack (room s3) = stack (room s)). by rewrite Hst3.
  - rewrite Hdir'. change (directionReversed (room s3) = xorb (bool_decide (Card.type card = Some Card.Reverse)) (directionReversed (room s))).
    rewrite Hdir3, Hdir2. unfold flipped. by destruct (bool_decide (Card.type card = Some Card.Reverse)).
  - rewrite Hwc'. change (wildcard (room s3) = None). by rewrite Hwc3.
  - rewrite Hw'. change (winner (room s4)) with (winner (room s3)). by rewrite Hw3, Hw2.
  - destruct (Hq' p) as (_ & _ & ->). unfold hand, s4. cbn [heap onPlayer setHeap].
    rewrite update_eq. cbn [Player.cards Player.setHasCalledUno].
    unfold hand in Hlen3. fold k. lia.
  - destruct (Hk) as [_ Pk]. destruct (playerKept_fields _ _ (Pk p)) as (_ & _ & _ & -> & _).
    unfold s4. cbn [heap onPlayer setHeap]. by rewrite update_eq.
  - intros q Hq. destruct Hk as [_ Pk]. destruct (Pk q) as [_ Hcore]. unfold hand.
    rewrite Hcore. unfold s4. cbn [heap onPlayer setHeap]. rewrite update_ne by done.
    rewrite Hoth by done. by rewrite Hq2.
  - rewrite Hdeck', Hpile'. destruct (Hq' p) as (_ & _ & ->).
    unfold hand, s4. cbn [room heap onPlayer setHeap]. rewrite update_eq.
    cbn [Player.cards Player.setHasCalledUno].
    assert (Hp3 : 1 <= length (pile (room s3))).
    { specialize (Hpl3 Hne2). destruct (pile (room s3)); [done|simpl; lia]. }
    assert (Hk2 : k <= 2) by (unfold k; repeat destruct (_ && _ || _ && _)%bool; repeat case_match; lia).
    unfold drawable in Hdr. rewrite Hpile2, Hdeck2, length_app in Hdr.
    unfold hand in *. simpl in Hdr. lia.
Qed.

Lemma getNextPlayer_seat (s : State) (t : PlayerId) (j : nat) :
  turn (room s) = Some t -> players (room s) !! j = Some t -> NoDup (players (room s)) ->
  exists q,
    players (room s)
      !! Z.to_nat (seatAfter (Z.of_nat (length (players (room s)))) (directionReversed (room s))
                     (Z.of_nat j)) = Some q
    /\ getNextPlayer 0 s = Some (Some q, s).
Proof.
  intros Ht Hj Hnd. pose proof (lookup_lt_Some _ _ _ Hj) as Hlt.
  set (n := Z.of_nat (length (players (room s)))).
  assert (Hn : (0 < n)%Z) by (unfold n; lia).
  pose proof (seatAfter_range n (Z.of_nat j) (directionReversed (room s)) Hn) as Hr.
  destruct (lookup_lt_is_Some_2 (players (room s))
              (Z.to_nat (seatAfter n (directionReversed (room s)) (Z.of_nat j))))
    as [q Hq]; [unfold n in *; lia|].
  exists q. split; [exact Hq|].
  rewrite (getNextPlayer_run s t 0 Ht).
  2:{ intros E. rewrite E in Hj. done. }
  rewrite (findIndex_NoDup _ _ _ Hnd Hj). fold n.
  rewrite nextSeat_seatAfter by (unfold n; lia).
  rewrite <- (Z2Nat.id (seatAfter _ _ _)) by lia. by rewrite at_nat, Hq.
Qed.

(** X9 (nextTurn): [nextTurn()] without skip or draw hands the turn to the
    next player in the direction of play.  That player gets the right to
    draw and to play and the inactivity counter is reset; when nobody but
    the turn player could act before, nobody but the new turn player can
    afterwards.  No card moves: seats, deck, pile and the cards of every
    hand stay as they were.  The call ends by handing over: a bot that
    received the turn moves, unless there is a winner. *)
Theorem nextTurn_hands_over (s : State) (p np : PlayerId) :
  turn (room s) = Some p -> getNextPlayer 0 s = Some (Some np, s) ->
  pile (room s) <> [] -> onlyTurnActs s ->
  exists s',
    nextTurn botPlay passes false 0 s = handoff botPlay s'
    /\ turn (room s') = Some np
    /\ inactivityTimer (room s') = 0
    /\ Player.canDraw (heap s' np) = true /\ Player.canPlay (heap s' np) = true
    /\ onlyTurnActs s'
    /\ players (room s') = players (room s)
    /\ deck (room s') = deck (room s) /\ pile (room s') = pile (room s)
    /\ (forall q, map Card.core (hand s' q) = map Card.core (hand s q)).
Proof.
  intros Ht Hnext Hpile Hinv.
  destruct (nextTurn_plain_exact botPlay passes s p np Ht Hnext Hpile)
    as (s' & Hrun & Hk & Ht' & Hti & _ & _ & Hcd & Hcp & Hp & Hoth & _).
  destruct (turnKeeping_fields _ _ Hk) as (Hps & _ & _ & Hdeck & Hpl & _).
  exists s'. split_and!; try done.
  - intros q Hq. rewrite Ht' in Hq.
    destruct (decide (q = p)) as [->|Hqp].
    + destruct Hp as (? & ? & _); [congruence|done].
    + rewrite Hoth by congruence. apply Hinv. rewrite Ht. congruence.
  - intros q. destruct Hk as [_ Pk]. by destruct (Pk q) as [_ ?].
Qed.

(** X10 (playCard): an accepted play of a number card or a Wildcard puts the
    card on top of the pile and passes the turn to the next player; stack
    and direction stay, the pending wildcard is cleared and the uno call is
    reset.  The hand loses the card, and gains the two penalty cards exactly
    when one card is left, uno was not called, the player is not in the
    middle of a draw and the room is not marked empty.  The other hands keep
    their cards, and deck, pile and the hand together hold as many cards as
    before. *)
Theorem playCard_ordinary (s : State) (p np : PlayerId) (i : Z) (card : Card.t) :
  turn (room s) = Some p ->
  Player.canPlay (heap s p) = true ->
  at_ (hand s p) i = Some card ->
  Card.playable card = true ->
  Card.type card = Some Card.NoType \/ Card.type card = Some Card.Wildcard ->
  getNextPlayer 0 s = Some (Some np, s) ->
  2 <= length (deck (room s)) + length (pile (room s)) ->
  exists s',
    playCard botPlay passes p i s = handoff botPlay s'
    /\ topCard s' = Some card
    /\ turn (room s') = Some np
    /\ stack (room s') = stack (room s)
    /\ directionReversed (room s') = directionReversed (room s)
    /\ wildcard (room s') = None
    /\ length (hand s' p) + 1
       = length (hand s p)
         + (if bool_decide (length (hand s p) = 2) && negb (Player.hasCalledUno (heap s p))
            then if Player.drawing (heap s p) || isRoomEmpty (room s) then 0 else 2
            else 0)
    /\ Player.hasCalledUno (heap s' p) = false
    /\ (forall q, q <> p -> map Card.core (hand s' q) = map Card.core (hand s q))
    /\ length (deck (room s')) + length (pile (room s')) + length (hand s' p)
       = length (deck (room s)) + length (pile (room s)) + length (hand s p).
Proof.
  intros Ht Hcan Hcard Hplayable Hty Hnext Hcards.
  assert (Hfl : flipped card s = s).
  { unfold flipped. rewrite bool_decide_eq_false_2; [done|]. destruct Hty; congruence. }
  destruct (playCard_plain_exact s p np i card Ht Hcan Hcard Hplayable)
    as (s' & Hrun & Htop & Ht' & _ & Hst & Hdir & Hwc & _ & Hlen & Huno & Hoth & Hall).
  { destruct Hty; congruence. }
  { destruct Hty; congruence. }
  { destruct Hty; congruence. }
  { by rewrite Hfl. }
  { done. }
  exists s'. split_and!; try done.
  rewrite Hdir. rewrite bool_decide_eq_false_2; [done|]. destruct Hty; congruence.
Qed.

(** X11 (playCard): an accepted Reverse flips the direction, and the turn
    goes to the seat next to the player in the new direction, the one that
    played before; with two or more seats this is another player, so that in
    a two-player game a Reverse passes the turn to the opponent. *)
Theorem playCard_reverse (s : State) (p : PlayerId) (i : Z) (card : Card.t) (j : nat) :
  turn (room s) = Some p ->
  Player.canPlay (heap s p) = true ->
  at_ (hand s p) i = Some card ->
  Card.playable card = true ->
  Card.type card = Some Card.Reverse ->
  NoDup (players (room s)) -> players (room s) !! j = Some p ->
  2 <= length (deck (room s)) + length (pile (room s)) ->
  exists s' np,
    playCard botPlay passes p i s = handoff botPlay s'
    /\ directionReversed (room s') = negb (directionReversed (room s))
    /\ players (room s)
         !! Z.to_nat (seatAfter (Z.of_nat (length (players (room s))))
                        (negb (directionReversed (room s))) (Z.of_nat j)) = Some np
    /\ turn (room s') = Some np
    /\ (2 <= length (players (room s)) -> np <> p)
    /\ topCard s' = Some card
    /\ stack (room s') = stack (room s)
    /\ (forall q, q <> p -> map Card.core (hand s' q) = map Card.core (hand s q)).
Proof.
  intros Ht Hcan Hcard Hplayable Hty Hnd Hj Hcards.
  assert (Hfl : flipped card s
                = onRoom (fun r => setDirectionReversed (negb (directionReversed r)) r) s).
  { unfold flipped. by rewrite bool_decide_eq_true_2. }
  destruct (getNextPlayer_seat (flipped card s) p j) as (np & Hseat & Hnext).
  { by rewrite Hfl. }
  { by rewrite Hfl. }
  { by rewrite Hfl. }
  destruct (playCard_plain_exact s p np i card Ht Hcan Hcard Hplayable)
    as (s' & Hrun & Htop & Ht' & _ & Hst & Hdir & _ & _ & _ & _ & Hoth & _);
    try done; try congruence.
  rewrite Hfl in Hseat. cbn [room onRoom setRoom players directionReversed setDirectionReversed] in Hseat.
  exists s', np. split_and!; try done.
  - rewrite Hdir. by rewrite bool_decide_eq_true_2.
  - intros Hlen ->.
    pose proof (lookup_lt_Some _ _ _ Hj) as Hlt.
    pose proof (seatAfter_range (Z.of_nat (length (players (room s)))) (Z.of_nat j)
                  (negb (directionReversed (room s))) ltac:(lia)) as Hr.
    pose proof (NoDup_lookup _ _ _ _ Hnd Hseat Hj) as E.
    apply (seatAfter_moves (Z.of_nat (length (players (room s)))) (Z.of_nat j)
             (negb (directionReversed (room s)))); lia.
Qed.

Lemma last_filter_only (P : PlayerId -> Prop) `{!forall x, Decision (P x)}
    (l : list PlayerId) (p : PlayerId) :
  p ∈ l -> P p -> (forall q, q ∈ l -> q <> p -> ~ P q) -> last (filter P l) = Some p.
Proof.
  intros Hin HP Hoth.
  assert (Hall : Forall (fun q => q = p) (filter P l)).
  { apply Forall_forall. intros q Hq. apply list_elem_of_filter in Hq as [HPq Hq].
    destruct (decide (q = p)); [done|]. by destruct (Hoth q Hq). }
  assert (Hne : filter P l <> []).
  { intros E. assert (Hp : p ∈ filter P l) by (by apply list_elem_of_filter).
    rewrite E in Hp. by apply elem_of_nil in Hp. }
  destruct (filter P l) as [|x l'] using rev_ind; [done|].
  rewrite last_snoc. apply Forall_app in Hall as [_ Hx].
  apply Forall_cons in Hx as [-> _]. done.
Qed.

(** X12 (playCard, checkForWinner): when the turn player plays the only
    card of the hand (a card without penalty or skip) and every other seated
    player holds a card, the player is the winner; the play returns without
    a bot move, although the turn has gone to the next player. *)
Theorem playCard_last_card_wins (s : State) (p np : PlayerId) (card : Card.t) :
  turn (room s) = Some p ->
  Player.canPlay (heap s p) = true ->
  hand s p = [card] ->
  Card.playable card = true ->
  Card.type card <> Some Card.Plus2 -> Card.type card <> Some Card.Plus4 ->
  Card.type card <> Some Card.Skip ->
  p ∈ players (room s) ->
  (forall q, q ∈ players (room s) -> q <> p -> hand s q <> []) ->
  getNextPlayer 0 (flipped card s) = Some (Some np, flipped card s) ->
  2 <= length (deck (room s)) + length (pile (room s)) ->
  exists s',
    playCard botPlay passes p 0 s = Some (tt, s')
    /\ winner (room s') = Some p
    /\ hand s' p = []
    /\ topCard s' = Some card
    /\ turn (room s') = Some np.
Proof.
  intros Ht Hcan Hhand Hplayable Hno2 Hno4 Hnoskip Hin Hothers Hnext Hcards.
  destruct (playCard_plain_exact s p np 0 card Ht Hcan)
    as (s' & Hrun & Htop & Ht' & Hps & _ & _ & _ & Hw & Hlen & _ & Hoth & _); try done.
  { by rewrite Hhand. }
  rewrite Hhand in Hlen. cbn [length] in Hlen.
  rewrite (bool_decide_eq_false_2 (1 = 2)) in Hlen by lia. cbn [andb] in Hlen.
  assert (Hempty : hand s' p = []) by (apply nil_length_inv; lia).
  assert (Hlast : last (emptyHanded s') = Some p).
  { unfold emptyHanded. apply last_filter_only.
    - by rewrite Hps.
    - done.
    - intros q Hq Hqp E. rewrite Hps in Hq. apply (Hothers q Hq Hqp).
      specialize (Hoth q Hqp). rewrite E in Hoth. symmetry in Hoth.
      by apply map_eq_nil in Hoth. }
  rewrite Hlast in Hw.
  exists s'. split_and!; try done.
  rewrite Hrun. unfold handoff. by rewrite Hw.
Qed.

(** X13 (playCard, nextTurn): an accepted Skip passes the turn over the next
    player to the one after: the skipped player draws nothing, like every
    player but the one who played, and in a two-player game the player who
    played the Skip has the turn again.  Stack and direction stay. *)
Theorem playCard_skip (s : State) (p np nnp : PlayerId) (i : Z) (card : Card.t) :
  turn (room s) = Some p ->
  Player.canPlay (heap s p) = true ->
  at_ (hand s p) i = Some card ->
  Card.playable card = true ->
  Card.type card = Some Card.Skip ->
  NoDup (players (room s)) -> 2 <= length (players (room s)) -> p ∈ players (room s) ->
  getNextPlayer 0 s = Some (Some np, s) ->
  getNextPlayer 0 (onRoom (setTurn (Some np)) s)
    = Some (Some nnp, onRoom (setTurn (Some np)) s) ->
  2 <= length (deck (room s)) + length (pile (room s)) ->
  exists s',
    playCard botPlay passes p i s = handoff botPlay s'
    /\ turn (room s') = Some nnp
    /\ np <> p /\ nnp <> np
    /\ (length (players (room s)) = 2 -> nnp = p)
    /\ topCard s' = Some card
    /\ stack (room s') = stack (room s)
    /\ directionReversed (room s') = directionReversed (room s)
    /\ (forall q, q <> p -> length (hand s' q) = length (hand s q)).
Proof.
  intros Ht Hcan Hcard Hplayable Hty Hnd Hlen Hin Hnext Hnext2 Hcards.
  destruct (getNextPlayer_other s p np Hnd Hlen Ht Hin Hnext) as [Hne Hnpin].
  destruct (getNextPlayer_other (onRoom (setTurn (Some np)) s) np nnp Hnd Hlen eq_refl Hnpin Hnext2)
    as [Hne2 Hnnpin].
  cbn [room onRoom setRoom players setTurn] in Hnnpin.
  accept_play s Ht Hcan Hcard Hplayable Hnext s1.
  rewrite Hty. unfold bind at 1. unfold ret at 1.
  assert (Hpile1 : pile (room s1) <> []).
  { unfold s1. cbn [room onRoom setRoom onPlayer setHeap pile setPile].
    intros E. by apply app_nil in E as [_ E]. }
  assert (Htop1 : topCard s1 = Some card).
  { unfold topCard, s1. cbn [room onRoom setRoom onPlayer setHeap pile setPile]. apply last_snoc. }
  unfold bind at 1. unfold gets at 1. unfold bind at 1.
  destruct (uno_penalty botPlay passes
    (bool_decide (length (Player.cards (heap s1 p)) = 1) && negb (Player.hasCalledUno (heap s1 p)))
    p p s1) as (s3 & k & Hrun & Hd & Hk).
  { done. }
  { done. }
  { unfold drawable, s1.
    cbn [room onRoom setRoom onPlayer setHeap pile deck setPile setWildcard].
    rewrite length_app. simpl. lia. }
  rewrite Hrun. unfold bind at 1. unfold modify at 1.
  set (s4 := onPlayer p _ s3).
  pose proof (dealt_others _ _ _ _ Hd) as Hoth.
  pose proof (dealt_fields _ _ _ _ Hd) as (Htu3 & Hps3 & Hemp3 & _ & Hpl3).
  destruct Hd as (Hroom & Htop3 & Hdr & _ & _ & _).
  destruct (sameButCards_fields _ _ Hroom) as (_ & _ & _ & Hst3 & Hdir3 & _).
  unfold bind at 1. unfold gets at 1.
  rewrite (bool_decide_eq_true_2 (Some Card.Skip = Some Card.Skip)) by done. rewrite orb_true_r.
  assert (Hroom4 : room s4 = room s3) by done.
  change 0%Z with (Z.of_nat 0).
  destruct (nextTurn_skip_spec botPlay passes s4 p np nnp 0)
    as (sa & sb & s' & Hfin & Hka & Hta & Hdb & Hkb & Ht').
  { rewrite Hroom4, Htu3. done. }
  { apply (getNextPlayer_same s s4 0 (Some np)); [exact Hps3|exact Htu3|exact Hdir3|exact Hnext]. }
  { apply (getNextPlayer_same (onRoom (setTurn (Some np)) s) _ 0 (Some nnp));
      [exact Hps3|reflexivity|exact Hdir3|exact Hnext2]. }
  { rewrite Hroom4. by apply Hpl3. }
  { lia. }
  exists s'. split; [exact Hfin|].
  assert (Hdb0 : dealt np 0 sa sb) by (by destruct (_ || _)).
  destruct (turnKeeping_fields _ _ Hka) as (Hpsa & Hdira & Hsta & _ & Hpila & _ & Hqa).
  destruct (turnKeeping_fields _ _ Hkb) as (Hpsb & Hdirb & Hstb & _ & Hpilb & _ & Hqb).
  destruct Hdb0 as (Hroomb & Htopb & _ & Hothb & _ & Hlenb).
  destruct (sameButCards_fields _ _ Hroomb) as (_ & _ & _ & Hstd & Hdird & _).
  split_and!; try done.
  - intros Hlen2.
    destruct (players (room s)) as [|a [|b [|c l]]]; try done.
    apply NoDup_cons in Hnd as [Hab _]. apply not_elem_of_cons in Hab as [Hab _].
    repeat match goal with
    | H : _ ∈ (_ :: _) |- _ => apply elem_of_cons in H as [?|?]
    | H : _ ∈ [] |- _ => by apply elem_of_nil in H
    end; congruence.
  - unfold topCard. rewrite Hpilb. change (topCard sb = Some card). rewrite Htopb.
    unfold topCard. rewrite Hpila. change (topCard s3 = Some card). by rewrite Htop3.
  - rewrite Hstb, Hstd, Hsta, Hroom4, Hst3. done.
  - rewrite Hdirb, Hdird, Hdira, Hroom4, Hdir3. done.
  - intros q Hq.
    destruct (Hqb q) as (_ & _ & ->). 
    assert (E : length (hand sb q) = length (hand sa q)).
    { destruct (decide (q = np)) as [->|Hqnp]; [lia|]. unfold hand. by rewrite Hothb. }
    rewrite E. destruct (Hqa q) as (_ & _ & ->).
    unfold hand, s4. cbn [heap onPlayer setHeap].
    rewrite update_ne by done. rewrite (proj2 (Hoth q)) by done.
    unfold s1. cbn [heap onRoom setRoom onPlayer setHeap]. by rewrite update_ne.
Qed.

(** X15 (playCard): when the turn player plays a playable Plus4 and the next
    player holds a Plus4, the next player draws nothing and keeps the same
    cards, must stack, and gets the turn; the stack grows by 4. *)
Theorem playCard_plus4_stacks (s : State) (p np : PlayerId) (i : Z) (card : Card.t) :
  turn (room s) = Some p ->
  Player.canPlay (heap s p) = true ->
  at_ (hand s p) i = Some card ->
  Card.playable card = true ->
  Card.type card = Some Card.Plus4 ->
  NoDup (players (room s)) -> 2 <= length (players (room s)) -> p ∈ players (room s) ->
  getNextPlayer 0 s = Some (Some np, s) ->
  Exists (fun c => Card.type c = Some Card.Plus4) (hand s np) ->
  2 <= length (deck (room s)) + length (pile (room s)) ->
  exists s',
    playCard botPlay passes p i s = handoff botPlay s'
    /\ stack (room s') = (stack (room s) + 4)%Z
    /\ Player.mustStack (heap s' np) = true
    /\ map Card.core (hand s' np) = map Card.core (hand s np)
    /\ turn (room s') = Some np.
Proof.
  intros Ht Hcan Hcard Hplayable Hty Hnd Hlen Hin Hnext Hplus2 Hcards.
  destruct (getNextPlayer_other s p np Hnd Hlen Ht Hin Hnext) as [Hne Hnpin].
  accept_play s Ht Hcan Hcard Hplayable Hnext s1.
  assert (Hnp1 : heap s1 np = heap s np).
  { unfold s1. cbn [heap onRoom setRoom onPlayer setHeap]. by rewrite update_ne. }
  rewrite Hty. unfold bind at 1. unfold penalty. unfold bind at 1. unfold gets at 1.
  unfold hand at 1. rewrite Hnp1.
  destruct (Z.eqb_spec (findIndex (fun c => bool_decide (Card.type c = Some Card.Plus4))
                          (Player.cards (heap s np))) (-1)) as [E|_].
  { exfalso. revert E. apply findIndex_Exists. eapply Exists_impl; [exact Hplus2|].
    intros c Hc. by apply bool_decide_eq_true. }
  cbn [negb]. do 2 (unfold bind at 1; unfold modify at 1). unfold ret at 1.
  set (s2 := onRoom _ (onPlayer np _ s1)).
  unfold bind at 1. unfold gets at 1. unfold bind at 1.
  destruct (uno_penalty botPlay passes
    (bool_decide (length (Player.cards (heap s2 p)) = 1) && negb (Player.hasCalledUno (heap s2 p)))
    p p s2) as (s3 & k & Hrun & Hd & _).
  { done. }
  { unfold s2, s1. cbn [room onRoom setRoom onPlayer setHeap pile setPile setStack].
    intros E. by apply app_nil in E as [_ E]. }
  { unfold drawable, s2, s1. cbn [room onRoom setRoom onPlayer setHeap pile deck setPile setStack setWildcard].
    rewrite length_app. simpl. lia. }
  rewrite Hrun. unfold bind at 1. unfold modify at 1.
  set (s4 := onPlayer p _ s3).
  destruct Hd as (Hroom & Htop & Hdr & Hoth & Hp & Hlen3).
  destruct (sameButCards_fields _ _ Hroom) as (Htu3 & Hps3 & _ & Hst3 & Hdir3 & _).
  assert (Hnp4 : heap s4 np = Player.setMustStack true (heap s np)).
  { unfold s4. cbn [heap onPlayer setHeap]. rewrite update_ne by done.
    rewrite Hoth by done. unfold s2. cbn [heap onRoom setRoom onPlayer setHeap].
    by rewrite update_eq, Hnp1. }
  unfold bind at 1. unfold gets at 1. rewrite Hnp4.
  cbn [Player.mustStack Player.setMustStack negb andb orb].
  rewrite (bool_decide_eq_false_2 (Some Card.Plus4 = Some Card.Skip)) by done.
  rewrite andb_false_r. cbn [orb].
  destruct (nextTurn_plain_spec botPlay passes s4 p np) as (s' & Hfin & Hk & Ht').
  { change (turn (room s3) = Some p). by rewrite Htu3. }
  { apply (getNextPlayer_same s s4 0 (Some np)); try done. }
  { change (pile (room s3) <> []).
    destruct (topCard_Some s2) as [top Htop2].
    { unfold s2, s1. cbn [room onRoom setRoom onPlayer setHeap pile setPile setStack].
      intros E. by apply app_nil in E as [_ E]. }
    apply (topCard_pile s3 top). congruence. }
  exists s'. split; [exact Hfin|].
  destruct Hk as [Rk Pk].
  destruct (roomKept_fields _ _ Rk) as (_ & _ & Hstk & _).
  destruct (Pk np) as [Hpk Hcore].
  destruct (playerKept_fields _ _ (Pk np)) as (_ & Hms & _).
  split_and!.
  - rewrite Hstk. change (stack (room s3) = (stack (room s) + 4)%Z). by rewrite Hst3.
  - by rewrite Hms, Hnp4.
  - unfold hand. rewrite Hcore, Hnp4. done.
  - done.
Qed.


End PlainPlays.

(** ** Drawing a card *)

Section DrawOne.
Import Room Facts Seating.
Local Open Scope room_scope.

Variable botPlay : PlayerId -> M unit.
Variable passes : nat.

Lemma drawnPlayable_nil (p : PlayerId) (s : State) : drawnPlayable [] p s = false.
Proof.
  unfold drawnPlayable. induction (hand s p) as [|c l IH]; [done|].
  cbn [existsb]. rewrite IH, orb_false_r.
  destruct (Card.tagOf c); cbn [from_option]; [|apply andb_false_r].
  rewrite bool_decide_eq_false_2 by apply not_elem_of_nil. apply andb_false_r.
Qed.

Lemma nextTurnDefault_nextTurn (s : State) :
  nextTurnDefault botPlay s = nextTurn botPlay passes false 0 s.
Proof.
  unfold nextTurnDefault, nextTurn, nextTurnBody.
  rewrite (bool_decide_eq_true_2 (0%Z = 0%Z)) by done. reflexivity.
Qed.

Lemma filter_playable_cleared (l : list Card.t) :
  filter (fun c => Card.playable c = true) (map (Card.setPlayable false) l) = [].
Proof.
  induction l as [|c l IH]; [done|]. cbn [map]. rewrite filter_cons.
  rewrite decide_False by (by destruct c). exact IH.
Qed.

Lemma filter_insert_one (l : list Card.t) (i : nat) (x : Card.t) :
  filter (fun c => Card.playable c = true) l = [] ->
  length (filter (fun c => Card.playable c = true) (<[i := x]> l)) <= 1.
Proof.
  revert i. induction l as [|y l IH]; intros i Hnil; [simpl; lia|].
  rewrite filter_cons in Hnil.
  destruct (decide (Card.playable y = true)) as [|Hy]; [done|].
  destruct i as [|i]; cbn [insert list_insert]; rewrite filter_cons.
  - rewrite Hnil. destruct (decide _); simpl; lia.
  - rewrite decide_False by done. by apply IH.
Qed.

Lemma onlyLastDrawnPlayable_count (a : Player.t) :
  length (filter (fun c => Card.playable c = true) (Player.cards (onlyLastDrawnPlayable a))) <= 1.
Proof.
  unfold onlyLastDrawnPlayable.
  destruct (at_ _ _) as [c|] eqn:E; cbn [Player.cards Player.setCards].
  - apply filter_insert_one, filter_playable_cleared.
  - rewrite filter_playable_cleared. simpl. lia.
Qed.

(** The end of [drawCards], after its loop. *)
Lemma drawCards_tail (p t : PlayerId) (b : bool) (s : State) :
  turn (room s) = Some t ->
  exists s',
    (modify (onPlayer p onlyLastDrawnPlayable) ;;
     fp <- gets (fun s => forcePlay (settings (room s))) ;;
     when (b && negb fp) (emitTo p (EmitCanKeepCard p)) ;;
     modify (onPlayer p (Player.setDrawing false)) ;;
     broadcastState) s = Some (tt, s')
    /\ dealt p 0 s s'
    /\ Player.drawing (heap s' p) = false
    /\ length (filter (fun c => Card.playable c = true) (hand s' p)) <= 1.
Proof.
  intros Ht.
  unfold bind at 1. unfold modify at 1.
  unfold bind at 1. unfold gets at 1.
  set (s1 := onPlayer p onlyLastDrawnPlayable s).
  assert (Hd1 : dealt p 0 s s1).
  { apply dealt_onPlayer; [apply handOnly_onlyLastDrawnPlayable|apply dealt_refl]. }
  assert (Hkeep : exists s2,
    when (b && negb (forcePlay (settings (room s1))))
      (emitTo p (EmitCanKeepCard p)) s1 = Some (tt, s2)
    /\ room s2 = room s1 /\ heap s2 = heap s1).
  { destruct (_ && _); cbn [when].
    - unfold emitTo, bind, gets, when, emit, modify, ret.
      destruct (Player.socket (heap s1 p)); eexists; (split; [reflexivity|done]).
    - exists s1. done. }
  destruct Hkeep as (s2 & Hrun2 & Hroom2 & Hheap2).
  unfold bind at 1. rewrite Hrun2.
  unfold bind at 1. unfold modify at 1.
  set (s3 := onPlayer p (Player.setDrawing false) s2).
  assert (Hd2 : dealt p 0 s s2).
  { assert (E : s2 = setOutbox (outbox s2) (setRand (rand s2) (setFreshPlayer (freshPlayer s2)
                       (setFreshCard (freshCard s2) s1)))).
    { destruct s2. cbn in *. by subst. }
    rewrite E. done. }
  assert (Hd3 : dealt p 0 s s3).
  { apply dealt_onPlayer; [intros a; apply handOnly_setDrawing|done]. }
  pose proof (dealt_fields _ _ _ _ Hd3) as (Htu3 & _).
  rewrite (broadcastState_run s3 t) by (etrans; [exact Htu3|exact Ht]).
  eexists. split; [reflexivity|]. split; [by apply dealt_setOutbox|].
  unfold hand, s3. cbn [heap setOutbox onPlayer setHeap]. rewrite update_eq, Hheap2.
  unfold s1. cbn [heap onPlayer setHeap]. rewrite update_eq.
  split; [done|]. apply onlyLastDrawnPlayable_count.
Qed.

Lemma matches_array (must : bool) (top : Card.t) (a : nat) (it : option Card.t) (pl : bool) :
  Player.matches must top (Card.Splice a it None pl) = Player.matches must top blank.
Proof. reflexivity. Qed.

Lemma freshTag_above (l : list Card.t) (c : Card.t) (a : nat) :
  c ∈ l -> Card.tagOf c = Some a -> a < Card.freshTag l.
Proof.
  induction l as [|y l IH]; intros Hin Ha; [by apply elem_of_nil in Hin|].
  cbn [Card.freshTag foldr]. fold (Card.freshTag l).
  apply elem_of_cons in Hin as [<-|Hin].
  - rewrite Ha. lia.
  - specialize (IH Hin Ha). destruct (Card.tagOf y); lia.
Qed.

Lemma drawnPlayable_Exists (drawn : list nat) (p : PlayerId) (s : State) :
  drawnPlayable drawn p s = true
  <-> Exists (fun c => Card.playable c = true
                       /\ exists a, Card.tagOf c = Some a /\ a ∈ drawn) (hand s p).
Proof.
  unfold drawnPlayable. rewrite existsb_exists, Exists_exists. split.
  - intros (c & Hc & Hb). exists c. apply andb_true_iff in Hb as [Hp Ht].
    split; [by apply list_elem_of_In|]. split; [done|].
    destruct (Card.tagOf c) as [a|]; [|done]. exists a. split; [done|].
    by apply bool_decide_eq_true in Ht.
  - intros (c & Hc & Hp & a & Ha & Hin). exists c. split; [by apply list_elem_of_In|].
    rewrite Hp, Ha. cbn. by apply bool_decide_eq_true.
Qed.

Lemma drawnPlayable_unplayed (drawn : list nat) (p : PlayerId) (s : State) :
  unplayed drawn (hand s p) -> drawnPlayable drawn p s = false.
Proof.
  intros Hu. apply not_true_is_false. rewrite drawnPlayable_Exists, Exists_exists.
  intros (c & Hc & Hp & a & Ha & Hin).
  unfold unplayed in Hu. rewrite Forall_forall in Hu.
  destruct (Hu c Hc a Ha Hin) as [Hf _]. congruence.
Qed.

(** One pass of the loop: the flags of the arrays drawn so far, after the
    hand [h] got the array tagged [a] and, when [recompute] is set, its flags
    were recomputed. *)
Lemma pass_flags (drawn : list nat) (h h' : list Card.t) (a : nat) (it : option Card.t)
    (must : bool) (top : Card.t) (recompute : bool) :
  a = Card.freshTag h -> unplayed drawn h ->
  h' ≡ₚ (if recompute
         then map (fun c => Card.setPlayable (Player.matches must top c) c)
         else (fun l => l)) (h ++ [Card.Splice a it None false]) ->
  (recompute && Player.matches must top blank = true ->
   Exists (fun c => Card.playable c = true
                    /\ exists b, Card.tagOf c = Some b /\ b ∈ drawn ++ [a]) h')
  /\ (recompute && Player.matches must top blank = false -> unplayed (drawn ++ [a]) h').
Proof.
  intros Ha Hu Hperm. split.
  - intros Hv. apply andb_true_iff in Hv as [-> Hm]. rewrite Hperm.
    rewrite List.map_app. apply Exists_app. right. cbn [map]. apply Exists_cons_hd.
    rewrite matches_array, Hm. split; [done|]. exists a. split; [done|].
    apply elem_of_app. right. by apply list_elem_of_singleton.
  - intros Hv. unfold unplayed. rewrite Hperm.
    assert (Hold : forall c b, c ∈ h -> Card.tagOf c = Some b -> b ∈ drawn ++ [a] ->
              b ∈ drawn).
    { intros c b Hc Hb Hin. apply elem_of_app in Hin as [?|Hin]; [done|].
      apply list_elem_of_singleton in Hin. subst b.
      pose proof (freshTag_above h c _ Hc Hb). lia. }
    unfold unplayed in Hu. rewrite Forall_forall in Hu.
    destruct recompute.
    + cbn [andb] in Hv. apply Forall_forall. intros c' Hc'.
      apply list_elem_of_In, in_map_iff in Hc' as (c & <- & Hc). apply list_elem_of_In in Hc.
      intros b Hb Hin. apply elem_of_app in Hc as [Hc|Hc].
      * destruct c as [r|b' it' co pl]; [done|]. cbn in Hb. injection Hb as ->.
        destruct (Hu _ Hc b eq_refl (Hold _ b Hc eq_refl Hin)) as [_ Hco]. cbn in Hco. subst co.
        rewrite matches_array, Hv. done.
      * apply list_elem_of_singleton in Hc. subst c. rewrite matches_array, Hv. done.
    + apply Forall_forall. intros c Hc b Hb Hin. apply elem_of_app in Hc as [Hc|Hc].
      * apply (Hu c Hc b Hb). by apply (Hold c).
      * apply list_elem_of_singleton in Hc. by subst c.
Qed.


(** One pass of the loop of [drawCards], up to the test of its custom
    rules. *)
Lemma drawLoop_pass (s : State) (p t : PlayerId) (top : Card.t) :
  turn (room s) = Some t -> topCard s = Some top ->
  exists card it s2 s4,
    card = Card.Splice (Card.freshTag (hand s p)) it None false
    /\ giveCard p s = Some (card, s2)
    /\ broadcastState
         (onPlayer p (fun a => Player.setLastDrawnCard
            (findIndex (fun c => bool_decide (Card.id c = Card.id card)) (Player.cards a)) a)
            (onPlayer p Player.sortCards s2)) = Some (tt, s4)
    /\ dealt p 1 s s4
    /\ hand s4 p
       ≡ₚ (if bool_decide (t = p) && started (room s)
           then map (fun c => Card.setPlayable
                                (Player.matches (Player.mustStack (heap s p)) top c) c)
           else (fun l => l)) (hand s p ++ [card]).
Proof.
  intros Ht Htop.
  destruct (giveCard_hand s p t top Ht Htop) as (it & s2 & Hgive & Hd2 & Hh2).
  revert Hgive Hh2. generalize (eq_refl (Card.Splice (Card.freshTag (hand s p)) it None false)).
  generalize (Card.Splice (Card.freshTag (hand s p)) it None false) at 1 3 4.
  intros card Hcard Hgive Hh2.
  set (s3 := onPlayer p (fun a => Player.setLastDrawnCard
            (findIndex (fun c => bool_decide (Card.id c = Card.id card)) (Player.cards a)) a)
            (onPlayer p Player.sortCards s2)).
  assert (Hd3 : dealt p 1 s s3).
  { apply dealt_onPlayer; [intros a; apply handOnly_setLastDrawnCard|].
    apply dealt_onPlayer; [apply handOnly_sortCards|done]. }
  pose proof (dealt_fields _ _ _ _ Hd3) as (Htu3 & _).
  exists card, it, s2. eexists. split; [exact Hcard|]. split; [exact Hgive|].
  split; [apply (broadcastState_run _ t); etrans; [exact Htu3|exact Ht]|].
  split; [by apply dealt_setOutbox|].
  rewrite <- Hh2. unfold hand, s3. cbn [heap setOutbox onPlayer setHeap].
  rewrite !update_eq. cbn [Player.cards Player.setLastDrawnCard Player.sortCards Player.setCards].
  apply sortCards_Permutation.
Qed.

(** A loop that finds no playable card goes on: after any number of
    passes it is still running, and the hand has grown by as many slots. *)
Lemma drawLoop_never (p t : PlayerId) (top : Card.t) (must st : bool) (bound : nat) :
  forall (drawn : list nat) (i : Z) (s : State),
  turn (room s) = Some t -> topCard s = Some top ->
  drawToPlay (settings (room s)) = true ->
  Player.mustStack (heap s p) = must -> started (room s) = st ->
  bool_decide (t = p) && st && Player.matches must top blank = false ->
  unplayed drawn (hand s p) ->
  exists s',
    drawLoop botPlay bound p (-1) drawn i s = Some (Unfinished, s')
    /\ dealt p bound s s'.
Proof.
  induction bound as [|b IH]; intros drawn i s Ht Htop Hdtp Hmust Hst Hv Hu.
  - exists s. split; [|apply dealt_refl].
    cbn [drawLoop]. unfold bind, gets. rewrite (drawnPlayable_unplayed _ _ _ Hu).
    by rewrite (bool_decide_eq_true_2 ((-1)%Z = (-1)%Z)).
  - rewrite drawLoop_S.
    unfold bind at 1. unfold gets at 1. unfold bind at 1. unfold gets at 1.
    rewrite (drawnPlayable_unplayed _ _ _ Hu).
    rewrite (bool_decide_eq_true_2 ((-1)%Z = (-1)%Z)) by done. cbn [negb andb orb].
    destruct (drawLoop_pass s p t top Ht Htop)
      as (card & it & s2 & s4 & Hcard & Hgive & Hbr & Hd4 & Hh4).
    unfold bind at 1. rewrite Hgive. cbv zeta.
    do 2 (unfold bind at 1; unfold modify at 1).
    unfold bind at 1. rewrite Hbr. subst card. cbn [Card.tagOf option_list].
    pose proof (dealt_fields _ _ _ _ Hd4) as (Htu4 & _ & _ & Hset4 & _).
    pose proof Hd4 as (Hroom4 & Htop4 & _ & _ & Hp4 & _).
    destruct (sameButCards_fields _ _ Hroom4) as (_ & _ & Hst4 & _).
    destruct (sameButHand_fields _ _ Hp4) as (_ & Hms4 & _).
    unfold bind at 1. unfold gets at 1. rewrite Hset4, Hdtp. cbn [negb andb].
    destruct (IH (drawn ++ [Card.freshTag (hand s p)]) (i + 1)%Z s4) as (s' & Hrun & Hd').
    + by rewrite Htu4.
    + by rewrite Htop4.
    + by rewrite Hset4.
    + by rewrite Hms4.
    + by rewrite Hst4.
    + exact Hv.
    + rewrite Hmust, Hst in Hh4.
      apply (pass_flags drawn (hand s p) (hand s4 p) _ it must top
               (bool_decide (t = p) && st) eq_refl Hu Hh4).
      exact Hv.
    + exists s'. split; [exact Hrun|]. by apply (dealt_trans p 1 b s s4 s').
Qed.

Lemma unplayed_nil (h : list Card.t) : unplayed [] h.
Proof. apply Forall_forall. intros c _ a _ Hin. by apply elem_of_nil in Hin. Qed.

(** Whether the loop has found a playable card after a pass. *)
Lemma pass_found (drawn : list nat) (p : PlayerId) (s s4 : State) (it : option Card.t)
    (top : Card.t) (recompute : bool) :
  unplayed drawn (hand s p) ->
  hand s4 p
  ≡ₚ (if recompute
      then map (fun c => Card.setPlayable
                           (Player.matches (Player.mustStack (heap s p)) top c) c)
      else (fun l => l))
       (hand s p ++ [Card.Splice (Card.freshTag (hand s p)) it None false]) ->
  drawnPlayable (drawn ++ [Card.freshTag (hand s p)]) p s4
  = recompute && Player.matches (Player.mustStack (heap s p)) top blank.
Proof.
  intros Hu Hh4.
  destruct (pass_flags drawn (hand s p) (hand s4 p) _ it _ top recompute eq_refl Hu Hh4)
    as [Hyes Hno].
  destruct (recompute && Player.matches (Player.mustStack (heap s p)) top blank).
  - apply drawnPlayable_Exists. by apply Hyes.
  - apply drawnPlayable_unplayed. by apply Hno.
Qed.

Lemma drawLoop_found (bound : nat) (p : PlayerId) (drawn : list nat) (i : Z) (s : State) :
  drawnPlayable drawn p s = true ->
  drawLoop botPlay bound p (-1) drawn i s = Some (Completed, s).
Proof.
  intros Hf. destruct bound; cbn [drawLoop]; unfold bind, gets; rewrite Hf;
    by rewrite (bool_decide_eq_true_2 ((-1)%Z = (-1)%Z)).
Qed.

(** X14 (drawCards, giveCard): under the rule that a player draws one card
    ([drawToPlay] off), the turn player who may draw and is not drawing gets
    exactly one slot more in the hand, the array [giveCard] pushes; the top
    card stays and the other hands are left alone.  The array has no colour,
    number or type, so the matching rule gives every such array the same
    answer: when the game has started and an array matches the top card
    (the top card is itself an array, as after [startGame]), the call
    returns with the turn still with the player, who can draw no more and
    holds at most one slot marked playable; otherwise the turn is handed to
    the next player. *)
Theorem drawCards_draw_one (s : State) (p np : PlayerId) (top : Card.t) :
  turn (room s) = Some p ->
  Player.canDraw (heap s p) = true -> Player.drawing (heap s p) = false ->
  drawToPlay (settings (room s)) = false ->
  topCard s = Some top -> 1 <= passes ->
  getNextPlayer 0 s = Some (Some np, s) ->
  exists s',
    drawCards botPlay passes p (-1) s
    = (if started (room s) && Player.matches (Player.mustStack (heap s p)) top blank
       then Some (tt, s') else handoff botPlay s')
    /\ length (hand s' p) = length (hand s p) + 1
    /\ drawable s' = drawable s - 1
    /\ topCard s' = topCard s
    /\ Player.drawing (heap s' p) = false
    /\ (forall q, q <> p -> map Card.core (hand s' q) = map Card.core (hand s q))
    /\ (if started (room s) && Player.matches (Player.mustStack (heap s p)) top blank
        then turn (room s') = Some p /\ Player.canDraw (heap s' p) = false
             /\ length (filter (fun c => Card.playable c = true) (hand s' p)) <= 1
        else turn (room s') = Some np
             /\ (np <> p -> Player.canDraw (heap s' p) = false
                            /\ Player.canPlay (heap s' p) = false)).
Proof.
  intros Ht Hcd Hdrawing Hdtp Htop Hpasses Hnext.
  pose proof (topCard_pile s top Htop) as Hpile.
  unfold drawCards. unfold bind at 1. unfold gets at 1.
  rewrite Hdrawing, Hcd. cbn [negb andb orb].
  rewrite (bool_decide_eq_true_2 ((-1)%Z = (-1)%Z)) by done. cbn [when andb negb].
  do 2 (unfold bind at 1; unfold modify at 1).
  set (s0 := onPlayer p (Player.setCanDraw false) s).
  set (s1 := onPlayer p (Player.setDrawing true) s0).
  assert (Hd1 : dealt p 0 s0 s1).
  { apply dealt_onPlayer; [intros a; apply handOnly_setDrawing|apply dealt_refl]. }
  change (-1 <? 0)%Z with true. cbn iota.
  destruct (Nat.lt_exists_pred 0 passes Hpasses) as (b & Hb & _). rewrite Hb.
  unfold bind at 1. rewrite drawLoop_S.
  unfold bind at 1. unfold gets at 1. rewrite drawnPlayable_nil.
  unfold bind at 1. unfold gets at 1.
  rewrite (bool_decide_eq_true_2 ((-1)%Z = (-1)%Z)) by done. cbn [negb andb orb].
  destruct (drawLoop_pass s1 p p top) as (card & it & s2 & s4 & Hcard & Hgive & Hbr & Hd4 & Hh4);
    [done|done|].
  unfold bind at 1. rewrite Hgive. cbv zeta.
  do 2 (unfold bind at 1; unfold modify at 1).
  unfold bind at 1. rewrite Hbr. subst card. cbn [Card.tagOf option_list].
  assert (Hd04 : dealt p 1 s0 s4) by (apply (dealt_trans p 0 1 s0 s1 s4); done).
  pose proof (dealt_fields _ _ _ _ Hd04) as (Htu4 & Hps4 & Hemp4 & Hset4 & Hpl4).
  unfold bind at 1. unfold gets at 1.
  rewrite Hset4. change (settings (room s0)) with (settings (room s)). rewrite Hdtp.
  cbn [negb andb].
  unfold bind at 1. unfold gets at 1.
  change (option_list (Some (Card.freshTag (hand s1 p)))) with [Card.freshTag (hand s1 p)].
  rewrite (pass_found [] p s1 s4 it top _ (unplayed_nil _) Hh4).
  rewrite (bool_decide_eq_true_2 (p = p)) by done. cbn [andb].
  change (started (room s1)) with (started (room s)).
  change (Player.mustStack (heap s1 p)) with
    (Player.mustStack (update p (Player.setDrawing true)
                         (update p (Player.setCanDraw false) (heap s)) p)).
  rewrite !update_eq. cbn [Player.mustStack Player.setDrawing Player.setCanDraw].
  destruct (started (room s) && Player.matches (Player.mustStack (heap s p)) top blank);
    cbn [negb].
  - (* the array matches: the turn stays *)
    unfold ret at 1.
    destruct (drawCards_tail p p true s4) as (s8 & Hrun8 & Hd08 & Hdg8 & Hcount8).
    { etrans; [exact Htu4|exact Ht]. }
    assert (Hd8 : dealt p 1 s0 s8) by (apply (dealt_trans p 1 0 s0 s4 s8); done).
    pose proof (dealt_fields _ _ _ _ Hd8) as (Htu8 & _).
    exists s8.
    destruct Hd8 as (Hroom & Htop8 & Hdr8 & Hoth & Hp & Hlen).
    destruct (sameButHand_fields _ _ Hp) as (_ & _ & _ & Hcd8 & _).
    split_and!.
    + exact Hrun8.
    + rewrite Hlen. unfold hand, s0. cbn [heap onPlayer setHeap]. by rewrite update_eq.
    + exact Hdr8.
    + exact Htop8.
    + exact Hdg8.
    + intros q Hq. unfold hand. rewrite Hoth by done. unfold s0.
      cbn [heap onPlayer setHeap]. by rewrite update_ne.
    + etrans; [exact Htu8|exact Ht].
    + rewrite Hcd8. unfold s0. cbn [heap onPlayer setHeap]. by rewrite update_eq.
    + exact Hcount8.
  - (* it does not: the turn is forfeited *)
    unfold bind at 1. unfold modify at 1.
    set (s5 := onPlayer p (Player.setDrawing false) s4).
    assert (Hd5 : dealt p 1 s0 s5).
    { apply dealt_onPlayer; [intros a; apply handOnly_setDrawing|done]. }
    pose proof (dealt_fields _ _ _ _ Hd5) as (Htu5 & Hps5 & _ & _ & Hpl5).
    destruct Hd5 as (Hroom & Htop5 & Hdr5 & Hoth & Hp & Hlen).
    destruct (sameButCards_fields _ _ Hroom) as (_ & _ & _ & _ & Hdir5 & _).
    unfold bind at 1. rewrite nextTurnDefault_nextTurn.
    destruct (nextTurn_plain_exact botPlay passes s5 p np)
      as (s' & Hfin & Hk & Ht' & _ & _ & _ & _ & _ & Hflags & _).
    { rewrite Htu5. exact Ht. }
    { apply (getNextPlayer_same s s5 0 (Some np)); [exact Hps5|exact Htu5|exact Hdir5|exact Hnext]. }
    { by apply Hpl5. }
    exists s'.
    destruct (turnKeeping_fields _ _ Hk) as (_ & _ & _ & Hdeck' & Hpile' & _ & Hq').
    split_and!.
    + rewrite Hfin. unfold handoff. destruct (winner (room s')); [done|]. rewrite Ht'.
      destruct (Player.bot (heap s' np)); [|done].
      unfold bind, ret. by destruct (botPlay np s') as [[[] ?]|].
    + destruct (Hq' p) as (_ & _ & ->). rewrite Hlen. unfold hand, s0.
      cbn [heap onPlayer setHeap]. by rewrite update_eq.
    + unfold drawable in *. rewrite Hdeck', Hpile'. exact Hdr5.
    + unfold topCard. rewrite Hpile'. exact Htop5.
    + destruct (Hq' p) as (_ & -> & _). unfold s5. cbn [heap onPlayer setHeap].
      by rewrite update_eq.
    + intros q Hq. destruct Hk as [_ Pk]. destruct (Pk q) as [_ Hcore]. unfold hand.
      rewrite Hcore, Hoth by done. unfold s0. cbn [heap onPlayer setHeap]. by rewrite update_ne.
    + done.
    + intros Hne. destruct Hflags as (? & ? & _); [congruence|done].
Qed.


(** X29 (drawCards, giveCard): under the rule that a player draws until a
    card can be played ([drawToPlay] on), what the loop waits for is decided
    by its first pass, since every array [giveCard] pushes gets the same
    answer from the matching rule.  When the drawing player has the turn in
    a started game and an array matches the top card, the call returns
    after one pass: one slot more in the hand, the top card and the turn
    stay, the player can draw no more, at most one slot of the hand is
    marked playable and the other players are untouched.  Otherwise no
    number of passes ends the loop: after [b] passes, whatever [b], it is
    still running and the hand has grown by [b] slots, so that the call has
    no result. *)
Theorem drawCards_draws_until_playable (s : State) (p t : PlayerId) (top : Card.t) :
  turn (room s) = Some t ->
  Player.canDraw (heap s p) = true -> Player.drawing (heap s p) = false ->
  drawToPlay (settings (room s)) = true ->
  topCard s = Some top ->
  if bool_decide (t = p) && started (room s)
     && Player.matches (Player.mustStack (heap s p)) top blank
  then 1 <= passes ->
       exists s',
         drawCards botPlay passes p (-1) s = Some (tt, s')
         /\ length (hand s' p) = length (hand s p) + 1
         /\ drawable s' = drawable s - 1
         /\ topCard s' = topCard s
         /\ turn (room s') = Some t
         /\ Player.canDraw (heap s' p) = false
         /\ Player.drawing (heap s' p) = false
         /\ length (filter (fun c => Card.playable c = true) (hand s' p)) <= 1
         /\ (forall q, q <> p -> heap s' q = heap s q)
  else drawCards botPlay passes p (-1) s = None
       /\ forall b, exists s',
            drawLoop botPlay b p (-1) [] 0
              (onPlayer p (Player.setDrawing true) (onPlayer p (Player.setCanDraw false) s))
            = Some (Unfinished, s')
            /\ length (hand s' p) = length (hand s p) + b
            /\ topCard s' = topCard s.
Proof.
  intros Ht Hcd Hdrawing Hdtp Htop.
  pose proof (topCard_pile s top Htop) as Hpile.
  set (s0 := onPlayer p (Player.setCanDraw false) s).
  set (s1 := onPlayer p (Player.setDrawing true) s0).
  assert (Hstart : drawCards botPlay passes p (-1) s
    = (exit <- drawLoop botPlay passes p (-1) [] 0%Z ;;
       match exit with
       | Forfeited => ret tt
       | Unfinished => unfinished
       | Completed =>
           modify (onPlayer p onlyLastDrawnPlayable);;
           fp <- gets (fun s => forcePlay (settings (room s))) ;;
           when (true && negb fp) (emitTo p (EmitCanKeepCard p));;
           modify (onPlayer p (Player.setDrawing false));;
           broadcastState
       end) s1).
  { unfold drawCards. unfold bind at 1. unfold gets at 1.
    rewrite Hdrawing, Hcd. cbn [negb andb orb].
    rewrite !(bool_decide_eq_true_2 ((-1)%Z = (-1)%Z)) by done. cbn [when andb negb].
    do 2 (unfold bind at 1; unfold modify at 1). reflexivity. }
  rewrite Hstart. clear Hstart.
  assert (Hd1 : dealt p 0 s0 s1).
  { apply dealt_onPlayer; [intros a; apply handOnly_setDrawing|apply dealt_refl]. }
  assert (Hms1 : Player.mustStack (heap s1 p) = Player.mustStack (heap s p)).
  { unfold s1, s0. cbn [heap onPlayer setHeap]. by rewrite !update_eq. }
  destruct (bool_decide (t = p) && started (room s)
            && Player.matches (Player.mustStack (heap s p)) top blank) eqn:Hv.
  - intros Hpasses. destruct (Nat.lt_exists_pred 0 passes Hpasses) as (b & Hb & _).
    rewrite Hb.
    unfold bind at 1. rewrite drawLoop_S.
    unfold bind at 1. unfold gets at 1. rewrite drawnPlayable_nil.
    unfold bind at 1. unfold gets at 1.
    rewrite (bool_decide_eq_true_2 ((-1)%Z = (-1)%Z)) by done. cbn [negb andb orb].
    destruct (drawLoop_pass s1 p t top)
      as (card & it & s2 & s4 & Hcard & Hgive & Hbr & Hd4 & Hh4); [done|done|].
    unfold bind at 1. rewrite Hgive. cbv zeta.
    do 2 (unfold bind at 1; unfold modify at 1).
    unfold bind at 1. rewrite Hbr. subst card. cbn [Card.tagOf option_list].
    assert (Hd04 : dealt p 1 s0 s4) by (apply (dealt_trans p 0 1 s0 s1 s4); done).
    pose proof (dealt_fields _ _ _ _ Hd04) as (Htu4 & Hps4 & Hemp4 & Hset4 & Hpl4).
    unfold bind at 1. unfold gets at 1.
    rewrite Hset4. change (settings (room s0)) with (settings (room s)). rewrite Hdtp.
    cbn [negb andb].
    change (option_list (Some (Card.freshTag (hand s1 p)))) with [Card.freshTag (hand s1 p)].
    rewrite drawLoop_found.
    2:{ rewrite (pass_found [] p s1 s4 it top _ (unplayed_nil _) Hh4).
        rewrite Hms1. exact Hv. }
    destruct (drawCards_tail p t true s4) as (s8 & Hrun8 & Hd08 & Hdg8 & Hcount8).
    { etrans; [exact Htu4|exact Ht]. }
    assert (Hd8 : dealt p 1 s0 s8) by (apply (dealt_trans p 1 0 s0 s4 s8); done).
    pose proof (dealt_fields _ _ _ _ Hd8) as (Htu8 & _).
    exists s8.
    destruct Hd8 as (Hroom & Htop8 & Hdr8 & Hoth & Hp & Hlen).
    destruct (sameButHand_fields _ _ Hp) as (_ & _ & _ & Hcd8 & _).
    split_and!.
    + exact Hrun8.
    + rewrite Hlen. unfold hand, s0. cbn [heap onPlayer setHeap]. by rewrite update_eq.
    + exact Hdr8.
    + exact Htop8.
    + etrans; [exact Htu8|exact Ht].
    + rewrite Hcd8. unfold s0. cbn [heap onPlayer setHeap]. by rewrite update_eq.
    + exact Hdg8.
    + exact Hcount8.
    + intros q Hq. rewrite Hoth by done. unfold s0. cbn [heap onPlayer setHeap].
      by rewrite update_ne.
  - assert (Hnever : forall b, exists s',
      drawLoop botPlay b p (-1) [] 0 s1 = Some (Unfinished, s') /\ dealt p b s1 s').
    { intros b.
      apply (drawLoop_never p t top (Player.mustStack (heap s p)) (started (room s))
               b [] 0%Z s1); try done.
      apply unplayed_nil. }
    split.
    + unfold bind at 1. destruct (Hnever passes) as (s' & -> & _). done.
    + intros b. destruct (Hnever b) as (s' & Hrun & Hd).
      exists s'. split; [exact Hrun|].
      destruct (dealt_trans p 0 b s0 s1 s' Hd1 Hd) as (_ & Htop' & _ & _ & _ & Hlen).
      split; [|exact Htop'].
      rewrite Hlen. unfold hand, s0. cbn [heap onPlayer setHeap]. by rewrite update_eq.
Qed.



End DrawOne.

(** ** Leaving a room for good *)

Section LastHumans.
Import Room Facts Seating.
Local Open Scope room_scope.

Variable botPlay : PlayerId -> M unit.
Variable passes : nat.

Lemma broadcastState_bots (s : State) :
  Forall (fun p => Player.bot (heap s p) = true) (players (room s)) ->
  broadcastState s = Some (tt, s).
Proof.
  unfold broadcastState. unfold bind at 1. unfold gets at 1.
  induction (players (room s)) as [|p l IH]; intros Hall; [done|].
  apply Forall_cons in Hall as [Hp Hl].
  cbn [forEach]. unfold bind at 1. unfold sendState at 1.
  unfold bind at 1. unfold gets at 1. rewrite Hp. unfold ret at 1. by apply IH.
Qed.

Lemma others_are_bots (s : State) (p : PlayerId) :
  filter (fun q => Player.bot (heap s q) = false /\ q <> p) (players (room s)) = [] ->
  Forall (fun q => Player.bot (heap s q) = true) (filter (fun q => q <> p) (players (room s))).
Proof.
  intros Hnone. apply Forall_forall. intros q Hq.
  apply list_elem_of_filter in Hq as [Hne Hq].
  destruct (Player.bot (heap s q)) eqn:Hb; [done|].
  assert (Hin : q ∈ filter (fun q => Player.bot (heap s q) = false /\ q <> p) (players (room s))).
  { by apply list_elem_of_filter. }
  rewrite Hnone in Hin. by apply elem_of_nil in Hin.
Qed.

Lemma removePlayer_alone (depth : nat) (s : State) (p : PlayerId) (replace : bool) :
  filter (fun q => Player.bot (heap s q) = false /\ q <> p) (players (room s)) = [] ->
  exists s',
    removePlayer botPlay (S depth) p replace s = Some (tt, s')
    /\ room s' = setPlayers (filter (fun q => q <> p) (players (room s)))
                   (setIsRoomEmpty true (room s))
    /\ heap s' p = Player.setCards [] (Player.setInRoom false
                     (Player.setRoomId EmptyString (heap s p)))
    /\ (forall q, q <> p -> heap s' q = heap s q)
    /\ outbox s' = outbox s /\ rand s' = rand s /\ freshPlayer s' = freshPlayer s.
Proof.
  intros Hnone. cbn [removePlayer]. unfold bind at 1. unfold gets at 1.
  rewrite Hnone. cbn [length]. rewrite (bool_decide_eq_true_2 (0 = 0)) by done.
  unfold bind at 1. unfold modify at 1.
  unfold bind at 1. unfold gets at 1. cbn [room onRoom setRoom isRoomEmpty setIsRoomEmpty].
  rewrite andb_false_r.
  unfold bind at 1. unfold modify at 1.
  set (s1 := onRoom _ (onRoom _ s)).
  unfold bind at 1. rewrite (broadcastState_bots s1).
  2:{ unfold s1. cbn [room heap onRoom setRoom players setPlayers setIsRoomEmpty].
      by apply others_are_bots. }
  do 3 (unfold bind at 1; unfold modify at 1).
  unfold bind at 1. unfold gets at 1.
  rewrite (bool_decide_eq_false_2 (0 = 1)) by lia. cbn [andb when]. unfold ret.
  eexists. split; [reflexivity|].
  cbn [room heap outbox rand freshPlayer onPlayer onRoom setRoom setHeap].
  split_and!; try done.
  - by rewrite !update_eq.
  - intros q Hq. by rewrite !update_ne.
Qed.

(** X17 (removePlayer): when no other human is seated, the player that
    leaves is not replaced by a bot, whatever [replace] says: the room is
    marked empty, the seat is removed and only bots stay seated; nothing is
    emitted and no bot is created.  The player object is reset (no room, no
    cards); turn and host are left as they were, even when they point to
    the player that left. *)
Theorem removePlayer_last_human (depth : nat) (s : State) (p : PlayerId) (replace : bool) :
  filter (fun q => Player.bot (heap s q) = false /\ q <> p) (players (room s)) = [] ->
  exists s',
    removePlayer botPlay (S depth) p replace s = Some (tt, s')
    /\ isRoomEmpty (room s') = true
    /\ players (room s') = filter (fun q => q <> p) (players (room s))
    /\ Forall (fun q => Player.bot (heap s' q) = true) (players (room s'))
    /\ turn (room s') = turn (room s) /\ host (room s') = host (room s)
    /\ Player.inRoom (heap s' p) = false /\ Player.roomId (heap s' p) = EmptyString
    /\ hand s' p = []
    /\ (forall q, q <> p -> heap s' q = heap s q)
    /\ outbox s' = outbox s /\ freshPlayer s' = freshPlayer s.
Proof.
  intros Hnone.
  destruct (removePlayer_alone depth s p replace Hnone)
    as (s' & Hrun & Hroom & Hp & Hoth & Hout & _ & Hfresh).
  exists s'. unfold hand. rewrite Hroom, Hp. split_and!; try done.
  cbn [players setPlayers]. apply Forall_forall. intros q Hq.
  pose proof (others_are_bots s p Hnone) as Hb. rewrite Forall_forall in Hb.
  specialize (Hb q Hq). apply list_elem_of_filter in Hq as [Hne _]. by rewrite Hoth.
Qed.

Lemma removePlayer_S (depth : nat) (player : PlayerId) (replace : bool) :
  removePlayer botPlay (S depth) player replace =
    (humans <- gets (fun s =>
       filter (fun p => Player.bot (heap s p) = false /\ p <> player) (players (room s))) ;;
     (if bool_decide (length humans = 0) then modify (onRoom (setIsRoomEmpty true))
      else
        h <- gets (fun s => host (room s)) ;;
        when (bool_decide (h = player)) (
          k <- random (length humans) ;;
          match humans !! k with
          | Some h' => modify (onRoom (setHost h'))
          | None => throw
          end)) ;;
     empty <- gets (fun s => isRoomEmpty (room s)) ;;
     (if replace && negb empty then
        b <- createBot (Some player) ;; addBot botPlay b (Some player)
      else modify (onRoom (fun r => setPlayers (filter (fun p => p <> player) (players r)) r))) ;;
     broadcastState ;;
     modify (onPlayer player (Player.setRoomId EmptyString)) ;;
     modify (onPlayer player (Player.setInRoom false)) ;;
     modify (onPlayer player (Player.setCards [])) ;;
     st <- gets (fun s => started (room s)) ;;
     when (bool_decide (length humans = 1) && negb replace && st) (
       h <- gets (fun s => host (room s)) ;;
       removePlayer botPlay depth h false ;;
       h <- gets (fun s => host (room s)) ;;
       emitTo h (EmitKicked h))).
Proof. reflexivity. Qed.

(** X18 (removePlayer): in a started game, removing without replacement one
    of the last two humans removes the other one too: the remaining human
    (made host when the leaving player was) loses the seat, the room and the
    hand as well, the room is marked empty and ["kicked"] is the last
    message emitted, to that player. *)
Theorem removePlayer_kicks_last_human (depth : nat) (s : State) (p h t : PlayerId) :
  started (room s) = true ->
  turn (room s) = Some t ->
  filter (fun q => Player.bot (heap s q) = false /\ q <> p) (players (room s)) = [h] ->
  host (room s) = p \/ host (room s) = h ->
  isRoomEmpty (room s) = false ->
  exists s',
    removePlayer botPlay (S (S depth)) p false s = Some (tt, s')
    /\ isRoomEmpty (room s') = true
    /\ players (room s') = filter (fun q => q <> h) (filter (fun q => q <> p) (players (room s)))
    /\ host (room s') = h
    /\ Player.inRoom (heap s' p) = false /\ hand s' p = []
    /\ Player.inRoom (heap s' h) = false /\ hand s' h = []
    /\ (forall q, q <> p -> q <> h -> heap s' q = heap s q)
    /\ (Player.socket (heap s h) = true -> last (outbox s') = Some (EmitKicked h)).
Proof.
  intros Hst Ht Hhum Hhost Hempty.
  assert (Hh : Player.bot (heap s h) = false /\ h <> p /\ h ∈ players (room s)).
  { assert (Hin : h ∈ filter (fun q => Player.bot (heap s q) = false /\ q <> p) (players (room s))).
    { rewrite Hhum. apply list_elem_of_here. }
    apply list_elem_of_filter in Hin as [[? ?] ?]. done. }
  destruct Hh as (Hhb & Hhp & Hhin).
  rewrite removePlayer_S.
  unfold bind at 1. unfold gets at 1. rewrite Hhum. cbn [length].
  rewrite (bool_decide_eq_false_2 (1 = 0)) by lia.
  (* the host *)
  assert (Hstep : exists s1,
    (h0 <- gets (fun s0 : State => host (room s0)) ;;
     when (bool_decide (h0 = p))
       (k <- random 1 ;;
        match [h] !! k with
        | Some h' => modify (onRoom (setHost h'))
        | None => throw
        end)) s = Some (tt, s1)
    /\ heap s1 = heap s /\ outbox s1 = outbox s
    /\ room s1 = setHost h (room s)).
  { unfold bind at 1. unfold gets at 1.
    destruct (decide (host (room s) = p)) as [E|E].
    - rewrite bool_decide_eq_true_2 by done. unfold when, bind. rewrite random_run.
      pose proof (randBelow_lt 1 (rand s) ltac:(lia)) as Hk.
      cbn [fst snd]. replace ((Deck.randBelow 1 (rand s)).1) with 0 by lia.
      cbn [lookup list_lookup]. eexists. split; [reflexivity|]. done.
    - rewrite bool_decide_eq_false_2 by done. exists s. split; [done|].
      split_and!; try done. destruct Hhost as [?|Hh']; [done|].
      rewrite <- Hh'. by destruct (room s). }
  destruct Hstep as (s1 & Hrun1 & Hheap1 & Hout1 & Hroom1).
  unfold bind at 1. rewrite Hrun1.
  unfold bind at 1. unfold gets at 1. rewrite Hroom1. cbn [isRoomEmpty setHost andb].
  unfold bind at 1. unfold modify at 1.
  set (s2 := onRoom _ s1).
  assert (Hroom2 : room s2 = setPlayers (filter (fun q => q <> p) (players (room s)))
                               (setHost h (room s))).
  { unfold s2. cbn [room onRoom setRoom]. by rewrite Hroom1. }
  unfold bind at 1. rewrite (broadcastState_run s2 t) by (by rewrite Hroom2).
  do 3 (unfold bind at 1; unfold modify at 1).
  set (s3 := onPlayer p _ (onPlayer p _ (onPlayer p _ (setOutbox _ s2)))).
  assert (Hroom3 : room s3 = room s2) by done.
  assert (Hp3 : heap s3 p = Player.setCards [] (Player.setInRoom false
                               (Player.setRoomId EmptyString (heap s p)))).
  { unfold s3, s2. cbn [heap onPlayer onRoom setRoom setHeap setOutbox].
    by rewrite !update_eq, Hheap1. }
  assert (Hq3 : forall q, q <> p -> heap s3 q = heap s q).
  { intros q Hq. unfold s3, s2. cbn [heap onPlayer onRoom setRoom setHeap setOutbox].
    by rewrite !update_ne, Hheap1. }
  unfold bind at 1. unfold gets at 1. rewrite Hroom3, Hroom2.
  cbn [started setPlayers setHost]. rewrite Hst.
  rewrite (bool_decide_eq_true_2 (1 = 1)) by done. cbn [negb andb when].
  unfold bind at 1. unfold gets at 1. rewrite Hroom3, Hroom2. cbn [host setPlayers setHost].
  (* the other human goes *)
  destruct (removePlayer_alone depth s3 h false) as (s4 & Hrun4 & Hroom4 & Hp4 & Hq4 & Hout4 & _).
  { rewrite Hroom3, Hroom2. cbn [players setPlayers setHost].
    match goal with |- ?l = [] => destruct l as [|q l'] eqn:E; [done|exfalso] end.
    assert (Hq : q ∈ q :: l') by apply list_elem_of_here.
    rewrite <- E in Hq. apply list_elem_of_filter in Hq as [[Hb Hqh] Hq].
    apply list_elem_of_filter in Hq as [Hqp Hq]. rewrite Hq3 in Hb by done.
    assert (Hin : q ∈ filter (fun q => Player.bot (heap s q) = false /\ q <> p) (players (room s))).
    { by apply list_elem_of_filter. }
    rewrite Hhum in Hin. apply list_elem_of_singleton in Hin. done. }
  unfold bind at 1. rewrite Hrun4.
  unfold bind at 1. unfold gets at 1.
  rewrite Hroom4, Hroom3, Hroom2. cbn [host setPlayers setHost setIsRoomEmpty].
  unfold emitTo, bind, gets. rewrite Hp4. cbn [Player.socket Player.setCards Player.setInRoom Player.setRoomId].
  rewrite Hq3 by done.
  assert (Hfinal : forall s5, room s5 = room s4 -> heap s5 = heap s4 ->
    isRoomEmpty (room s5) = true
    /\ players (room s5) = filter (fun q => q <> h) (filter (fun q => q <> p) (players (room s)))
    /\ host (room s5) = h
    /\ Player.inRoom (heap s5 p) = false /\ hand s5 p = []
    /\ Player.inRoom (heap s5 h) = false /\ hand s5 h = []
    /\ (forall q, q <> p -> q <> h -> heap s5 q = heap s q)).
  { intros s5 -> Hh5. unfold hand. rewrite Hh5, Hroom4, Hroom3, Hroom2, Hp4.
    rewrite (Hq4 p) by done. rewrite Hp3.
    split_and!; try done.
    intros q Hqp Hqh. rewrite Hq4 by done. by apply Hq3. }
  destruct (Player.socket (heap s h)) eqn:Hsock; cbn [when].
  - unfold emit, modify. eexists. split; [reflexivity|].
    destruct (Hfinal s4 eq_refl eq_refl) as (? & ? & ? & ? & ? & ? & ? & ?).
    split_and!; try done.
    intros _. cbn [outbox setOutbox]. apply last_snoc.
  - unfold ret. exists s4. split; [reflexivity|].
    destruct (Hfinal s4 eq_refl eq_refl) as (? & ? & ? & ? & ? & ? & ? & ?).
    split_and!; try done.
Qed.

End LastHumans.

(** ** The gateway *)

Section GatewayFacts.
Import Room Facts Seating.
Local Open Scope room_scope.

Variable botPlay : PlayerId -> M unit.
Variable passes : nat.

(** X20 (leaveRoom): when the last human of a room leaves, the room is
    marked empty but stays in the registry: [removePlayer] has reset the
    [roomId] of the player before the handler deletes [rooms[player.roomId]],
    so the deletion misses the room.  No room with a non-empty id leaves
    the registry. *)
Theorem leaveRoom_keeps_empty_room (depth : nat) (caller : PlayerId) (sv : Gateway.Server)
    (r : Room.t) :
  Player.inRoom (Gateway.heap sv caller) = true ->
  Gateway.rooms sv !! Player.roomId (Gateway.heap sv caller) = Some r ->
  Player.roomId (Gateway.heap sv caller) <> EmptyString ->
  filter (fun q => Player.bot (Gateway.heap sv q) = false /\ q <> caller) (players r) = [] ->
  exists sv' r',
    Gateway.leaveRoom botPlay (S depth) caller sv = Some sv'
    /\ Gateway.rooms sv' !! Player.roomId (Gateway.heap sv caller) = Some r'
    /\ isRoomEmpty r' = true
    /\ players r' = filter (fun q => q <> caller) (players r)
    /\ (forall k, k <> EmptyString ->
          is_Some (Gateway.rooms sv' !! k) <-> is_Some (Gateway.rooms sv !! k))
    /\ Player.inRoom (Gateway.heap sv' caller) = false
    /\ Player.roomId (Gateway.heap sv' caller) = EmptyString.
Proof.
  intros Hin Hroom Hkey Hnone.
  unfold Gateway.leaveRoom. rewrite Hin, Hroom. cbn [negb].
  destruct (removePlayer_alone botPlay depth (Gateway.enter r sv) caller true Hnone)
    as (s' & Hrun & Hr' & Hp & _).
  rewrite Hrun. rewrite Hr'. cbn [isRoomEmpty setPlayers setIsRoomEmpty].
  eexists. exists (room s'). split; [reflexivity|].
  cbn [Gateway.rooms Gateway.heap Gateway.leave]. rewrite Hp.
  cbn [Player.roomId Player.inRoom Player.setCards Player.setInRoom Player.setRoomId].
  split_and!; try done.
  - rewrite lookup_delete_ne by done. rewrite Hr'. apply lookup_insert_eq.
  - rewrite Hr'. done.
  - rewrite Hr'. done.
  - intros k Hk. rewrite lookup_delete_ne by done.
    destruct (decide (k = Player.roomId (Gateway.heap sv caller))) as [->|Hk'].
    + rewrite lookup_insert_eq, Hroom. split; eauto.
    + by rewrite lookup_insert_ne.
Qed.

Lemma at_alter {A} (f : A -> A) (l : list A) (i : Z) (x : A) :
  at_ l i = Some x -> at_ (alter f (Z.to_nat i) l) i = Some (f x).
Proof.
  unfold at_. destruct (0 <=? i)%Z; [|done]. intros H.
  by rewrite list_lookup_alter_eq, H.
Qed.

(** X21 (play-card): the handler gives a wild card the colour sent along
    before [playCard] decides on the play.  When the turn player sends a
    wild card that cannot be played (the card is not playable, or the player
    may not play), the play is refused and yet the card in the hand has
    taken the colour; room, other players and outbox are unchanged. *)
Theorem playCardHandler_recolours_unplayed_wild (caller : PlayerId) (index : Z)
    (color : option Z) (c : Card.CardColor) (sv : Gateway.Server) (r : Room.t) (card : Card.t) :
  Player.inRoom (Gateway.heap sv caller) = true ->
  Gateway.rooms sv !! Player.roomId (Gateway.heap sv caller) = Some r ->
  started r = true -> turn r = Some caller ->
  at_ (Player.cards (Gateway.heap sv caller)) index = Some card ->
  Card.type card = Some Card.Plus4 \/ Card.type card = Some Card.Wildcard ->
  Gateway.chosenColor color = Some c ->
  Player.canPlay (Gateway.heap sv caller) = false \/ Card.playable card = false ->
  exists sv',
    Gateway.playCardHandler botPlay passes caller index color sv = Some sv'
    /\ at_ (Player.cards (Gateway.heap sv' caller)) index = Some (Card.setColor c card)
    /\ length (Player.cards (Gateway.heap sv' caller))
       = length (Player.cards (Gateway.heap sv caller))
    /\ Gateway.rooms sv' !! Player.roomId (Gateway.heap sv caller) = Some r
    /\ (forall q, q <> caller -> Gateway.heap sv' q = Gateway.heap sv q)
    /\ Gateway.outbox sv' = Gateway.outbox sv.
Proof.
  intros Hin Hroom Hst Ht Hcard Hty Hcol Hrej.
  unfold Gateway.playCardHandler. rewrite Hin, Hroom, Hst, Ht, Hcard, Hcol. cbn [negb].
  rewrite bool_decide_eq_true_2 by done. cbn [negb].
  replace (bool_decide (Card.type card = Some Card.Plus4) || bool_decide (Card.type card = Some Card.Wildcard))
    with true.
  2:{ destruct Hty as [-> | ->]; done. }
  unfold Gateway.within.
  set (sv1 := Gateway.recolour caller index c sv).
  assert (Hme : heap (Gateway.enter r sv1) caller
                = Player.setCards (alter (Card.setColor c) (Z.to_nat index)
                                     (Player.cards (Gateway.heap sv caller)))
                    (Gateway.heap sv caller)).
  { unfold sv1. cbn [heap Gateway.enter Gateway.heap Gateway.recolour]. by rewrite update_eq. }
  assert (Hplay : playCard botPlay passes caller index (Gateway.enter r sv1)
                  = Some (tt, Gateway.enter r sv1)).
  { unfold playCard. unfold bind at 1. unfold gets at 1. rewrite Hme.
    cbn [Player.canPlay Player.cards Player.setCards].
    destruct (Player.canPlay (Gateway.heap sv caller)) eqn:Hcp; [|done]. cbn [negb].
    rewrite (at_alter _ _ _ _ Hcard).
    unfold bind at 1. unfold theTurn at 1. cbn [room Gateway.enter]. rewrite Ht.
    destruct Hrej as [?|Hpl]; [done|]. rewrite playable_setColor, Hpl.
    by rewrite orb_true_r. }
  rewrite Hplay. eexists. split; [reflexivity|].
  cbn [Gateway.heap Gateway.rooms Gateway.outbox Gateway.leave heap room outbox Gateway.enter].
  unfold sv1. cbn [Gateway.heap Gateway.rooms Gateway.outbox Gateway.recolour].
  rewrite update_eq. cbn [Player.cards Player.setCards].
  split_and!; try done.
  - by apply at_alter.
  - by rewrite length_alter.
  - by rewrite lookup_insert_eq.
  - intros q Hq. by rewrite update_ne.
Qed.

(** X22 (play-card, playCard): a playable Wildcard sent with a colour from
    red to blue lies on top of the pile carrying that colour, which is never
    the colourless value; the turn passes to the next player, and the hand
    loses the card (and gains the uno penalty when it is due). *)
Theorem playCardHandler_wild_takes_colour (caller np : PlayerId) (index : Z)
    (color : option Z) (c : Card.CardColor) (sv : Gateway.Server) (r : Room.t) (card : Card.t) :
  Player.inRoom (Gateway.heap sv caller) = true ->
  Gateway.rooms sv !! Player.roomId (Gateway.heap sv caller) = Some r ->
  started r = true -> turn r = Some caller ->
  at_ (Player.cards (Gateway.heap sv caller)) index = Some card ->
  Card.type card = Some Card.Wildcard ->
  Gateway.chosenColor color = Some c ->
  Player.canPlay (Gateway.heap sv caller) = true -> Card.playable card = true ->
  getNextPlayer 0 (Gateway.enter r sv) = Some (Some np, Gateway.enter r sv) ->
  2 <= length (deck r) + length (pile r) ->
  exists s',
    Gateway.playCardHandler botPlay passes caller index color sv
    = match handoff botPlay s' with
      | Some (_, s) =>
          Some (Gateway.leave (Player.roomId (Gateway.heap sv caller)) s
                  (Gateway.recolour caller index c sv))
      | None => None
      end
    /\ topCard s' = Some (Card.setColor c card)
    /\ c <> Card.NoColor
    /\ turn (room s') = Some np
    /\ length (hand s' caller) + 1
       = length (Player.cards (Gateway.heap sv caller))
         + (if bool_decide (length (Player.cards (Gateway.heap sv caller)) = 2)
               && negb (Player.hasCalledUno (Gateway.heap sv caller))
            then if Player.drawing (Gateway.heap sv caller) || isRoomEmpty r then 0 else 2
            else 0).
Proof.
  intros Hin Hroom Hst Ht Hcard Hty Hcol Hcp Hpl Hnext Hcards.
  unfold Gateway.playCardHandler. rewrite Hin, Hroom, Hst, Ht, Hcard, Hcol. cbn [negb].
  rewrite bool_decide_eq_true_2 by done. cbn [negb].
  rewrite (bool_decide_eq_true_2 (Card.type card = Some Card.Wildcard)) by done. rewrite orb_true_r.
  unfold Gateway.within.
  set (sv1 := Gateway.recolour caller index c sv).
  assert (Hme : heap (Gateway.enter r sv1) caller
                = Player.setCards (alter (Card.setColor c) (Z.to_nat index)
                                     (Player.cards (Gateway.heap sv caller)))
                    (Gateway.heap sv caller)).
  { unfold sv1. cbn [heap Gateway.enter Gateway.heap Gateway.recolour]. by rewrite update_eq. }
  destruct (playCard_plain_exact botPlay passes (Gateway.enter r sv1) caller np index
              (Card.setColor c card))
    as (s' & Hrun & Htop & Ht' & _ & _ & _ & _ & _ & Hlen & _).
  - exact Ht.
  - by rewrite Hme.
  - unfold hand. rewrite Hme. by apply at_alter.
  - by rewrite playable_setColor.
  - by rewrite type_setColor, Hty.
  - by rewrite type_setColor, Hty.
  - by rewrite type_setColor, Hty.
  - assert (Hfl : flipped (Card.setColor c card) (Gateway.enter r sv1) = Gateway.enter r sv1).
    { unfold flipped. rewrite bool_decide_eq_false_2; [done|]. by rewrite type_setColor, Hty. }
    rewrite Hfl.
    apply (getNextPlayer_same (Gateway.enter r sv) (Gateway.enter r sv1) 0 (Some np)); done.
  - exact Hcards.
  - exists s'. rewrite Hrun. split; [reflexivity|]. split; [exact Htop|].
    split.
    { unfold Gateway.chosenColor in Hcol. destruct color as [z|]; [|done].
      destruct (_ && _) eqn:E; [|done]. apply andb_true_iff in E as [E1 E2].
      apply Z.leb_le in E1, E2. cbn in E1, E2.
      assert (Hz : Z.to_nat z = 0 \/ Z.to_nat z = 1 \/ Z.to_nat z = 2 \/ Z.to_nat z = 3) by lia.
      destruct Hz as [Hz|[Hz|[Hz|Hz]]]; rewrite Hz in Hcol; injection Hcol as <-; done. }
    split; [exact Ht'|].
    unfold hand in Hlen. rewrite Hme in Hlen.
    cbn [Player.cards Player.setCards Player.hasCalledUno Player.drawing] in Hlen.
    rewrite length_alter in Hlen. exact Hlen.
Qed.

Lemma createBot_room (player : option PlayerId) (s s' : State) (b : PlayerId) :
  createBot player s = Some (b, s') -> room s' = room s.
Proof.
  unfold createBot, bind, gets, modify, ret. rewrite random_run. by intros [= _ <-].
Qed.

(** X23 (join-room, add-bot): when no registered room has more than four
    seats, none has after a ["join-room"] or an ["add-bot"] that returns. *)
Theorem seat_limit_kept (caller : PlayerId) (roomId username : string)
    (sv sv' : Gateway.Server) :
  (forall k r, Gateway.rooms sv !! k = Some r -> length (players r) <= 4) ->
  Gateway.joinRoom caller roomId username sv = Some sv'
  \/ Gateway.addBotHandler botPlay caller sv = Some sv' ->
  forall k r, Gateway.rooms sv' !! k = Some r -> length (players r) <= 4.
Proof.
  intros Hinv [Hrun|Hrun] k r' Hk.
  - unfold Gateway.joinRoom in Hrun.
    destruct (negb (bool_decide (String.length roomId = 7))); [injection Hrun as <-; eauto|].
    destruct (Gateway.rooms sv !! roomId) as [r|] eqn:Hr; [|injection Hrun as <-; eauto].
    destruct (decide (length (players r) = 4)) as [E|E].
    { rewrite bool_decide_eq_true_2 in Hrun by done. injection Hrun as <-. eauto. }
    rewrite bool_decide_eq_false_2 in Hrun by done. cbn [orb] in Hrun.
    destruct (started r); [injection Hrun as <-; eauto|].
    destruct (Player.inRoom (Gateway.heap sv caller)); [injection Hrun as <-; eauto|].
    destruct (addPlayer caller _) as [[[] s]|] eqn:Hadd; [|done].
    injection Hrun as <-. cbn [Gateway.rooms Gateway.leave Gateway.setUsernameOf] in Hk.
    destruct (decide (k = roomId)) as [->|Hne].
    + rewrite lookup_insert_eq in Hk. injection Hk as <-.
      unfold addPlayer, bind, gets, modify in Hadd.
      apply broadcastState_room in Hadd. rewrite Hadd.
      cbn [room onRoom onPlayer setRoom setHeap Gateway.enter players setPlayers].
      rewrite length_app. cbn [length]. specialize (Hinv roomId r Hr). lia.
    + rewrite lookup_insert_ne in Hk by done. eauto.
  - unfold Gateway.addBotHandler in Hrun.
    destruct (negb (Player.inRoom (Gateway.heap sv caller))); [injection Hrun as <-; eauto|].
    destruct (Gateway.rooms sv !! _) as [r|] eqn:Hr; [|done].
    destruct (negb (bool_decide (host r = caller))); [injection Hrun as <-; eauto|].
    destruct (decide (length (players r) = 4)) as [E|E].
    { rewrite bool_decide_eq_true_2 in Hrun by done. injection Hrun as <-. eauto. }
    rewrite bool_decide_eq_false_2 in Hrun by done. cbn [orb] in Hrun.
    unfold Gateway.within in Hrun.
    destruct ((b <- createBot None ;; addBot botPlay b None ;; broadcastState) _)
      as [[[] s]|] eqn:Hadd; [|done].
    injection Hrun as <-. cbn [Gateway.rooms Gateway.leave] in Hk.
    destruct (decide (k = Player.roomId (Gateway.heap sv caller))) as [->|Hne].
    + rewrite lookup_insert_eq in Hk. injection Hk as <-.
      unfold bind at 1 in Hadd.
      destruct (createBot None _) as [[b s1]|] eqn:Hcb; [|done].
      apply createBot_room in Hcb.
      unfold bind at 1 in Hadd. unfold addBot in Hadd. unfold bind at 1 in Hadd.
      unfold gets at 1 in Hadd. rewrite Hcb in Hadd. cbn [room Gateway.enter] in Hadd.
      rewrite bool_decide_eq_false_2 in Hadd by done.
      unfold modify in Hadd. apply broadcastState_room in Hadd. rewrite Hadd.
      cbn [room onRoom setRoom players setPlayers]. rewrite Hcb. cbn [room Gateway.enter].
      rewrite length_app. cbn [length]. specialize (Hinv _ r Hr). lia.
    + rewrite lookup_insert_ne in Hk by done. eauto.
Qed.

(** X30 (kick-player, removePlayer): when the host kicks a seated player out
    of a room that has not started and keeps a human, the player loses the
    seat and is not replaced; the player object is reset and the others are
    untouched.  All that is emitted is the state broadcast to the players
    that stay: nothing is sent to the player kicked. *)
Theorem kickPlayer_removes_silently (depth : nat) (caller target t : PlayerId)
    (sv : Gateway.Server) (r : Room.t) :
  Player.inRoom (Gateway.heap sv caller) = true ->
  Gateway.rooms sv !! Player.roomId (Gateway.heap sv caller) = Some r ->
  host r = caller -> target ∈ players r ->
  started r = false -> isRoomEmpty r = false -> turn r = Some t ->
  filter (fun q => Player.bot (Gateway.heap sv q) = false /\ q <> target) (players r) <> [] ->
  exists sv' r' msgs,
    Gateway.kickPlayer botPlay (S depth) caller target sv = Some sv'
    /\ Gateway.rooms sv' !! Player.roomId (Gateway.heap sv caller) = Some r'
    /\ players r' = filter (fun q => q <> target) (players r)
    /\ turn r' = turn r /\ isRoomEmpty r' = false
    /\ (target <> caller -> host r' = caller)
    /\ Gateway.heap sv' target
       = Player.setCards [] (Player.setInRoom false
           (Player.setRoomId EmptyString (Gateway.heap sv target)))
    /\ (forall q, q <> target -> Gateway.heap sv' q = Gateway.heap sv q)
    /\ Gateway.outbox sv' = Gateway.outbox sv ++ msgs
    /\ Forall (fun e => exists v, e = EmitState (addressee e) v /\ addressee e <> target) msgs.
Proof.
  intros Hin Hroom Hhost Htarget Hst Hempty Ht Hhum.
  unfold Gateway.kickPlayer. rewrite Hin, Hroom. cbn [negb].
  rewrite (bool_decide_eq_true_2 (host r = caller)) by done. cbn [negb].
  rewrite bool_decide_eq_true_2 by done.
  unfold Gateway.within. cbn [removePlayer].
  set (s := Gateway.enter r sv).
  unfold bind at 1. unfold gets at 1.
  set (humans := filter _ _) in *.
  destruct (removePlayer_host_step s target humans)
    as (s1 & Hrun & Hh & Ho & Hfp & Hps & Htu & Hst1 & Hid & He).
  unfold bind at 1. rewrite Hrun.
  unfold bind at 1. unfold gets at 1. cbn [andb].
  unfold bind at 1. unfold modify at 1.
  set (s2 := onRoom _ s1).
  assert (Htu2 : turn (room s2) = Some t) by (unfold s2; cbn [room onRoom setRoom turn setPlayers]; by rewrite Htu).
  unfold bind at 1. rewrite (broadcastState_run s2 t Htu2).
  do 3 (unfold bind at 1; unfold modify at 1).
  unfold bind at 1. unfold gets at 1.
  cbn [room onPlayer onRoom setRoom setHeap setOutbox].
  assert (Hst2 : started (room s2) = false).
  { unfold s2. cbn [room onRoom setRoom started setPlayers]. by rewrite Hst1. }
  rewrite Hst2, andb_false_r. cbn [when]. unfold ret.
  eexists. exists (room s2), (stateMessages s2 t). split; [reflexivity|].
  cbn [Gateway.rooms Gateway.heap Gateway.outbox Gateway.leave room heap outbox
       onPlayer onRoom setRoom setHeap setOutbox].
  split_and!.
  - apply lookup_insert_eq.
  - unfold s2. cbn [room onRoom setRoom players setPlayers]. by rewrite Hps.
  - by rewrite Htu2.
  - unfold s2. cbn [room onRoom setRoom isRoomEmpty setPlayers]. rewrite He.
    rewrite (bool_decide_eq_false_2 (length humans = 0)) by (intros E; by apply nil_length_inv in E).
    done.
  - intros Hne. unfold s2. cbn [room onRoom setRoom host setPlayers].
    revert Hrun.
    rewrite (bool_decide_eq_false_2 (length humans = 0)) by (intros E; by apply nil_length_inv in E).
    unfold bind at 1. unfold gets at 1.
    change (host (room s)) with (host r). rewrite Hhost.
    rewrite bool_decide_eq_false_2 by congruence. cbn [when]. unfold ret.
    intros [= <-]. done.
  - unfold s2. cbn [heap onRoom setRoom]. by rewrite !update_eq, Hh.
  - intros q Hq. unfold s2. cbn [heap onRoom setRoom]. by rewrite !update_ne, Hh.
  - unfold s2 at 1. cbn [outbox onRoom setRoom]. by rewrite Ho.
  - pose proof (stateMessages_payloads s2 t) as Hpay.
    pose proof (stateMessages_addressees s2 t) as Hadr.
    apply Forall_forall. intros e He'.
    rewrite Forall_forall in Hpay. specialize (Hpay e He').
    exists (project s2 t (addressee e)). split; [exact Hpay|].
    assert (Hin' : addressee e ∈ listeners s2).
    { rewrite <- Hadr. apply list_elem_of_fmap. by exists e. }
    apply list_elem_of_filter in Hin' as [_ Hin'].
    unfold s2 in Hin'. cbn [room onRoom setRoom players setPlayers] in Hin'.
    apply list_elem_of_filter in Hin' as [Hne _]. exact Hne.
Qed.

End GatewayFacts.

(** ** Starting a game, penalties and bots *)

Section StartFacts.
Import Room Facts Seating.
Local Open Scope room_scope.

Variable botPlay : PlayerId -> M unit.
Variable passes : nat.

(** X24 (getNextPlayer): when the turn player is not seated (the state a
    removal without replacement leaves), [findIndex] yields -1 and the next
    player is the first seat, or, when the direction is reversed, the seat
    before the last one; with a single seat and the direction reversed there
    is no next player. *)
Theorem getNextPlayer_turn_not_seated (s : State) (t : PlayerId) :
  turn (room s) = Some t -> t ∉ players (room s) -> players (room s) <> [] ->
  getNextPlayer 0 s =
    Some (if directionReversed (room s)
          then if bool_decide (2 <= length (players (room s)))
               then players (room s) !! (length (players (room s)) - 2)
               else None
          else players (room s) !! 0, s).
Proof.
  intros Ht Hnot Hne. rewrite (getNextPlayer_run s t 0 Ht Hne).
  assert (Hfi : findIndex (fun p => bool_decide (p = t)) (players (room s)) = (-1)%Z).
  { apply findIndex_none. apply Forall_forall. intros q Hq.
    apply bool_decide_eq_false. by intros ->. }
  rewrite Hfi. unfold nextSeat. f_equal. f_equal.
  destruct (players (room s)) as [|a l]; [done|]. cbn [length].
  destruct (directionReversed (room s)).
  - change (-1 - (1 + 0) <? 0)%Z with true. cbn iota.
    destruct (decide (2 <= S (length l))) as [Hlen|Hlen];
      [rewrite bool_decide_eq_true_2 by done|rewrite bool_decide_eq_false_2 by done].
    + replace (Z.of_nat (S (length l)) + (-1 - (1 + 0)))%Z
        with (Z.of_nat (S (length l) - 2)) by lia.
      apply at_nat.
    + apply at_None_iff. lia.
  - destruct (Z.gtb_spec (-1 + (1 + 0)) (Z.of_nat (S (length l)) - 1)) as [H|H]; [lia|].
    done.
Qed.

Lemma giveCards_dealt (p t : PlayerId) (n : nat) (s : State) :
  turn (room s) = Some t -> pile (room s) <> [] -> n <= drawable s ->
  exists s', giveCards n p s = Some (tt, s') /\ dealt p n s s'.
Proof.
  revert s. induction n as [|n IH]; intros s Ht Hpile Hn.
  - exists s. split; [done|apply dealt_refl].
  - cbn [giveCards]. unfold bind.
    destruct (giveCard_dealt s p t Ht Hpile) as (c & s1 & Hrun & Hd).
    rewrite Hrun.
    pose proof (dealt_fields _ _ _ _ Hd) as (Htu & _ & _ & _ & Hpl).
    destruct (IH s1) as (s' & Hrun' & Hd').
    + by rewrite Htu.
    + by apply Hpl.
    + destruct Hd as (_ & _ & Hdr & _). lia.
    + exists s'. split; [exact Hrun'|]. by apply (dealt_trans p 1 n s s1 s').
Qed.

Lemma dealEach (t0 : PlayerId) (l : list PlayerId) :
  forall s : State,
  NoDup l -> turn (room s) = Some t0 -> pile (room s) <> [] -> 7 * length l <= drawable s ->
  exists s',
    forEach (fun p => giveCards 7 p ;; modify (onPlayer p Player.sortCards)) l s = Some (tt, s')
    /\ sameButCards (room s) (room s') /\ topCard s' = topCard s
    /\ drawable s' + 7 * length l = drawable s
    /\ (forall q, q ∈ l -> length (hand s' q) = length (hand s q) + 7)
    /\ (forall q, q ∉ l -> heap s' q = heap s q).
Proof.
  induction l as [|p l IH]; intros s Hnd Ht Hpile Hn.
  - exists s. split; [done|]. split; [apply sameButCards_refl|]. split; [done|].
    split; [simpl; lia|]. split; [|done]. intros q Hq. by apply elem_of_nil in Hq.
  - apply NoDup_cons in Hnd as [Hp Hnd]. cbn [length] in Hn.
    cbn [forEach]. unfold bind at 1. unfold bind at 1.
    destruct (giveCards_dealt p t0 7 s Ht Hpile ltac:(lia)) as (s1 & Hrun & Hd1).
    rewrite Hrun. unfold modify at 1.
    set (s2 := onPlayer p Player.sortCards s1).
    assert (Hd2 : dealt p 7 s s2).
    { apply dealt_onPlayer; [apply handOnly_sortCards|done]. }
    pose proof (dealt_fields _ _ _ _ Hd2) as (Htu & _ & _ & _ & Hpl).
    destruct Hd2 as (Hroom & Htop & Hdr & Hoth & _ & Hlen).
    destruct (IH s2 Hnd) as (s' & Hrun' & Hroom' & Htop' & Hdr' & Hin' & Hout').
    + by rewrite Htu.
    + by apply Hpl.
    + lia.
    + exists s'. split; [exact Hrun'|]. split_and!.
      * by apply (sameButCards_trans _ (room s2)).
      * congruence.
      * cbn [length]. lia.
      * intros q Hq. apply elem_of_cons in Hq as [->|Hq].
        { unfold hand. rewrite (Hout' p Hp). exact Hlen. }
        rewrite (Hin' q Hq). unfold hand. rewrite Hoth; [done|]. by intros ->.
      * intros q Hq. apply not_elem_of_cons in Hq as [Hqp Hq].
        rewrite (Hout' q Hq). by apply Hoth.
Qed.

Lemma generateDeck_length (fresh : nat) : length (Deck.generateDeck fresh) = 104.
Proof. unfold Deck.generateDeck. rewrite length_imap. reflexivity. Qed.

(** X25 (startGame): in a room with distinct seats and cards enough,
    [startGame] generates and shuffles the deck and turns up the starting
    card: what it pushes onto the pile is the array [pickCard()] returned,
    holding the first card of the shuffled deck.  The array has no type and
    gets no colour, whatever card it holds.  Seven slots are dealt to every
    seated player: 103 cards and what lay under the top of the pile, less
    seven per seat, are left to draw.  A seated player at random gets the
    turn and the right to draw and to play; players that are not seated are
    not touched.  The game is marked as started, and the state broadcast,
    only after the move of that player when it is a bot. *)
Theorem startGame_deals (s : State) (t0 : PlayerId) :
  turn (room s) = Some t0 ->
  NoDup (players (room s)) -> players (room s) <> [] ->
  7 * length (players (room s)) <= 103 + length (pile (room s)) ->
  exists s' t c,
    startGame botPlay s
    = (when (Player.bot (heap s' t)) (botPlay t) ;;
       modify (onRoom (setStarted true)) ;;
       broadcastState) s'
    /\ turn (room s') = Some t /\ t ∈ players (room s)
    /\ Player.canDraw (heap s' t) = true /\ Player.canPlay (heap s' t) = true
    /\ players (room s') = players (room s)
    /\ (forall q, q ∈ players (room s) -> length (hand s' q) = length (hand s q) + 7)
    /\ (forall q, q ∉ players (room s) -> heap s' q = heap s q)
    /\ drawable s' + 7 * length (players (room s)) = 103 + length (pile (room s))
    /\ (Deck.shuffleDeck (Deck.generateDeck (freshCard s)) (rand s)).1 !! 0 = Some c
    /\ topCard s' = Some (Card.Splice (Card.freshTag (pile (room s))) (Some c) None false).
Proof.
  intros Ht Hnd Hne Hn.
  unfold startGame. unfold bind at 1. unfold gets at 1.
  do 3 (unfold bind at 1; unfold modify at 1).
  cbn [room rand onRoom setRoom setFreshCard deck setDeck].
  pose proof (shuffleDeck_Permutation (Deck.generateDeck (freshCard s)) (rand s)) as Hperm.
  destruct (Deck.shuffleDeck (Deck.generateDeck (freshCard s)) (rand s)) as [d rs] eqn:Hsh.
  cbn [fst] in Hperm.
  assert (Hlen : length d = 104).
  { rewrite (Permutation_length Hperm). apply generateDeck_length. }
  destruct d as [|c d']; [done|]. cbn [length] in Hlen.
  unfold bind at 1. unfold gets at 1.
  cbn [room rand onRoom setRoom setFreshCard setRand deck setDeck].
  cbv zeta. unfold Deck.pickCard. cbn [fst snd lookup list_lookup delete list_delete].
  do 2 (unfold bind at 1; unfold modify at 1).
  set (top := Card.Splice (Card.freshTag (pile (room s))) (Some c) None false).
  set (sb := onRoom _ (onRoom (setDeck d') _)).
  assert (Hroomb : room sb = setPile (pile (room s) ++ [top]) (setDeck d' (room s))) by done.
  assert (Hheapb : heap sb = heap s) by done.
  assert (Htopb : topCard sb = Some top).
  { unfold topCard. rewrite Hroomb. cbn [pile setPile]. apply last_snoc. }
  unfold bind at 1. unfold gets at 1. rewrite Htopb.
  unfold bind at 1.
  change (bool_decide (Card.type top = Some Card.Plus4)
          || bool_decide (Card.type top = Some Card.Wildcard)) with false.
  cbn [when]. unfold ret at 1.
  unfold bind at 1. unfold gets at 1. rewrite Hroomb. cbn [players setPile setDeck].
  destruct (dealEach t0 (players (room s)) sb Hnd)
    as (sc & Hrunc & Hroomc & Htopc & Hdrc & Hinc & Houtc).
  { by rewrite Hroomb. }
  { rewrite Hroomb. cbn [pile setPile]. intros E. by apply app_nil in E as [_ E]. }
  { unfold drawable. rewrite Hroomb. cbn [pile deck setPile setDeck].
    rewrite length_app. cbn [length]. lia. }
  unfold bind at 1. rewrite Hrunc.
  destruct (sameButCards_fields _ _ Hroomc) as (Htuc & Hpsc & Hstc & _).
  unfold bind at 1. rewrite random_run.
  pose proof (randBelow_lt (length (players (room s))) (rand sc)) as Hk.
  destruct (lookup_lt_is_Some_2 (players (room s))
              ((Deck.randBelow (length (players (room s))) (rand sc)).1)) as [t Hlk].
  { apply Hk. destruct (players (room s)); [done|]. simpl. lia. }
  cbn [fst snd]. unfold bind at 1. unfold modify at 1. rewrite Hlk.
  unfold bind at 1. unfold theTurn at 1. cbn [room onRoom setRoom setRand turn setTurn].
  unfold bind at 1. unfold findPlayable at 1.
  set (sd := onRoom (setTurn (Some t)) (setRand _ sc)).
  change (topCard sd) with (topCard sc). rewrite Htopc, Htopb.
  do 2 (unfold bind at 1; unfold modify at 1).
  unfold bind at 1. unfold gets at 1.
  set (se := onPlayer t (Player.setCanPlay true) _).
  assert (Hint : t ∈ players (room s)) by (by apply list_elem_of_lookup_2 in Hlk).
  exists se, t, c. split; [reflexivity|].
  unfold hand, drawable, topCard, se, sd.
  cbn [room heap freshCard onPlayer onRoom setRoom setHeap setRand turn setTurn players deck pile].
  split_and!; try done.
  - by rewrite !update_eq.
  - by rewrite !update_eq.
  - intros q Hq. specialize (Hinc q Hq). unfold hand in Hinc. rewrite Hheapb in Hinc.
    rewrite <- Hinc.
    destruct (decide (q = t)) as [->|Hqt]; [|by rewrite !update_ne by done].
    rewrite !update_eq. cbn [Player.cards Player.setCanPlay Player.setCanDraw Player.findPlayableCards Player.setCards].
    by rewrite List.length_map.
  - intros q Hq. rewrite !update_ne by (by intros ->). rewrite (Houtc q Hq). by rewrite Hheapb.
  - unfold drawable in Hdrc. rewrite Hdrc, Hroomb. cbn [deck pile setPile setDeck].
    rewrite length_app. cbn [length]. lia.
  - change (topCard sc = Some top). by rewrite Htopc.
Qed.

(** X26 (drawCards): [drawCards(player, n)] with a count makes [n] passes,
    each of which pushes one slot onto the hand of the player, and none when
    the player is already drawing or the room is marked empty; it never
    throws for want of cards.  Deck and pile lose what they could give: the
    cards left to draw are [n] fewer, or none.  The top card, the turn, the
    stack, the other players and the player's rights and flags stay. *)
Theorem drawCards_penalty_count (s : State) (p t : PlayerId) (n : nat) :
  turn (room s) = Some t -> pile (room s) <> [] ->
  let k := if Player.drawing (heap s p) || isRoomEmpty (room s) then 0 else n in
  exists s',
    drawCards botPlay passes p (Z.of_nat n) s = Some (tt, s')
    /\ length (hand s' p) = length (hand s p) + k
    /\ drawable s' = drawable s - k
    /\ topCard s' = topCard s
    /\ (forall q, q <> p -> heap s' q = heap s q)
    /\ turn (room s') = Some t /\ players (room s') = players (room s)
    /\ stack (room s') = stack (room s)
    /\ Player.canDraw (heap s' p) = Player.canDraw (heap s p)
    /\ Player.canPlay (heap s' p) = Player.canPlay (heap s p)
    /\ Player.mustStack (heap s' p) = Player.mustStack (heap s p)
    /\ Player.hasCalledUno (heap s' p) = Player.hasCalledUno (heap s p).
Proof.
  intros Ht Hpile k.
  destruct (drawCards_forced botPlay passes p t n s Ht Hpile) as (s' & Hrun & Hd & _).
  fold k in Hd. destruct Hd as (Hroom & Htop & Hdr & Hoth & Hp & Hlen).
  destruct (sameButCards_fields _ _ Hroom) as (Htu & Hps & _ & Hst & _).
  destruct (sameButHand_fields _ _ Hp) as (_ & Hms & Hcp & Hcd & Hcu & _).
  exists s'. split_and!; try done. by rewrite Htu.
Qed.

(** X27 (add-bot, createBot, addBot): asked by the host of a room with a
    free seat, ["add-bot"] seats a fresh bot after the other players: a
    player object without socket, in the room, with an empty hand; the other
    player objects are not touched.  Asked by anybody else, or for a room
    with four seats, it does nothing. *)
Theorem addBotHandler_seats_bot (caller t : PlayerId) (sv : Gateway.Server) (r : Room.t) :
  Player.inRoom (Gateway.heap sv caller) = true ->
  Gateway.rooms sv !! Player.roomId (Gateway.heap sv caller) = Some r ->
  turn r = Some t ->
  let b := Gateway.freshPlayer sv in
  exists sv',
    Gateway.addBotHandler botPlay caller sv = Some sv'
    /\ if bool_decide (host r = caller) && negb (bool_decide (length (players r) = 4))
       then Gateway.rooms sv' !! Player.roomId (Gateway.heap sv caller)
            = Some (setPlayers (players r ++ [b]) r)
            /\ Player.bot (Gateway.heap sv' b) = true
            /\ Player.socket (Gateway.heap sv' b) = false
            /\ Player.inRoom (Gateway.heap sv' b) = true
            /\ Player.roomId (Gateway.heap sv' b) = id r
            /\ Player.cards (Gateway.heap sv' b) = []
            /\ Gateway.freshPlayer sv' = S b
            /\ (forall q, q <> b -> Gateway.heap sv' q = Gateway.heap sv q)
       else sv' = sv.
Proof.
  intros Hin Hroom Ht b.
  unfold Gateway.addBotHandler. rewrite Hin, Hroom. cbn [negb].
  destruct (decide (host r = caller)) as [Hh|Hh].
  2:{ rewrite !(bool_decide_eq_false_2 (host r = caller)) by done. exists sv. done. }
  rewrite !(bool_decide_eq_true_2 (host r = caller)) by done. cbn [negb orb andb].
  destruct (decide (length (players r) = 4)) as [H4|H4].
  { rewrite !bool_decide_eq_true_2 by done. exists sv. done. }
  rewrite !bool_decide_eq_false_2 by done. cbn [negb].
  unfold Gateway.within. unfold bind at 1.
  unfold createBot, bind, gets, modify, ret. rewrite random_run.
  cbn [room heap freshPlayer setHeap setRand setFreshPlayer Gateway.enter].
  unfold addBot, bind, gets, modify.
  cbn [room heap freshPlayer setHeap setRand setFreshPlayer Gateway.enter].
  rewrite bool_decide_eq_false_2 by done.
  match goal with |- context [broadcastState ?st] => set (s1 := st) end.
  rewrite (broadcastState_run s1 t) by done.
  eexists. split; [reflexivity|].
  cbn [Gateway.rooms Gateway.heap Gateway.freshPlayer Gateway.leave room heap freshPlayer
       setOutbox].
  unfold s1. cbn [room heap freshPlayer onRoom setRoom setHeap setRand setFreshPlayer].
  rewrite lookup_insert_eq. fold b. rewrite decide_True by done.
  split_and!; try done.
  intros q Hq. by rewrite decide_False.
Qed.

(** X28 (call-uno, play-card, playCard): for the turn player holding two
    cards, ["call-uno"] sets the flag, and the play of a number card that
    follows leaves one card in the hand; the same play without the call
    leaves three, the card left and the two penalty cards.  The flag is
    down again after either play. *)
Theorem callUno_spares_penalty (caller np : PlayerId) (index : Z) (color : option Z)
    (sv : Gateway.Server) (r : Room.t) (card : Card.t) :
  Player.inRoom (Gateway.heap sv caller) = true ->
  Gateway.rooms sv !! Player.roomId (Gateway.heap sv caller) = Some r ->
  started r = true -> turn r = Some caller ->
  length (Player.cards (Gateway.heap sv caller)) = 2 ->
  Player.hasCalledUno (Gateway.heap sv caller) = false ->
  Player.canPlay (Gateway.heap sv caller) = true ->
  Player.drawing (Gateway.heap sv caller) = false -> isRoomEmpty r = false ->
  at_ (Player.cards (Gateway.heap sv caller)) index = Some card ->
  Card.playable card = true -> Card.type card = Some Card.NoType ->
  getNextPlayer 0 (Gateway.enter r sv) = Some (Some np, Gateway.enter r sv) ->
  2 <= length (deck r) + length (pile r) ->
  let key := Player.roomId (Gateway.heap sv caller) in
  exists svu s1 s3,
    Gateway.callUno caller sv = Some svu
    /\ Player.hasCalledUno (Gateway.heap svu caller) = true
    /\ Gateway.playCardHandler botPlay passes caller index color svu
       = match handoff botPlay s1 with
         | Some (_, s) => Some (Gateway.leave key s svu)
         | None => None
         end
    /\ length (hand s1 caller) = 1
    /\ Gateway.playCardHandler botPlay passes caller index color sv
       = match handoff botPlay s3 with
         | Some (_, s) => Some (Gateway.leave key s sv)
         | None => None
         end
    /\ length (hand s3 caller) = 3
    /\ Player.hasCalledUno (heap s1 caller) = false
    /\ Player.hasCalledUno (heap s3 caller) = false.
Proof.
  intros Hin Hroom Hst Ht Hlen2 Huno Hcp Hdrawing Hempty Hcard Hpl Hty Hnext Hcards key.
  set (svu := Gateway.setCalledUno caller sv).
  assert (Hmeu : Gateway.heap svu caller = Player.setHasCalledUno true (Gateway.heap sv caller)).
  { unfold svu. cbn [Gateway.heap Gateway.setCalledUno]. by rewrite update_eq. }
  assert (Hfl : forall st, flipped card st = st).
  { intros st. unfold flipped. rewrite bool_decide_eq_false_2; [done|]. by rewrite Hty. }
  destruct (playCard_plain_exact botPlay passes (Gateway.enter r svu) caller np index card)
    as (s1 & Hrun1 & _ & _ & _ & _ & _ & _ & _ & Hlen1 & Hu1 & _); try done;
    try (by rewrite Hty).
  { change (Player.canPlay (Gateway.heap svu caller) = true). by rewrite Hmeu. }
  { change (at_ (Player.cards (Gateway.heap svu caller)) index = Some card). by rewrite Hmeu. }
  { rewrite Hfl.
    apply (getNextPlayer_same (Gateway.enter r sv) (Gateway.enter r svu) 0 (Some np)); done. }
  destruct (playCard_plain_exact botPlay passes (Gateway.enter r sv) caller np index card)
    as (s3 & Hrun3 & _ & _ & _ & _ & _ & _ & _ & Hlen3 & Hu3 & _); try done;
    try (by rewrite Hty).
  { by rewrite Hfl. }
  exists svu, s1, s3.
  assert (Hguard : forall sv0, Gateway.heap sv0 caller = Gateway.heap sv caller
                               \/ Gateway.heap sv0 caller = Gateway.heap svu caller ->
            Gateway.rooms sv0 = Gateway.rooms sv ->
            Gateway.playCardHandler botPlay passes caller index color sv0
            = Gateway.within key r (playCard botPlay passes caller index) sv0).
  { intros sv0 Hme Hrooms. unfold Gateway.playCardHandler.
    assert (Hfields : Player.inRoom (Gateway.heap sv0 caller) = true
                      /\ Player.roomId (Gateway.heap sv0 caller) = key
                      /\ Player.cards (Gateway.heap sv0 caller)
                         = Player.cards (Gateway.heap sv caller)).
    { destruct Hme as [-> | ->]; [done|]. rewrite Hmeu. done. }
    destruct Hfields as (-> & -> & ->). rewrite Hrooms. unfold key. rewrite Hroom, Hst, Ht, Hcard.
    cbn [negb]. rewrite bool_decide_eq_true_2 by done. cbn [negb]. rewrite Hty.
    rewrite !bool_decide_eq_false_2 by done. done. }
  split_and!.
  - unfold Gateway.callUno. rewrite Hin, Hroom, Hst, Ht. cbn [negb].
    rewrite !bool_decide_eq_true_2 by done. done.
  - by rewrite Hmeu.
  - rewrite (Hguard svu (or_intror eq_refl) eq_refl). unfold Gateway.within. by rewrite Hrun1.
  - unfold hand in Hlen1. change (heap (Gateway.enter r svu) caller) with (Gateway.heap svu caller) in Hlen1.
    rewrite Hmeu in Hlen1. cbn [Player.cards Player.hasCalledUno Player.setHasCalledUno negb andb] in Hlen1.
    rewrite andb_false_r in Hlen1. rewrite Hlen2 in Hlen1. unfold hand. lia.
  - rewrite (Hguard sv (or_introl eq_refl) eq_refl). unfold Gateway.within. by rewrite Hrun3.
  - unfold hand in Hlen3. change (heap (Gateway.enter r sv) caller) with (Gateway.heap sv caller) in Hlen3.
    change (room (Gateway.enter r sv)) with r in Hlen3.
    rewrite Huno, Hdrawing, Hempty, Hlen2 in Hlen3.
    rewrite (bool_decide_eq_true_2 (2 = 2)) in Hlen3 by done.
    cbn [negb andb orb] in Hlen3. unfold hand. lia.
  - exact Hu1.
  - exact Hu3.
Qed.

End StartFacts.

(** ** The statements above on the sample rooms *)

Section Instances.
Import Room Facts Seating.
Local Open Scope room_scope.

Lemma getNextPlayer_offset_witness :
  Room.getNextPlayer 4 Sample.game3 = Some (Some 3, Sample.game3).
Proof.
  destruct (getNextPlayer_offset Sample.game3 1 4) as (i & _ & Hfi & Hrun).
  - reflexivity.
  - vm_compute. apply list_elem_of_here.
  - lia.
  - rewrite Hrun. assert (i = 0) as -> by (apply Nat2Z.inj; rewrite <- Hfi; reflexivity).
    reflexivity.
Defined.

Lemma project_opponents_witness :
  o_id <$> v_right (project Sample.full4 1 2) = Some 3
  /\ o_id <$> v_top (project Sample.full4 1 2) = Some 4
  /\ o_id <$> v_left (project Sample.full4 1 2) = Some 1.
Proof.
  destruct (project_opponents Sample.full4 1 2 1) as (Hr & Ht & Hl & _).
  - apply (bool_decide_unpack _). by vm_compute.
  - reflexivity.
  - rewrite Hr, Ht, Hl. split_and!; reflexivity.
Defined.

Lemma broadcastState_delivery_witness :
  exists msgs,
    broadcastState Sample.game3
      = Some (tt, setOutbox (outbox Sample.game3 ++ msgs) Sample.game3)
    /\ addressee <$> msgs = [1; 2; 3].
Proof.
  destruct (broadcastState_delivery Sample.game3 1 eq_refl) as (msgs & Hrun & Hto & _).
  exists msgs. split; [exact Hrun|]. rewrite Hto. reflexivity.
Defined.

Lemma broadcastState_without_turn_witness :
  broadcastState Sample.turnless = None.
Proof.
  rewrite (broadcastState_without_turn Sample.turnless eq_refl). reflexivity.
Defined.

Lemma removePlayer_with_replacement_moves_turn_witness :
  exists s',
    turn (room s') = Some 10
    /\ players (room s') = [10; 2; 3]
    /\ hand s' 10 = hand Sample.game3 1.
Proof.
  destruct (removePlayer_with_replacement_moves_turn Sample.idleBot 0 Sample.game3 1 0)
    as (s' & Ht & Hps & _ & Hh & _).
  - reflexivity.
  - reflexivity.
  - apply (bool_decide_unpack _). by vm_compute.
  - reflexivity.
  - apply (bool_decide_unpack _). by vm_compute.
  - exists s'. split; [exact Ht|]. split; [exact Hps|exact Hh].
Defined.

Lemma onlyTurnActs_game3 : onlyTurnActs Sample.game3.
Proof.
  intros q Hq. destruct q as [|[|[|[|q]]]]; try done.
Qed.

Lemma nextTurn_hands_over_witness :
  exists s',
    nextTurn Sample.idleBot Sample.passes false 0 Sample.game3 = handoff Sample.idleBot s'
    /\ turn (room s') = Some 2
    /\ onlyTurnActs s'.
Proof.
  destruct (nextTurn_hands_over Sample.idleBot Sample.passes Sample.game3 1 2)
    as (s' & Hrun & Ht & _ & _ & _ & Hinv & _).
  - reflexivity.
  - reflexivity.
  - done.
  - apply onlyTurnActs_game3.
  - exists s'. split; [exact Hrun|]. split; [exact Ht|exact Hinv].
Defined.

Lemma playCard_ordinary_witness :
  exists s',
    playCard Sample.idleBot Sample.passes 1 0 Sample.game3 = handoff Sample.idleBot s'
    /\ topCard s' = Some (Sample.card 20 3 Card.Red Card.NoType true)
    /\ turn (room s') = Some 2
    /\ length (hand s' 1) = 2.
Proof.
  destruct (playCard_ordinary Sample.idleBot Sample.passes Sample.game3 1 2 0
              (Sample.card 20 3 Card.Red Card.NoType true))
    as (s' & Hrun & Htop & Ht & _ & _ & _ & Hlen & _).
  - reflexivity.
  - reflexivity.
  - reflexivity.
  - reflexivity.
  - by left.
  - reflexivity.
  - vm_compute. lia.
  - exists s'. split; [exact Hrun|]. split; [exact Htop|]. split; [exact Ht|].
    change (length (hand s' 1) + 1 = 3 + 0) in Hlen. lia.
Defined.

Lemma playCard_reverse_witness :
  exists s',
    playCard Sample.idleBot Sample.passes 1 0 (Sample.gameWith (Sample.card 21 0 Card.Red Card.Reverse true))
      = handoff Sample.idleBot s'
    /\ directionReversed (room s') = true
    /\ turn (room s') = Some 3.
Proof.
  destruct (playCard_reverse Sample.idleBot Sample.passes
              (Sample.gameWith (Sample.card 21 0 Card.Red Card.Reverse true)) 1 0
              (Sample.card 21 0 Card.Red Card.Reverse true) 0)
    as (s' & np & Hrun & Hdir & Hseat & Ht & _).
  - reflexivity.
  - reflexivity.
  - reflexivity.
  - reflexivity.
  - reflexivity.
  - apply (bool_decide_unpack _). by vm_compute.
  - reflexivity.
  - vm_compute. lia.
  - exists s'. split; [exact Hrun|]. split; [exact Hdir|].
    rewrite Ht, <- Hseat. reflexivity.
Defined.

Lemma playCard_last_card_wins_witness :
  exists s',
    playCard Sample.idleBot Sample.passes 1 0 Sample.lastPlay = Some (tt, s')
    /\ winner (room s') = Some 1.
Proof.
  destruct (playCard_last_card_wins Sample.idleBot Sample.passes Sample.lastPlay 1 2
              (Sample.card 20 3 Card.Red Card.NoType true))
    as (s' & Hrun & Hw & _).
  - reflexivity.
  - reflexivity.
  - reflexivity.
  - reflexivity.
  - discriminate.
  - discriminate.
  - discriminate.
  - apply list_elem_of_here.
  - intros q Hq Hne. change (q ∈ [1; 2; 3]) in Hq.
    repeat match goal with
    | H : _ ∈ (_ :: _) |- _ => apply elem_of_cons in H as [->|?]
    | H : _ ∈ [] |- _ => by apply elem_of_nil in H
    end; done.
  - reflexivity.
  - vm_compute. lia.
  - exists s'. split; [exact Hrun|exact Hw].
Defined.

Lemma playCard_skip_witness :
  exists s',
    playCard Sample.idleBot Sample.passes 1 0 (Sample.gameWith (Sample.card 21 0 Card.Red Card.Skip true))
      = handoff Sample.idleBot s'
    /\ turn (room s') = Some 3
    /\ length (hand s' 2) = 2.
Proof.
  destruct (playCard_skip Sample.idleBot Sample.passes
              (Sample.gameWith (Sample.card 21 0 Card.Red Card.Skip true)) 1 2 3 0
              (Sample.card 21 0 Card.Red Card.Skip true))
    as (s' & Hrun & Ht & _ & _ & _ & _ & _ & _ & Hlen).
  - reflexivity.
  - reflexivity.
  - reflexivity.
  - reflexivity.
  - reflexivity.
  - apply (bool_decide_unpack _). by vm_compute.
  - vm_compute. lia.
  - apply list_elem_of_here.
  - reflexivity.
  - reflexivity.
  - vm_compute. lia.
  - exists s'. split; [exact Hrun|]. split; [exact Ht|].
    rewrite (Hlen 2) by done. reflexivity.
Defined.

Lemma drawCards_draw_one_witness :
  (exists s',
     drawCards Sample.idleBot Sample.passes 1 (-1) (Sample.arrays false) = Some (tt, s')
     /\ length (hand s' 1) = 3 /\ turn (room s') = Some 1)
  /\ (exists s',
        drawCards Sample.idleBot Sample.passes 1 (-1) Sample.drawOne
        = handoff Sample.idleBot s'
        /\ length (hand s' 1) = 4 /\ turn (room s') = Some 2).
Proof.
  split.
  - destruct (drawCards_draw_one Sample.idleBot Sample.passes (Sample.arrays false) 1 2
                (Sample.held 0 (Sample.card 11 2 Card.Red Card.NoType false)))
      as (s' & Hrun & Hlen & _ & _ & _ & _ & Hcase).
    + reflexivity.
    + reflexivity.
    + reflexivity.
    + reflexivity.
    + reflexivity.
    + vm_compute. lia.
    + reflexivity.
    + exists s'. split; [exact Hrun|]. split; [exact Hlen|]. by destruct Hcase.
  - destruct (drawCards_draw_one Sample.idleBot Sample.passes Sample.drawOne 1 2
                (Sample.card 11 2 Card.Red Card.NoType false))
      as (s' & Hrun & Hlen & _ & _ & _ & _ & Hcase).
    + reflexivity.
    + reflexivity.
    + reflexivity.
    + reflexivity.
    + reflexivity.
    + vm_compute. lia.
    + reflexivity.
    + exists s'. split; [exact Hrun|]. split; [exact Hlen|]. by destruct Hcase.
Defined.

Lemma playCard_plus4_stacks_witness :
  exists s',
    playCard Sample.idleBot Sample.passes 1 0 Sample.answer4 = handoff Sample.idleBot s'
    /\ stack (room s') = 4%Z
    /\ Player.mustStack (heap s' 2) = true
    /\ turn (room s') = Some 2.
Proof.
  destruct (playCard_plus4_stacks Sample.idleBot Sample.passes Sample.answer4 1 2 0
           (Sample.card 21 0 Card.Blue Card.Plus4 true))
    as (s' & Hrun & Hst & Hms & _ & Ht).
  - reflexivity.
  - reflexivity.
  - reflexivity.
  - reflexivity.
  - reflexivity.
  - apply (bool_decide_unpack _). by vm_compute.
  - vm_compute. lia.
  - apply (bool_decide_unpack _). by vm_compute.
  - reflexivity.
  - apply (bool_decide_unpack _). by vm_compute.
  - vm_compute. lia.
  - exists s'. split_and!; try done.
Defined.


Lemma removePlayer_last_human_witness :
  exists s',
    removePlayer Sample.idleBot 1 1 true Sample.solo = Some (tt, s')
    /\ isRoomEmpty (room s') = true
    /\ players (room s') = [7]
    /\ turn (room s') = Some 1.
Proof.
  destruct (removePlayer_last_human Sample.idleBot 0 Sample.solo 1 true)
    as (s' & Hrun & He & Hps & _ & Ht & _).
  - reflexivity.
  - exists s'. split_and!; try done.
Defined.

Lemma removePlayer_kicks_last_human_witness :
  exists s',
    removePlayer Sample.idleBot 2 1 false Sample.duel = Some (tt, s')
    /\ isRoomEmpty (room s') = true
    /\ players (room s') = []
    /\ last (outbox s') = Some (EmitKicked 2).
Proof.
  destruct (removePlayer_kicks_last_human Sample.idleBot 0 Sample.duel 1 2 1)
    as (s' & Hrun & He & Hps & _ & _ & _ & _ & _ & _ & Hk).
  - reflexivity.
  - reflexivity.
  - reflexivity.
  - by left.
  - reflexivity.
  - exists s'. split_and!; try done. by apply Hk.
Defined.

Lemma leaveRoom_keeps_empty_room_witness :
  exists sv' r',
    Gateway.leaveRoom Sample.idleBot 1 1 (Sample.server Sample.solo) = Some sv'
    /\ Gateway.rooms sv' !! "abcdefg"%string = Some r'
    /\ isRoomEmpty r' = true
    /\ players r' = [7].
Proof.
  destruct (leaveRoom_keeps_empty_room Sample.idleBot 0 1 (Sample.server Sample.solo)
              (room Sample.solo))
    as (sv' & r' & Hrun & Hr & He & Hps & _).
  - reflexivity.
  - apply lookup_singleton_eq.
  - done.
  - reflexivity.
  - exists sv', r'. split_and!; try done.
Defined.

Lemma playCardHandler_recolours_unplayed_wild_witness :
  exists sv',
    Gateway.playCardHandler Sample.idleBot Sample.passes 1 0 (Some 2%Z)
      (Sample.server (Sample.gameWith (Sample.card 21 0 Card.NoColor Card.Plus4 false)))
    = Some sv'
    /\ at_ (Player.cards (Gateway.heap sv' 1)) 0
       = Some (Sample.card 21 0 Card.Green Card.Plus4 false).
Proof.
  destruct (playCardHandler_recolours_unplayed_wild Sample.idleBot Sample.passes 1 0 (Some 2%Z) Card.Green
              (Sample.server (Sample.gameWith (Sample.card 21 0 Card.NoColor Card.Plus4 false)))
              (room (Sample.gameWith (Sample.card 21 0 Card.NoColor Card.Plus4 false)))
              (Sample.card 21 0 Card.NoColor Card.Plus4 false))
    as (sv' & Hrun & Hcard & _).
  - reflexivity.
  - apply lookup_singleton_eq.
  - reflexivity.
  - reflexivity.
  - reflexivity.
  - by left.
  - reflexivity.
  - by right.
  - exists sv'. split; [exact Hrun|exact Hcard].
Defined.

Lemma playCardHandler_wild_takes_colour_witness :
  exists s',
    topCard s' = Some (Sample.card 21 0 Card.Blue Card.Wildcard true)
    /\ turn (room s') = Some 2.
Proof.
  destruct (playCardHandler_wild_takes_colour Sample.idleBot Sample.passes 1 2 0 (Some 3%Z) Card.Blue
              (Sample.server (Sample.gameWith (Sample.card 21 0 Card.NoColor Card.Wildcard true)))
              (room (Sample.gameWith (Sample.card 21 0 Card.NoColor Card.Wildcard true)))
              (Sample.card 21 0 Card.NoColor Card.Wildcard true))
    as (s' & _ & Htop & _ & Ht & _).
  - reflexivity.
  - apply lookup_singleton_eq.
  - reflexivity.
  - reflexivity.
  - reflexivity.
  - reflexivity.
  - reflexivity.
  - reflexivity.
  - reflexivity.
  - reflexivity.
  - vm_compute. lia.
  - exists s'. split; [exact Htop|exact Ht].
Defined.

Lemma seat_limit_kept_witness :
  exists sv',
    Gateway.joinRoom 5 "abcdefg" "eve" (Sample.server Sample.lobby3) = Some sv'
    /\ forall k r, Gateway.rooms sv' !! k = Some r -> length (players r) <= 4.
Proof.
  assert (H : is_Some (Gateway.joinRoom 5 "abcdefg" "eve" (Sample.server Sample.lobby3))).
  { apply (bool_decide_unpack _). by vm_compute. }
  destruct H as [sv' Hrun]. exists sv'. split; [exact Hrun|].
  apply (seat_limit_kept Sample.idleBot 5 "abcdefg" "eve" (Sample.server Sample.lobby3) sv').
  - intros k r Hk. unfold Sample.server in Hk. cbn [Gateway.rooms] in Hk.
    apply lookup_singleton_Some in Hk as [_ <-]. vm_compute. lia.
  - left. exact Hrun.
Defined.

Lemma getNextPlayer_turn_not_seated_witness :
  getNextPlayer 0 Sample.kicked = Some (Some 2, Sample.kicked).
Proof.
  rewrite (getNextPlayer_turn_not_seated Sample.kicked 1).
  - reflexivity.
  - reflexivity.
  - apply (bool_decide_unpack _). by vm_compute.
  - done.
Defined.

Lemma startGame_deals_witness :
  exists s' t c,
    turn (room s') = Some t /\ t ∈ [1; 2; 3]
    /\ length (hand s' 2) = 9
    /\ drawable s' = 84
    /\ topCard s' = Some (Card.Splice 0 (Some c) None false).
Proof.
  destruct (startGame_deals Sample.idleBot Sample.lobby3 1)
    as (s' & t & c & _ & Ht & Hin & _ & _ & _ & Hlen & _ & Hdr & _ & Htop).
  - reflexivity.
  - apply (bool_decide_unpack _). by vm_compute.
  - done.
  - vm_compute. lia.
  - exists s', t, c. split; [exact Ht|]. split; [exact Hin|]. split; [|split].
    + rewrite (Hlen 2); [reflexivity|]. apply (bool_decide_unpack _). by vm_compute.
    + change (drawable s' + 21 = 105) in Hdr. lia.
    + exact Htop.
Defined.

Lemma drawCards_penalty_count_witness :
  exists s',
    drawCards Sample.idleBot Sample.passes 2 2 Sample.game3 = Some (tt, s')
    /\ length (hand s' 2) = 4
    /\ topCard s' = topCard Sample.game3.
Proof.
  destruct (drawCards_penalty_count Sample.idleBot Sample.passes Sample.game3 2 1 2)
    as (s' & Hrun & Hlen & _ & Htop & _).
  - reflexivity.
  - done.
  - exists s'. split; [exact Hrun|]. split; [exact Hlen|exact Htop].
Defined.

Lemma addBotHandler_seats_bot_witness :
  exists sv' r',
    Gateway.addBotHandler Sample.idleBot 1 (Sample.server Sample.lobby3) = Some sv'
    /\ Gateway.rooms sv' !! "abcdefg"%string = Some r'
    /\ players r' = [1; 2; 3; 10]
    /\ Player.bot (Gateway.heap sv' 10) = true.
Proof.
  destruct (addBotHandler_seats_bot Sample.idleBot 1 1 (Sample.server Sample.lobby3)
              (room Sample.lobby3))
    as (sv' & Hrun & Hcase).
  - reflexivity.
  - apply lookup_singleton_eq.
  - reflexivity.
  - change (bool_decide (host (room Sample.lobby3) = 1)
            && negb (bool_decide (length (players (room Sample.lobby3)) = 4))) with true in Hcase.
    destruct Hcase as (Hr & Hb & _).
    exists sv'. eexists. split; [exact Hrun|]. split; [exact Hr|]. split; [reflexivity|exact Hb].
Defined.

Lemma callUno_spares_penalty_witness :
  exists svu s1 s3,
    Gateway.callUno 1 (Sample.server Sample.twoCards) = Some svu
    /\ Gateway.playCardHandler Sample.idleBot Sample.passes 1 0 None svu
       = match handoff Sample.idleBot s1 with
         | Some (_, s) => Some (Gateway.leave "abcdefg" s svu)
         | None => None
         end
    /\ length (hand s1 1) = 1
    /\ Gateway.playCardHandler Sample.idleBot Sample.passes 1 0 None (Sample.server Sample.twoCards)
       = match handoff Sample.idleBot s3 with
         | Some (_, s) => Some (Gateway.leave "abcdefg" s (Sample.server Sample.twoCards))
         | None => None
         end
    /\ length (hand s3 1) = 3.
Proof.
  destruct (callUno_spares_penalty Sample.idleBot Sample.passes 1 2 0 None (Sample.server Sample.twoCards)
              (room Sample.twoCards) (Sample.card 20 3 Card.Red Card.NoType true))
    as (svu & s1 & s3 & Hu & _ & Hrun1 & Hlen1 & Hrun3 & Hlen3 & _).
  - reflexivity.
  - apply lookup_singleton_eq.
  - reflexivity.
  - reflexivity.
  - reflexivity.
  - reflexivity.
  - reflexivity.
  - reflexivity.
  - reflexivity.
  - reflexivity.
  - reflexivity.
  - reflexivity.
  - reflexivity.
  - vm_compute. lia.
  - exists svu, s1, s3. split_and!; try done.
Defined.

Lemma drawCards_draws_until_playable_witness :
  (exists s',
     drawCards Sample.idleBot Sample.passes 1 (-1) (Sample.arrays true) = Some (tt, s')
     /\ length (hand s' 1) = 3 /\ turn (room s') = Some 1)
  /\ drawCards Sample.idleBot Sample.passes 1 (-1) Sample.game3 = None
  /\ (exists s',
        drawLoop Sample.idleBot 5 1 (-1) [] 0
          (onPlayer 1 (Player.setDrawing true)
             (onPlayer 1 (Player.setCanDraw false) Sample.game3))
        = Some (Unfinished, s')
        /\ length (hand s' 1) = 8).
Proof.
  split.
  - destruct (drawCards_draws_until_playable Sample.idleBot Sample.passes (Sample.arrays true)
                1 1 (Sample.held 0 (Sample.card 11 2 Card.Red Card.NoType false))
                eq_refl eq_refl eq_refl eq_refl eq_refl)
      as (s' & Hrun & Hlen & _ & _ & Ht & _).
    + vm_compute. lia.
    + exists s'. split; [exact Hrun|]. split; [exact Hlen|exact Ht].
  - destruct (drawCards_draws_until_playable Sample.idleBot Sample.passes Sample.game3
                1 1 (Sample.card 11 2 Card.Red Card.NoType false)
                eq_refl eq_refl eq_refl eq_refl eq_refl) as [Hnone Hany].
    split; [exact Hnone|].
    destruct (Hany 5) as (s' & Hrun & Hlen & _).
    exists s'. split; [exact Hrun|exact Hlen].
Defined.


Lemma kickPlayer_removes_silently_witness :
  exists sv' r',
    Gateway.kickPlayer Sample.idleBot 1 1 2 (Sample.server Sample.lobby3) = Some sv'
    /\ Gateway.rooms sv' !! "abcdefg"%string = Some r'
    /\ players r' = [1; 3]
    /\ Player.inRoom (Gateway.heap sv' 2) = false.
Proof.
  destruct (kickPlayer_removes_silently Sample.idleBot 0 1 2 1 (Sample.server Sample.lobby3)
              (room Sample.lobby3))
    as (sv' & r' & msgs & Hrun & Hr & Hps & _ & _ & _ & Hh & _).
  - reflexivity.
  - apply lookup_singleton_eq.
  - reflexivity.
  - apply (bool_decide_unpack _). by vm_compute.
  - reflexivity.
  - reflexivity.
  - reflexivity.
  - apply (bool_decide_unpack _). by vm_compute.
  - exists sv', r'. split; [exact Hrun|]. split; [exact Hr|]. split; [exact Hps|].
    by rewrite Hh.
Defined.

End Instances.
